(** * simbabuild: the target graph engine, embedded in Rocq

    A shallow embedding of the registry ([api._]), the target lifecycle
    ([apimixins.expandable]), the schema validator
    ([apiutility.TargetValidator]), source expansion
    ([apiutility.expand_files]), the dependency model ([api.dependency],
    [api.generator], [api.filetype], [api.external]) and the graph-file
    orchestrator ([builder_ninja.builder]).

    Python objects are modelled as the interpreter has them: a class tag
    and an instance dictionary; attribute lookup goes through the class
    (properties, methods, class variables) the way [getattr] does.
    Process-wide state ([utility.haserror], the error console, the class
    variables of [api._]) is threaded explicitly; [sys.exit] and raised
    exceptions are outcomes of their own. *)

From Stdlib Require Import String Ascii List Bool ZArith Arith Lia.
From Stdlib Require Import DecimalString.
Import ListNotations.
Open Scope list_scope.
Open Scope string_scope.

Set Implicit Arguments.
Set Warnings "-register-all".

(* ------------------------------------------------------------------ *)
(** ** Python values *)

(** The values a target attribute can hold.  Target objects are always
    entered in [_.registry] by [Target.__call__], so a reference to one
    is its registry key.  [files] groups are not targets: they carry
    their own context file and argument tuple. *)
Inductive value : Type :=
| VNone
| VBool (b : bool)
| VInt (z : Z)
| VStr (s : string)
| VList (l : list value)
| VTuple (l : list value)
| VSet (l : list value)                 (* in iteration order *)
| VDict (l : list (string * value))
| VRef (h : string)                     (* a registered target *)
| VFiles (id : nat) (ctxfile : string) (args : list value)
| VFun (id : nat)                       (* a Python callable *)
| VMethod (h : string) (name : string)  (* a bound method *)
| VCtx (file : string)                  (* a Context, by its __file__ *)
| VFrame (file : string) (line : Z)     (* inspect.Traceback *)
| VLock (locked : bool).                (* asyncio.Lock *)

(** Python's [==]: structural on scalars and containers ([True == 1]),
    identity on objects. *)
Fixpoint py_eq (a b : value) {struct a} : bool :=
  match a, b with
  | VNone, VNone => true
  | VBool x, VBool y => Bool.eqb x y
  | VBool x, VInt y => Z.eqb (Z.b2z x) y
  | VInt x, VBool y => Z.eqb x (Z.b2z y)
  | VInt x, VInt y => Z.eqb x y
  | VStr x, VStr y => String.eqb x y
  | VList x, VList y
  | VTuple x, VTuple y =>
      (fix go (x y : list value) : bool :=
         match x, y with
         | [], [] => true
         | a :: x', b :: y' => py_eq a b && go x' y'
         | _, _ => false
         end) x y
  | VSet x, VSet y =>
      Nat.eqb (length x) (length y)
      && forallb (fun a => existsb (fun b => py_eq a b) y) x
  | VDict x, VDict y =>
      Nat.eqb (length x) (length y)
      && (fix go (x : list (string * value)) : bool :=
            match x with
            | [] => true
            | (k, a) :: x' =>
                existsb (fun kb => String.eqb k (fst kb) && py_eq a (snd kb)) y
                && go x'
            end) x
  | VRef x, VRef y => String.eqb x y
  | VFiles i _ _, VFiles j _ _ => Nat.eqb i j
  | VFun i, VFun j => Nat.eqb i j
  | VMethod h n, VMethod h' n' => String.eqb h h' && String.eqb n n'
  | VCtx f, VCtx g => String.eqb f g
  | VFrame f l, VFrame g m => String.eqb f g && Z.eqb l m
  | _, _ => false
  end.

(** Python's truth value.  [bunch] defines neither [__bool__] nor
    [__len__], so every object is true. *)
Definition truthy (v : value) : bool :=
  match v with
  | VNone => false
  | VBool b => b
  | VInt z => negb (Z.eqb z 0)
  | VStr s => negb (String.eqb s "")
  | VList l | VTuple l | VSet l => negb (Nat.eqb (length l) 0)
  | VDict l => negb (Nat.eqb (length l) 0)
  | _ => true
  end.

Definition str_of_Z (z : Z) : string := NilZero.string_of_int (Z.to_int z).

(** [str(v)] as used by the [%s] conversions of the source.  Scalars are
    exact; the [repr] of containers and of objects that are not targets
    is not reproduced. *)
Definition py_str (v : value) : string :=
  match v with
  | VNone => "None"
  | VBool true => "True"
  | VBool false => "False"
  | VInt z => str_of_Z z
  | VStr s => s
  | VRef h => h
  | _ => "<object>"
  end.

(* ------------------------------------------------------------------ *)
(** ** Instance dictionaries

    A Python [dict] keeps insertion order; assignment to an existing key
    keeps its position. *)

Definition dict := list (string * value).

Fixpoint dget (k : string) (d : dict) : option value :=
  match d with
  | [] => None
  | (k', v) :: d' => if String.eqb k k' then Some v else dget k d'
  end.

Fixpoint dset (k : string) (v : value) (d : dict) : dict :=
  match d with
  | [] => [(k, v)]
  | (k', v') :: d' =>
      if String.eqb k k' then (k, v) :: d' else (k', v') :: dset k v d'
  end.

Fixpoint ddel (k : string) (d : dict) : dict :=
  match d with
  | [] => []
  | (k', v') :: d' =>
      if String.eqb k k' then d' else (k', v') :: ddel k d'
  end.

Definition dmem (k : string) (d : dict) : bool :=
  match dget k d with Some _ => true | None => false end.

(** [k.startswith('_')] *)
Definition is_private (k : string) : bool :=
  match k with
  | String c _ => Ascii.eqb c "_"%char
  | EmptyString => false
  end.

(* ------------------------------------------------------------------ *)
(** ** Target classes *)

Inductive cls : Type :=
| C_target | C_namedtarget | C_path | C_file | C_folder | C_environment
| C_dependency | C_project | C_generator | C_filetype | C_finder
| C_alias | C_builder | C_external.

Definition cls_eqb (a b : cls) : bool :=
  match a, b with
  | C_target, C_target | C_namedtarget, C_namedtarget | C_path, C_path
  | C_file, C_file | C_folder, C_folder | C_environment, C_environment
  | C_dependency, C_dependency | C_project, C_project
  | C_generator, C_generator | C_filetype, C_filetype
  | C_finder, C_finder | C_alias, C_alias | C_builder, C_builder
  | C_external, C_external => true
  | _, _ => false
  end.

(** [cls.__name__] *)
Definition cls_name (c : cls) : string :=
  match c with
  | C_target => "target" | C_namedtarget => "namedtarget"
  | C_path => "path" | C_file => "file" | C_folder => "folder"
  | C_environment => "environment" | C_dependency => "dependency"
  | C_project => "project" | C_generator => "generator"
  | C_filetype => "filetype" | C_finder => "finder"
  | C_alias => "alias" | C_builder => "builder"
  | C_external => "external"
  end.

(** The target classes in the method resolution order of [c]. *)
Definition mro (c : cls) : list cls :=
  match c with
  | C_target => [C_target]
  | C_namedtarget => [C_namedtarget; C_target]
  | C_path => [C_path; C_namedtarget; C_target]
  | C_file => [C_file; C_path; C_namedtarget; C_target]
  | C_folder => [C_folder; C_path; C_namedtarget; C_target]
  | C_environment => [C_environment; C_namedtarget; C_target]
  | C_dependency => [C_dependency; C_target]
  | C_project => [C_project; C_namedtarget; C_target]
  | C_generator => [C_generator; C_namedtarget; C_target]
  | C_filetype => [C_filetype; C_namedtarget; C_target]
  | C_finder => [C_finder; C_target]
  | C_alias => [C_alias; C_target]
  | C_builder => [C_builder; C_namedtarget; C_target]
  | C_external => [C_external; C_namedtarget; C_dependency; C_target]
  end.

(** [isinstance(obj, k)] for an object of class [c]. *)
Definition isinstance (c k : cls) : bool := existsb (cls_eqb k) (mro c).

(** The public methods a class defines itself (static methods included). *)
Definition own_methods (c : cls) : list string :=
  match c with
  | C_target =>
      ["prepare"; "expand"; "error"; "fatal"; "is_forward_ref";
       "is_normal_target"; "target_name"]
  | C_path => ["get_path"; "generate"]
  | C_environment => ["variable_getter"]
  | C_dependency =>
      ["create"; "executable"; "static_library"; "shared_library";
       "get_output"; "get_sources"; "get_aliases"; "get_dependencies";
       "generate"]
  | C_generator => ["kind_to_ext"; "get_format"; "generate"; "get_output"]
  | C_filetype => ["try_find"; "find"]
  | C_finder => ["find"]
  | C_builder => ["builddir_path"; "rootdir_relpath"; "build"]
  | C_external =>
      ["target_name"; "run"; "get"; "executable"; "library";
       "static_library"; "shared_library"]
  | _ => []
  end.

Definition has_method (c : cls) (k : string) : bool :=
  existsb (fun b => existsb (String.eqb k) (own_methods b)) (mro c).

(** The read-only properties of [expandable]. *)
Definition is_property (k : string) : bool :=
  String.eqb k "expanded" || String.eqb k "prepared".

(* ------------------------------------------------------------------ *)
(** ** Objects and the process state *)

Record node : Type := mkNode {
  n_class : cls;      (* __class__ *)
  n_dict : dict       (* __dict__ *)
}.

Definition heap := list (string * node).

Fixpoint hget (k : string) (h : heap) : option node :=
  match h with
  | [] => None
  | (k', v) :: h' => if String.eqb k k' then Some v else hget k h'
  end.

Fixpoint hset (k : string) (v : node) (h : heap) : heap :=
  match h with
  | [] => [(k, v)]
  | (k', v') :: h' =>
      if String.eqb k k' then (k, v) :: h' else (k', v') :: hset k v h'
  end.

Fixpoint cget (c : cls) (l : list (cls * string)) : option string :=
  match l with
  | [] => None
  | (c', v) :: l' => if cls_eqb c c' then Some v else cget c l'
  end.

(** [utility.haserror] and the error console, the class variables of
    [api._], the [default] class attribute of each target class, the
    file of the current context, the [fields] list of the
    [TargetValidator] in scope, and what has been written to
    [build.ninja]. *)
Record state : Type := mkState {
  haserror : nat;
  console : list string;
  phase : string;
  registry : heap;
  defaults : list (cls * string);
  filetypes : list (value * string);
  finders : list string;
  visited : list string;
  pool_all : list string;
  context_file : string;
  vfields : list string;
  build_ninja : list string
}.

Definition set_haserror (n : nat) (s : state) : state :=
  mkState n s.(console) s.(phase) s.(registry) s.(defaults) s.(filetypes)
          s.(finders) s.(visited) s.(pool_all) s.(context_file) s.(vfields) s.(build_ninja).
Definition set_console (c : list string) (s : state) : state :=
  mkState s.(haserror) c s.(phase) s.(registry) s.(defaults) s.(filetypes)
          s.(finders) s.(visited) s.(pool_all) s.(context_file) s.(vfields) s.(build_ninja).
Definition set_phase (p : string) (s : state) : state :=
  mkState s.(haserror) s.(console) p s.(registry) s.(defaults) s.(filetypes)
          s.(finders) s.(visited) s.(pool_all) s.(context_file) s.(vfields) s.(build_ninja).
Definition set_registry (r : heap) (s : state) : state :=
  mkState s.(haserror) s.(console) s.(phase) r s.(defaults) s.(filetypes)
          s.(finders) s.(visited) s.(pool_all) s.(context_file) s.(vfields) s.(build_ninja).
Definition set_defaults (d : list (cls * string)) (s : state) : state :=
  mkState s.(haserror) s.(console) s.(phase) s.(registry) d s.(filetypes)
          s.(finders) s.(visited) s.(pool_all) s.(context_file) s.(vfields) s.(build_ninja).
Definition set_filetypes (f : list (value * string)) (s : state) : state :=
  mkState s.(haserror) s.(console) s.(phase) s.(registry) s.(defaults) f
          s.(finders) s.(visited) s.(pool_all) s.(context_file) s.(vfields) s.(build_ninja).
Definition set_finders (f : list string) (s : state) : state :=
  mkState s.(haserror) s.(console) s.(phase) s.(registry) s.(defaults)
          s.(filetypes) f s.(visited) s.(pool_all) s.(context_file) s.(vfields) s.(build_ninja).
Definition set_pool_all (p : list string) (s : state) : state :=
  mkState s.(haserror) s.(console) s.(phase) s.(registry) s.(defaults)
          s.(filetypes) s.(finders) s.(visited) p s.(context_file) s.(vfields)
          s.(build_ninja).
Definition set_vfields (f : list string) (s : state) : state :=
  mkState s.(haserror) s.(console) s.(phase) s.(registry) s.(defaults)
          s.(filetypes) s.(finders) s.(visited) s.(pool_all) s.(context_file) f
          s.(build_ninja).
Definition set_build_ninja (b : list string) (s : state) : state :=
  mkState s.(haserror) s.(console) s.(phase) s.(registry) s.(defaults)
          s.(filetypes) s.(finders) s.(visited) s.(pool_all) s.(context_file)
          s.(vfields) b.

(** The state of a fresh process: [phase = 'preload'], nothing registered. *)
Definition initial_state (file : string) : state :=
  mkState 0 [] "preload" [] [] [] [] [] [] file [] [].

(* ------------------------------------------------------------------ *)
(** ** Outcomes

    A call returns, leaves through [sys.exit], raises, or waits for
    ever on a lock nobody will release. *)

Inductive outcome (A : Type) : Type :=
| Ok (a : A) (s : state)
| Exit (s : state)
| Raise (exn : string) (s : state)
| Hang (s : state).

Arguments Ok {A} a s.
Arguments Exit {A} s.
Arguments Raise {A} exn s.
Arguments Hang {A} s.

Definition M (A : Type) : Type := state -> outcome A.

Definition ret {A} (a : A) : M A := fun s => Ok a s.

Definition bind {A B} (m : M A) (f : A -> M B) : M B :=
  fun s =>
    match m s with
    | Ok a s' => f a s'
    | Exit s' => Exit s'
    | Raise e s' => Raise e s'
    | Hang s' => Hang s'
    end.

(** [try: body finally: fin].  An exception of [fin] replaces the one in
    flight. *)
Definition try_finally {A} (body : M A) (fin : M unit) : M A :=
  fun s =>
    match body s with
    | Ok a s' => bind fin (fun _ s'' => Ok a s'') s'
    | Exit s' => bind fin (fun _ s'' => Exit s'') s'
    | Raise e s' => bind fin (fun _ s'' => Raise e s'') s'
    | Hang s' => Hang s'
    end.

Definition sys_exit {A} : M A := fun s => Exit s.
Definition raise {A} (e : string) : M A := fun s => Raise e s.
Definition get_state : M state := fun s => Ok s s.
Definition modify (f : state -> state) : M unit := fun s => Ok tt (f s).

Declare Scope py_scope.
Delimit Scope py_scope with py.
Notation "x <- c1 ;; c2" := (bind c1 (fun x => c2))
  (at level 61, c1 at next level, right associativity) : py_scope.
Notation "c1 ;; c2" := (bind c1 (fun _ => c2))
  (at level 61, right associativity) : py_scope.
Open Scope py_scope.

(** A [for] loop over a list, threading the state. *)
Fixpoint for_each {A} (l : list A) (body : A -> M unit) : M unit :=
  match l with
  | [] => ret tt
  | x :: l' => body x ;; for_each l' body
  end.

(* ------------------------------------------------------------------ *)
(** ** utility.py *)

(** The head of an error line: [Error], [Error in <file>] or
    [Error in <file> at <line>]. *)
Definition error_head (file : option string) (line : option Z) : string :=
  match file with
  | Some f =>
      if negb (String.eqb f "") then
        let p := "Error in " ++ f in
        match line with
        | Some l => if negb (Z.eqb l 0) then p ++ " at " ++ str_of_Z l else p
        | None => p
        end
      else "Error"
  | None => "Error"
  end.

(** [error(reason, file=, line=)] *)
Definition error (reason : string) (file : option string) (line : option Z)
  : M unit :=
  modify (fun s =>
    set_console (List.app s.(console) [error_head file line ++ ": " ++ reason])
      (set_haserror (S s.(haserror)) s)).

(** [fatal(reason, file=, line=)] *)
Definition fatal {A} (reason : string) (file : option string)
  (line : option Z) : M A :=
  error reason file line ;; sys_exit.

(** [stop_on_error()] *)
Definition stop_on_error : M unit :=
  fun s => if Nat.eqb s.(haserror) 0 then Ok tt s else Exit s.

(* ------------------------------------------------------------------ *)
(** ** Attribute access *)

(** [cls.default], looked up along the method resolution order. *)
Definition class_default (s : state) (c : cls) : option string :=
  (fix go (l : list cls) : option string :=
     match l with
     | [] => None
     | b :: l' =>
         match cget b s.(defaults) with
         | Some h => Some h
         | None => go l'
         end
     end) (mro c).

(** [self._expanded] and [self._prepared]: the instance attribute, or the
    class variable [False] of [expandable]. *)
Definition private_flag (k : string) (nd : node) : value :=
  match dget k nd.(n_dict) with
  | Some v => v
  | None => VBool false
  end.

Definition is_expanded (nd : node) : bool := truthy (private_flag "_expanded" nd).
Definition is_prepared (nd : node) : bool := truthy (private_flag "_prepared" nd).

(** [getattr(obj, k)] for the object registered under [h]; [None] is
    [AttributeError].  Properties come before the instance dictionary,
    methods and class variables after it. *)
Definition py_getattr (s : state) (h : string) (nd : node) (k : string)
  : option value :=
  if String.eqb k "expanded" then Some (private_flag "_expanded" nd)
  else if String.eqb k "prepared" then Some (private_flag "_prepared" nd)
  else
    match dget k nd.(n_dict) with
    | Some v => Some v
    | None =>
        if String.eqb k "_expanded" || String.eqb k "_prepared"
        then Some (VBool false)
        else if has_method nd.(n_class) k then Some (VMethod h k)
        else if String.eqb k "default"
        then option_map VRef (class_default s nd.(n_class))
        else None
    end.

Definition py_hasattr (s : state) (h : string) (nd : node) (k : string) : bool :=
  match py_getattr s h nd k with Some _ => true | None => false end.

(** [setattr(obj, k, v)] on a node; [None] is the [AttributeError] of a
    property without setter. *)
Definition node_setattr (nd : node) (k : string) (v : value) : option node :=
  if is_property k then None
  else Some (mkNode nd.(n_class) (dset k v nd.(n_dict))).

(** [bunch.__iter__]: the public keys of [vars(self)] with their
    [getattr] values. *)
Definition bunch_iter (s : state) (h : string) (nd : node)
  : list (string * value) :=
  flat_map
    (fun kv : string * value =>
       if is_private (fst kv) then []
       else match py_getattr s h nd (fst kv) with
            | Some v => [(fst kv, v)]
            | None => []
            end)
    nd.(n_dict).

(** [target_name()]: [prefixed] gives [<class>::<name>], [external]
    gives [external.<kind>::<external_name>], the other classes the raw
    name.  [None] is the [AttributeError] of a missing attribute. *)
Definition target_name (s : state) (h : string) (nd : node) : option string :=
  match nd.(n_class) with
  | C_external =>
      match py_getattr s h nd "kind", py_getattr s h nd "external_name" with
      | Some k, Some e => Some ("external." ++ py_str k ++ "::" ++ py_str e)
      | _, _ => None
      end
  | C_target | C_dependency | C_alias =>
      option_map py_str (py_getattr s h nd "name")
  | c =>
      match py_getattr s h nd "name" with
      | Some n => Some (cls_name c ++ "::" ++ py_str n)
      | None => None
      end
  end.

(** [target.error(reason, field=)] on the object [nd] known as [h]. *)
Definition node_error (h : string) (nd : node) (reason : string)
  (field : option string) : M unit :=
  s <- get_state ;;
  match target_name s h nd with
  | None => raise "AttributeError"
  | Some str_self =>
      let prefix :=
        match field with
        | Some f => if String.eqb f "" then str_self else str_self ++ "." ++ f
        | None => str_self
        end in
      match py_getattr s h nd "_frame" with
      | Some (VFrame f l) => error (prefix ++ ": " ++ reason) (Some f) (Some l)
      | Some _ => raise "AttributeError"
      | None => error (prefix ++ ": " ++ reason) None None
      end
  end.

(** [target.fatal(reason, field=)] *)
Definition node_fatal {A} (h : string) (nd : node) (reason : string)
  (field : option string) : M A :=
  node_error h nd reason field ;; sys_exit.

(** The registered object [h]; a handle always names a registered
    object, the [KeyError] arm is never taken from [Target_call]. *)
Definition lookup (h : string) : M node :=
  fun s =>
    match hget h s.(registry) with
    | Some nd => Ok nd s
    | None => Raise "KeyError" s
    end.

Definition store (h : string) (nd : node) : M unit :=
  modify (fun s => set_registry (hset h nd s.(registry)) s).

Definition target_error (h : string) (reason : string) (field : option string)
  : M unit :=
  nd <- lookup h ;; node_error h nd reason field.

Definition target_fatal {A} (h : string) (reason : string)
  (field : option string) : M A :=
  nd <- lookup h ;; node_fatal h nd reason field.

(** [setattr(registry[h], k, v)] *)
Definition py_setattr (h : string) (k : string) (v : value) : M unit :=
  nd <- lookup h ;;
  match node_setattr nd k v with
  | Some nd' => store h nd'
  | None => raise "AttributeError"
  end.

(* ------------------------------------------------------------------ *)
(** ** The registry: [_.update] and [Target.__call__] *)

(** [_.ensure_can_create(obj)] *)
Definition ensure_can_create (h : string) (obj : node) : M unit :=
  s <- get_state ;;
  if String.eqb s.(phase) "prepare"
  then node_fatal h obj
         ("can't create object while on '" ++ s.(phase) ++ "' phase") None
  else ret tt.

(** [if 'k' in obj.__dict__: x = obj.k; delattr(obj, 'k')] *)
Definition take_flag (k : string) (d : dict) : value * dict :=
  match dget k d with
  | Some v => (v, ddel k d)
  | None => (VBool false, d)
  end.

(** One round of the merge loop of [_.update] for the incoming pair
    [(key, value)] of [obj], merged into the registered object [tname]. *)
Definition merge_field (tname : string) (obj : node) (override : value)
  (kv : string * value) : M unit :=
  let key := fst kv in
  let val := snd kv in
  if String.eqb key "name" then ret tt
  else
    (if is_private key
     then node_error tname obj "forbidden field" (Some key)
     else ret tt) ;;
    s <- get_state ;;
    robj <- lookup tname ;;
    (match py_getattr s tname robj key with
     | Some cur =>
         if negb (py_eq cur val) && negb (truthy override)
         then target_error tname "already exists (use override=True)" (Some key)
         else ret tt
     | None => ret tt
     end) ;;
    py_setattr tname key val.

(** [cls.default = obj] *)
Definition set_class_default (c : cls) (h : string) : M unit :=
  modify (fun s => set_defaults ((c, h) :: s.(defaults)) s).

Definition name_is_default (s : state) (h : string) (nd : node) : M bool :=
  match py_getattr s h nd "name" with
  | Some n => ret (py_eq n (VStr "default"))
  | None => raise "AttributeError"
  end.

(** [_.update(obj)]; the result is the registry key of the returned
    object. *)
Definition update (obj0 : node) : M string :=
  s0 <- get_state ;;
  match target_name s0 "" obj0 with
  | None => raise "AttributeError"
  | Some tname =>
      let (override, d1) := take_flag "override" obj0.(n_dict) in
      let (default, d2) := take_flag "default" d1 in
      let obj := mkNode obj0.(n_class) d2 in
      match hget tname s0.(registry) with
      | Some robj =>
          (if is_expanded robj
           then node_fatal tname robj "can't update an expanded object" None
           else ret tt) ;;
          let robj' := mkNode obj.(n_class) robj.(n_dict) in
          store tname robj' ;;
          s1 <- get_state ;;
          (if truthy default then set_class_default obj.(n_class) tname
           else
             isdef <- name_is_default s1 tname robj' ;;
             if isdef && negb (match class_default s1 obj.(n_class) with
                               | Some _ => true | None => false end)
             then set_class_default obj.(n_class) tname
             else ret tt) ;;
          for_each (bunch_iter s1 tname obj) (merge_field tname obj override) ;;
          ret tname
      | None =>
          store tname obj ;;
          s1 <- get_state ;;
          (if truthy default then set_class_default obj.(n_class) tname
           else
             isdef <- name_is_default s1 tname obj ;;
             if isdef && negb (match class_default s1 obj.(n_class) with
                               | Some _ => true | None => false end)
             then set_class_default obj.(n_class) tname
             else ret tt) ;;
          ensure_can_create tname obj ;;
          ret tname
      end
  end.

(** [Target.__call__(cls, name, **kwargs)], called from the recipe line
    [site].  [report_status] only updates the console status line, which
    is not part of the state. *)
Definition Target_call (c : cls) (name : string) (kwargs : dict)
  (site : string * Z) : M string :=
  let obj := mkNode c (("name", VStr name) :: kwargs) in
  h <- update obj ;;
  s <- get_state ;;
  robj <- lookup h ;;
  store h (mkNode robj.(n_class)
             (dset "_frame" (VFrame (fst site) (snd site))
                (dset "_context" (VCtx s.(context_file)) robj.(n_dict)))) ;;
  ret h.

(** [anext]-free [for] loop that collects what the body produces. *)
Fixpoint map_m {A B} (f : A -> M B) (l : list A) : M (list B) :=
  match l with
  | [] => ret []
  | x :: l' => y <- f x ;; ys <- map_m f l' ;; ret (y :: ys)
  end.

(** [getattr(registry[h], k)], raising [AttributeError]. *)
Definition attr (h : string) (k : string) : M value :=
  s <- get_state ;;
  nd <- lookup h ;;
  match py_getattr s h nd k with
  | Some v => ret v
  | None => raise "AttributeError"
  end.

(** [str(registry[h])] *)
Definition str_of (h : string) : M string :=
  s <- get_state ;;
  nd <- lookup h ;;
  match target_name s h nd with
  | Some n => ret n
  | None => raise "AttributeError"
  end.

(** Assignment to a private attribute: no property is in the way. *)
Definition set_private (h : string) (k : string) (v : value) : M unit :=
  nd <- lookup h ;;
  store h (mkNode nd.(n_class) (dset k v nd.(n_dict))).

(* ------------------------------------------------------------------ *)
(** ** apiutility.py: [TargetValidator] and [Target.get_default] *)

(** The types the validators name. *)
Inductive pytype : Type :=
| T_str | T_bool | T_list | T_set | T_tuple | T_dict | T_bunch | T_files
| T_function
| T_class (c : cls).

Definition class_repr (c : cls) : string :=
  "<class 'simbabuild.api." ++ cls_name c ++ "'>".

Definition type_repr (t : pytype) : string :=
  match t with
  | T_str => "<class 'str'>"
  | T_bool => "<class 'bool'>"
  | T_list => "<class 'list'>"
  | T_set => "<class 'set'>"
  | T_tuple => "<class 'tuple'>"
  | T_dict => "<class 'dict'>"
  | T_bunch => "<class 'simbabuild.utility.bunch'>"
  | T_files => "<class 'simbabuild.api.files'>"
  | T_function => "<class 'function'>"
  | T_class c => class_repr c
  end.

(** [str(type(v))] *)
Definition type_of (s : state) (v : value) : string :=
  match v with
  | VNone => "<class 'NoneType'>"
  | VBool _ => "<class 'bool'>"
  | VInt _ => "<class 'int'>"
  | VStr _ => "<class 'str'>"
  | VList _ => "<class 'list'>"
  | VTuple _ => "<class 'tuple'>"
  | VSet _ => "<class 'set'>"
  | VDict _ => "<class 'dict'>"
  | VRef h =>
      match hget h s.(registry) with
      | Some nd => class_repr nd.(n_class)
      | None => "<class 'object'>"
      end
  | VFiles _ _ _ => "<class 'simbabuild.api.files'>"
  | VFun _ => "<class 'function'>"
  | VMethod _ _ => "<class 'method'>"
  | VCtx _ => "<class 'simbabuild.context.Context'>"
  | VFrame _ _ => "<class 'inspect.Traceback'>"
  | VLock _ => "<class 'asyncio.locks.Lock'>"
  end.

(** [isinstance(v, t)] *)
Definition isinstance_val (s : state) (v : value) (t : pytype) : bool :=
  match t, v with
  | T_str, VStr _ => true
  | T_bool, VBool _ => true
  | T_list, VList _ => true
  | T_set, VSet _ => true
  | T_tuple, VTuple _ => true
  | T_dict, VDict _ => true
  | T_bunch, (VRef _ | VFiles _ _ _ | VCtx _) => true
  | T_files, VFiles _ _ _ => true
  | T_function, VFun _ => true
  | T_class c, VRef h =>
      match hget h s.(registry) with
      | Some nd => isinstance nd.(n_class) c
      | None => false
      end
  | _, _ => false
  end.

(** [str(fieldtypes)] for a list of types. *)
Definition types_repr (ts : list pytype) : string :=
  "[" ++ String.concat ", " (map type_repr ts) ++ "]".

(** [TargetValidator.field(fieldname, fieldtypes, required=, default=)]
    for the validator of the object [h]. *)
Definition field (h : string) (fieldname : string) (fieldtypes : list pytype)
  (required : bool) (default : value) : M unit :=
  modify (fun s => set_vfields (List.app s.(vfields) [fieldname]) s) ;;
  s <- get_state ;;
  obj <- lookup h ;;
  match py_getattr s h obj fieldname with
  | None | Some VNone =>
      if required
      then target_error h "field is required" (Some fieldname)
      else py_setattr h fieldname default
  | Some fld =>
      if existsb (isinstance_val s fld) fieldtypes then ret tt
      else
        str_obj <- str_of h ;;
        error ("field '" ++ str_obj ++ "(" ++ fieldname ++ ")' expected types "
               ++ types_repr fieldtypes ++ ", but got " ++ type_of s fld)
              None None
  end.

(** [TargetValidator.__init__] and [__enter__] *)
Definition validator_enter (h : string) : M unit :=
  modify (set_vfields []) ;;
  field h "name" [T_str] true (VStr "default") ;;
  field h "expanded" [T_bool] false (VBool false).

(** [TargetValidator.__exit__] *)
Definition validator_exit (h : string) : M unit :=
  s <- get_state ;;
  obj <- lookup h ;;
  for_each (bunch_iter s h obj)
    (fun kv =>
       if is_private (fst kv) then ret tt
       else
         s' <- get_state ;;
         if existsb (String.eqb (fst kv)) s'.(vfields) then ret tt
         else
           str_obj <- str_of h ;;
           error ("unrecognized field '" ++ str_obj ++ "." ++ fst kv ++ "'")
                 None None) ;;
  stop_on_error.

(** [with TargetValidator(obj) as v: body].  [__exit__] also runs while
    an exception of the body is in flight. *)
Definition with_validator (h : string) (body : M unit) : M unit :=
  validator_enter h ;; try_finally body (validator_exit h).

(** [Target.get_default(cls)] *)
Definition get_default (c : cls) : M string :=
  s <- get_state ;;
  match class_default s c with
  | Some h => ret h
  | None => fatal ("can't find a default for '" ++ cls_name c ++ "'") None None
  end.

(* ------------------------------------------------------------------ *)
(** ** Paths and strings ([os.path] on a POSIX system, [str] methods) *)

(** [s.rpartition(c)] without the separator; [None] when [c] is absent. *)
Fixpoint rsplit (c : ascii) (s : string) : option (string * string) :=
  match s with
  | EmptyString => None
  | String a s' =>
      match rsplit c s' with
      | Some (pre, post) => Some (String a pre, post)
      | None => if Ascii.eqb a c then Some (EmptyString, s') else None
      end
  end.

(** [s.rstrip(c)] *)
Fixpoint rstrip (c : ascii) (s : string) : string :=
  match s with
  | EmptyString => EmptyString
  | String a s' =>
      let r := rstrip c s' in
      if String.eqb r "" && Ascii.eqb a c then EmptyString else String a r
  end.

Definition ends_with_char (c : ascii) (s : string) : bool :=
  match rsplit c s with
  | Some (_, EmptyString) => true
  | _ => false
  end.

(** [os.path.isabs] *)
Definition isabs (p : string) : bool :=
  match p with
  | String c _ => Ascii.eqb c "/"%char
  | EmptyString => false
  end.

(** [os.path.dirname] *)
Definition dirname (p : string) : string :=
  match rsplit "/"%char p with
  | None => ""
  | Some (pre, _) =>
      let head := pre ++ "/" in
      if String.eqb (rstrip "/"%char head) "" then head
      else rstrip "/"%char head
  end.

(** [os.path.join(a, b)] *)
Definition path_join (a b : string) : string :=
  if isabs b then b
  else if String.eqb a "" || ends_with_char "/"%char a then a ++ b
  else a ++ "/" ++ b.

(** [os.path.splitext]: the extension starts at the last dot of the last
    component, leading dots of the component aside. *)
Definition splitext (p : string) : string * string :=
  let (dir, base) :=
    match rsplit "/"%char p with
    | Some (pre, post) => (pre ++ "/", post)
    | None => ("", p)
    end in
  match rsplit "."%char base with
  | None => (p, "")
  | Some (stem, ext) =>
      if String.eqb (rstrip "."%char stem) "" then (p, "")
      else (dir ++ stem, "." ++ ext)
  end.

Definition upper_char (c : ascii) : ascii :=
  let n := nat_of_ascii c in
  if Nat.leb 97 n && Nat.leb n 122 then ascii_of_nat (n - 32) else c.

(** [s.upper()] on ASCII text *)
Fixpoint upper (s : string) : string :=
  match s with
  | EmptyString => EmptyString
  | String c s' => String (upper_char c) (upper s')
  end.

Fixpoint sget (k : string) (l : list (string * string)) : option string :=
  match l with
  | [] => None
  | (k', v) :: l' => if String.eqb k k' then Some v else sget k l'
  end.

(** [str.format] with the keyword arguments [env], for plain
    replacement fields [{name}] and
    the escapes [{{] and [}}]; [None] is the exception [str.format]
    raises (unknown name, unbalanced brace).  Attribute access, indexing,
    conversions and format specifications inside a field are not
    modelled: such a field is an unknown name here. *)
Fixpoint format_from (env : list (string * string)) (s : string)
  (cur : option string) : option string :=
  match s with
  | EmptyString =>
      match cur with
      | None => Some ""
      | Some _ => None
      end
  | String c s' =>
      match cur with
      | Some name =>
          if Ascii.eqb c "}"%char then
            match sget name env, format_from env s' None with
            | Some v, Some r => Some (v ++ r)
            | _, _ => None
            end
          else if Ascii.eqb c "{"%char then None
          else format_from env s' (Some (name ++ String c ""))
      | None =>
          if Ascii.eqb c "{"%char then
            match s' with
            | String c' s'' =>
                if Ascii.eqb c' "{"%char
                then option_map (String "{"%char) (format_from env s'' None)
                else format_from env s' (Some "")
            | EmptyString => None
            end
          else if Ascii.eqb c "}"%char then
            match s' with
            | String c' s'' =>
                if Ascii.eqb c' "}"%char
                then option_map (String "}"%char) (format_from env s'' None)
                else None
            | EmptyString => None
            end
          else option_map (String c) (format_from env s' None)
      end
  end.

Definition py_format (template : string) (env : list (string * string))
  : option string :=
  format_from env template None.

(** [len(v)] *)
Definition py_len (v : value) : option nat :=
  match v with
  | VStr s => Some (String.length s)
  | VList l | VTuple l | VSet l => Some (length l)
  | VDict l => Some (length l)
  | _ => None
  end.

(** The elements a [for] loop over [v] visits. *)
Definition py_iter (v : value) : option (list value) :=
  match v with
  | VList l | VTuple l | VSet l => Some l
  | VDict l => Some (map (fun kv => VStr (fst kv)) l)
  | VStr s => Some (map (fun c => VStr (String c "")) (list_ascii_of_string s))
  | _ => None
  end.

Definition hashable (v : value) : bool :=
  match v with
  | VList _ | VSet _ | VDict _ => false
  | _ => true
  end.

Fixpoint vget (k : value) (l : list (value * string)) : option string :=
  match l with
  | [] => None
  | (k', v) :: l' => if py_eq k k' then Some v else vget k l'
  end.

Fixpoint vset (k : value) (v : string) (l : list (value * string))
  : list (value * string) :=
  match l with
  | [] => [(k, v)]
  | (k', v') :: l' =>
      if py_eq k k' then (k', v) :: l' else (k', v') :: vset k v l'
  end.

Definition set_add (x : string) (l : list string) : list string :=
  if existsb (String.eqb x) l then l else List.app l [x].

(* ------------------------------------------------------------------ *)
(** ** [generator.kind_to_ext] *)

Definition kind_to_ext (kind : value) : string :=
  if py_eq kind (VStr "executable") then ""
  else if py_eq kind (VStr "static_library") then ".a"
  else if py_eq kind (VStr "shared_library") then ".so"
  else if py_eq kind (VStr "object") then ".o"
  else ".out".

(* ------------------------------------------------------------------ *)
(** ** [expand_files]: asynchronous generators as scripts

    An asynchronous generator runs only when it is pulled.  The body of
    [expand_files] is laid out as the list of things it will do, in
    order: yield a path, run [stop_on_error()], report an error on its
    object, or raise.  Pulling executes the script against the state of
    the moment, up to the next yield. *)

Inductive event : Type :=
| EYield (p : string)
| ECheck
| EError (owner : option string) (reason : string)
| ERaise (e : string).

(** The events of a script up to and including its first yield, and
    whether there is one. *)
Fixpoint until_first_yield (sc : list event) : list event * bool :=
  match sc with
  | [] => ([], false)
  | EYield p :: _ => ([EYield p], true)
  | ERaise e :: _ => ([ERaise e], false)
  | ev :: sc' =>
      let (pre, found) := until_first_yield sc' in (ev :: pre, found)
  end.

Section Engine.

(** The world outside the process: the file system as [glob.iglob]
    answers for a pattern, [api.simba.options.systarget], what calling
    a Python function object does (finder and builder hooks are user
    code), the recipe lines from which [get_dependencies] declares its
    synthesized nodes, and [os.path.relpath(rootdir, start=builddir)]. *)
Variable glob : string -> list string.
Variable opt_systarget : string.
Variable call : nat -> list value -> M value.
Variable site_source site_object : string * Z.
Variable rel_rootdir : string.

Definition ctx_of_node (nd : node) : option string :=
  match dget "_context" nd.(n_dict) with
  | Some (VCtx f) => Some f
  | _ => None
  end.

(** [expand_files(obj, sources)] where [obj] is the target [owner]
    (or a [files] group when [owner] is [None]) declared in the
    context file [ctx]. *)
Fixpoint expand_script (s : state) (owner : option string) (ctx : string)
  (sources : value) {struct sources} : list event :=
  match sources with
  | VStr pat =>
      List.app (map EYield (glob (path_join (dirname ctx) pat))) [ECheck]
  | VFiles _ fctx args =>
      List.app (flat_map (expand_script s None fctx) args) [ECheck; ECheck]
  | VRef h =>
      match hget h s.(registry) with
      | Some nd =>
          if isinstance nd.(n_class) C_file then
            match ctx_of_node nd, py_getattr s h nd "name" with
            | Some fctx, Some (VStr pat) =>
                let inner :=
                  List.app (map EYield (glob (path_join (dirname fctx) pat)))
                           [ECheck] in
                let (pre, found) := until_first_yield inner in
                if found then List.app pre [ERaise "TypeError"]
                else List.app pre [ERaise "RuntimeError"]
            | _, _ => [ERaise "AttributeError"]
            end
          else
            [EError owner ("source of type '" ++ type_of s sources
                           ++ "' can't be expanded"); ECheck]
      | None => [ERaise "KeyError"]
      end
  | VSet l | VList l | VTuple l =>
      List.app (flat_map (expand_script s owner ctx) l) [ECheck]
  | _ =>
      [EError owner ("source of type '" ++ type_of s sources
                     ++ "' can't be expanded"); ECheck]
  end.

Definition run_event (ev : event) : M unit :=
  match ev with
  | EYield _ => ret tt
  | ECheck => stop_on_error
  | EError (Some h) reason => target_error h reason None
  | EError None _ => raise "AttributeError"
  | ERaise e => raise e
  end.

(** [await anext(gen, None)]: the next path, or [None] when the
    generator is exhausted, and the rest of the script. *)
Fixpoint pull (sc : list event) : M (option string * list event) :=
  match sc with
  | [] => ret (None, [])
  | EYield p :: sc' => ret (Some p, sc')
  | ev :: sc' => run_event ev ;; pull sc'
  end.

(** [async for x in gen: body], collecting what the body returns. *)
Fixpoint for_script {B} (sc : list event) (body : string -> M B)
  : M (list B) :=
  match sc with
  | [] => ret []
  | EYield p :: sc' =>
      y <- body p ;; ys <- for_script sc' body ;; ret (y :: ys)
  | ev :: sc' => run_event ev ;; for_script sc' body
  end.

(** [os.path.dirname(self._context.__file__)] *)
Definition ctxfolder_of (h : string) : M string :=
  nd <- lookup h ;;
  match ctx_of_node nd with
  | Some f => ret (dirname f)
  | None => raise "AttributeError"
  end.

(** [dependency.get_sources()], started. *)
Definition get_sources (h : string) : M (list event) :=
  srcs <- attr h "sources" ;;
  s <- get_state ;;
  nd <- lookup h ;;
  match ctx_of_node nd with
  | Some f => ret (expand_script s (Some h) f srcs)
  | None => raise "AttributeError"
  end.

(* ---------------------------------------------------------------- *)
(** ** Locks, in a run with a single task *)

(** [await self._expand_lock.acquire()]: with no other task to release
    it, waiting for a held lock never ends. *)
Definition acquire (h : string) : M unit :=
  l <- attr h "_expand_lock" ;;
  match l with
  | VLock false => set_private h "_expand_lock" (VLock true)
  | VLock true => fun s => Hang s
  | _ => raise "AttributeError"
  end.

(** [self._expand_lock.release()] *)
Definition release (h : string) : M unit :=
  l <- attr h "_expand_lock" ;;
  match l with
  | VLock true => set_private h "_expand_lock" (VLock false)
  | VLock false => raise "RuntimeError"
  | _ => raise "AttributeError"
  end.

(* ---------------------------------------------------------------- *)
(** ** The [_prepare] hooks *)

(** [target._prepare] *)
Definition target_prepare (h : string) : M unit :=
  with_validator h (ret tt).

(** [environment._prepare] *)
Definition environment_prepare (h : string) : M unit :=
  d <- get_default C_environment ;;
  let is_self := String.eqb d h in
  with_validator h
    (field h "parent" [T_class C_environment] false
       (if is_self then VNone else VRef d) ;;
     parent <- attr h "parent" ;;
     inherited <-
       (if truthy parent then
          match parent with
          | VRef p =>
              st <- attr p "systarget" ;;
              va <- attr p "variables" ;;
              ar <- attr p "archiver" ;;
              li <- attr p "linker" ;;
              inc <- attr p "includes" ;;
              ret (st, va, ar, li, inc)
          | _ => raise "AttributeError"
          end
        else if is_self
             then ret (VStr opt_systarget, VNone, VNone, VNone, VNone)
             else raise "UnboundLocalError") ;;
     let '(st, va, ar, li, inc) := inherited in
     field h "systarget" [T_str] is_self st ;;
     field h "archiver" [T_class C_generator] is_self ar ;;
     field h "linker" [T_class C_generator] is_self li ;;
     field h "includes" [T_list; T_set] false inc ;;
     field h "variables" [T_dict; T_bunch] false va) ;;
  va <- attr h "variables" ;;
  (match va with VNone => py_setattr h "variables" (VDict []) | _ => ret tt end) ;;
  inc <- attr h "includes" ;;
  match inc with VNone => py_setattr h "includes" (VSet []) | _ => ret tt end.

(** [dependency._prepare] *)
Definition dependency_prepare (h : string) : M unit :=
  env_default <- get_default C_environment ;;
  with_validator h
    (field h "kind" [T_str] false (VStr "unknown") ;;
     field h "aliases" [T_set] false (VSet []) ;;
     field h "dependencies" [T_set] false (VSet []) ;;
     field h "provider" [T_str] false (VStr "internal") ;;
     field h "generator" [T_class C_generator] false VNone ;;
     field h "nofiletype" [T_bool] false (VBool false) ;;
     field h "sources" [T_files; T_class C_file; T_set; T_tuple; T_str]
       false (VSet []) ;;
     field h "environment" [T_class C_environment] false (VRef env_default)) ;;
  provider <- attr h "provider" ;;
  if py_eq provider (VStr "local") then
    deps <- attr h "dependencies" ;;
    match py_len deps with
    | Some n =>
        if Nat.ltb 0 n
        then target_fatal h "'local' provider dependency can't have dependencies" None
        else ret tt
    | None => raise "TypeError"
    end
  else ret tt.

(** [project._prepare] *)
Definition project_prepare (h : string) : M unit :=
  with_validator h
    (field h "license" [T_class C_file] false VNone ;;
     field h "description" [T_str] false VNone ;;
     field h "metadata" [T_bunch] false VNone).

(** [generator._prepare] *)
Definition generator_prepare (h : string) : M unit :=
  with_validator h
    (field h "command" [T_str] true VNone ;;
     field h "executor" [T_class C_dependency] true VNone ;;
     field h "depfile" [T_str] false VNone ;;
     field h "deptype" [T_str] false VNone ;;
     field h "rspfile" [T_str] false VNone ;;
     field h "rspcontent" [T_str] false VNone ;;
     field h "includefmt" [T_str] false (VStr "-I '%s'") ;;
     field h "variables" [T_dict] false (VDict []) ;;
     name <- attr h "name" ;;
     match name with
     | VStr n =>
         field h "description" [T_str] false (VStr (upper n ++ " {out}")) ;;
         field h "output" [T_str] false (VStr "{filename}{kindext}")
     | _ => raise "AttributeError"
     end).

(** [filetype._prepare] *)
Definition filetype_prepare (h : string) : M unit :=
  with_validator h
    (field h "extensions" [T_list] true VNone ;;
     field h "generator" [T_class C_generator] true VNone) ;;
  exts <- attr h "extensions" ;;
  match py_iter exts with
  | None => raise "TypeError"
  | Some l =>
      for_each l
        (fun e =>
           if hashable e then
             s <- get_state ;;
             (match vget e s.(filetypes) with
              | Some other =>
                  str_other <- str_of other ;;
                  target_fatal h
                    ("target '" ++ str_other ++ "' already registers '."
                     ++ py_str e ++ "'") None
              | None => ret tt
              end) ;;
             modify (fun s => set_filetypes (vset e h s.(filetypes)) s)
           else raise "TypeError")
  end.

(** [finder._prepare] *)
Definition finder_prepare (h : string) : M unit :=
  modify (fun s => set_finders (set_add h s.(finders)) s).

(** [builder._prepare] *)
Definition builder_prepare (h : string) : M unit :=
  with_validator h
    (field h "executor" [T_class C_external] false VNone ;;
     field h "hook" [T_function] false VNone).

(** [external._prepare] *)
Definition external_prepare (h : string) : M unit :=
  with_validator h
    (field h "kind" [T_str] false (VStr "unknown") ;;
     field h "provider" [T_str] true VNone ;;
     field h "external_name" [T_str] true VNone ;;
     field h "path" [T_str] false VNone).

(** [self._prepare()], dispatched on the class of the object. *)
Definition hook_prepare (c : cls) (h : string) : M unit :=
  match c with
  | C_environment => environment_prepare h
  | C_dependency => dependency_prepare h
  | C_project => project_prepare h
  | C_generator => generator_prepare h
  | C_filetype => filetype_prepare h
  | C_finder => finder_prepare h
  | C_builder => builder_prepare h
  | C_external => external_prepare h
  | _ => target_prepare h
  end.

(* ---------------------------------------------------------------- *)
(** ** [generator.get_output], [filetype.try_find], [filetype.find] *)

(** [self.output.format( **locals())] in [generator.get_output] for a
    [str] input: the output template formatted with the local
    variables of the method.  [self_name] is [str(self)], when it is
    defined. *)
Definition output_name (template : string) (self_name : option string)
  (input : string) (kind : value) : option string :=
  let kindext := kind_to_ext kind in
  let (filename, ext) := splitext input in
  py_format template
    (List.app
       [("input", input); ("kind", py_str kind);
        ("kindext", kindext); ("filename", filename); ("ext", ext)]
       match self_name with
       | Some n => [("self", n)]
       | None => []
       end).

(** [await anext(g.get_output(input, kind=kind))] for a [str] input. *)
Definition generator_get_output (g : value) (input : string) (kind : value)
  : M string :=
  match g with
  | VRef gh =>
      nd <- lookup gh ;;
      if isinstance nd.(n_class) C_generator then
        out <- attr gh "output" ;;
        s <- get_state ;;
        match out with
        | VStr template =>
            match output_name template (target_name s gh nd) input kind with
            | Some r => ret r
            | None => raise "KeyError"
            end
        | _ => raise "AttributeError"
        end
      else if isinstance nd.(n_class) C_dependency then raise "TypeError"
      else raise "AttributeError"
  | _ => raise "AttributeError"
  end.

(** [filetype.try_find(path)] *)
Definition try_find (s : state) (path : string) : option string :=
  vget (VStr (snd (splitext path))) s.(filetypes).

(** [filetype.find(path)] *)
Definition filetype_find (path : string) : M string :=
  s <- get_state ;;
  match try_find s path with
  | Some ft => ret ft
  | None =>
      fatal ("filetype matching file '" ++ path ++ "' not found") None None
  end.

(* ---------------------------------------------------------------- *)
(** ** [external._resolve] and [finder.find] *)

(** [finder.find(target)]: the hook stored as [__call__] is awaited;
    the method has no [return] statement. *)
Definition finder_find (f target : string) : M value :=
  c <- attr f "__call__" ;;
  match c with
  | VFun id => call id [VRef f; VRef target] ;; ret VNone
  | _ => raise "TypeError"
  end.

(** [for f in _.finders: if await f.find(self): return]; the result
    tells whether the loop returned. *)
Fixpoint try_finders (fs : list string) (h : string) : M bool :=
  match fs with
  | [] => ret false
  | f :: fs' =>
      r <- finder_find f h ;;
      if truthy r then ret true else try_finders fs' h
  end.

(** [external._resolve] *)
Definition external_resolve (h : string) : M unit :=
  p <- attr h "path" ;;
  if truthy p then ret tt
  else
    s <- get_state ;;
    returned <- try_finders s.(finders) h ;;
    if returned then ret tt
    else
      p' <- attr h "path" ;;
      if truthy p' then ret tt
      else
        str_self <- str_of h ;;
        raise ("TypeError: can't resolve target '" ++ str_self ++ "'").

(** [Target.hook(cls, name, **kwargs)(fn)] *)
Definition Target_hook (c : cls) (name : string) (fn : nat) (kwargs : dict)
  (site : string * Z) : M string :=
  h <- Target_call c name (("hook", VFun fn) :: kwargs) site ;;
  set_private h "__call__" (VFun fn) ;;
  ret h.

(** The built-in finder of [builtin_recipes.default_find], over what
    [shutil.which] answers. *)
Definition default_find (which : string -> option string) (args : list value)
  : M value :=
  match args with
  | [VRef _; VRef target] =>
      kind <- attr target "kind" ;;
      if py_eq kind (VStr "executable") then
        en <- attr target "external_name" ;;
        match en with
        | VStr n =>
            match which n with
            | Some p =>
                if negb (String.eqb p "")
                then py_setattr target "path" (VStr p) ;; ret (VRef target)
                else ret VNone
            | None => ret VNone
            end
        | _ => raise "TypeError"
        end
      else ret VNone
  | _ => raise "TypeError"
  end.

(* ---------------------------------------------------------------- *)
(** ** The [_resolve] hooks *)

(** [await v.expand()] for an attribute value.  A [files] group is
    expandable too and has no hooks; its flags are not tracked. *)
Definition expand_value (expand_rec : string -> M string) (v : value)
  : M value :=
  match v with
  | VRef d => d' <- expand_rec d ;; ret (VRef d')
  | VFiles _ _ _ => ret v
  | _ => raise "AttributeError"
  end.

(** [dependency._resolve] *)
Definition dependency_resolve (expand_rec : string -> M string) (h : string)
  : M unit :=
  env <- attr h "environment" ;;
  expand_value expand_rec env ;;
  g <- attr h "generator" ;;
  (if truthy g then expand_value expand_rec g ;; ret tt
   else
     kind <- attr h "kind" ;;
     let via (tool : string) : M unit :=
       env' <- attr h "environment" ;;
       match env' with
       | VRef e =>
           t <- attr e tool ;;
           g' <- expand_value expand_rec t ;;
           py_setattr h "generator" g'
       | _ => raise "AttributeError"
       end in
     if py_eq kind (VStr "executable") || py_eq kind (VStr "shared_library")
     then via "linker"
     else if py_eq kind (VStr "static_library") then via "archiver"
     else ret tt) ;;
  deps <- attr h "dependencies" ;;
  match py_iter deps with
  | Some l => for_each l (fun d => expand_value expand_rec d ;; ret tt)
  | None => raise "TypeError"
  end.

(** [generator._resolve] *)
Definition generator_resolve (expand_rec : string -> M string) (h : string)
  : M unit :=
  ex <- attr h "executor" ;;
  expand_value expand_rec ex ;; ret tt.

(** [builder._resolve] *)
Definition builder_resolve (expand_rec : string -> M string) (h : string)
  : M unit :=
  ex <- attr h "executor" ;;
  if truthy ex then expand_value expand_rec ex ;; ret tt else ret tt.

(** [self._resolve()], dispatched on the class of the object;
    [target._resolve] is [pass]. *)
Definition hook_resolve (expand_rec : string -> M string) (c : cls)
  (h : string) : M unit :=
  match c with
  | C_dependency => dependency_resolve expand_rec h
  | C_generator => generator_resolve expand_rec h
  | C_builder => builder_resolve expand_rec h
  | C_external => external_resolve h
  | _ => ret tt
  end.

(* ---------------------------------------------------------------- *)
(** ** apimixins.py: [expandable.prepare] and [expandable.expand]

    Every target class inherits [_prepare] and [_resolve] from
    [target], so the tests ['_prepare' in dir(self.__class__)] hold.
    [report_status] only updates the console status line. *)

Definition prepare (h : string) : M string :=
  nd <- lookup h ;;
  if is_prepared nd then
    try_finally (acquire h ;; ret h) (release h)
  else
    try_finally
      (set_private h "_expand_lock" (VLock false) ;;
       set_private h "_prepared" (VBool true) ;;
       acquire h ;;
       nd' <- lookup h ;;
       hook_prepare nd'.(n_class) h ;;
       ret h)
      (release h).

(** The recursion of [expand] through the [_resolve] hooks is bounded
    by the interpreter; [fuel] is that bound. *)
Fixpoint expand (fuel : nat) (h : string) : M string :=
  match fuel with
  | 0 => raise "RecursionError"
  | S n =>
      nd <- lookup h ;;
      if is_expanded nd then
        try_finally (acquire h ;; ret h) (release h)
      else
        try_finally
          (set_private h "_expanded" (VBool true) ;;
           nd1 <- lookup h ;;
           let was_prepared := is_prepared nd1 in
           (if was_prepared then ret tt
            else
              set_private h "_expand_lock" (VLock false) ;;
              set_private h "_prepared" (VBool true)) ;;
           acquire h ;;
           nd2 <- lookup h ;;
           (if was_prepared then ret tt
            else hook_prepare nd2.(n_class) h) ;;
           nd3 <- lookup h ;;
           hook_resolve (expand n) nd3.(n_class) h ;;
           modify (fun s => set_pool_all (set_add h s.(pool_all)) s) ;;
           ret h)
          (release h)
  end.

(* ---------------------------------------------------------------- *)
(** ** [dependency.get_output] and [dependency.get_dependencies] *)

Definition is_terminal_kind (kind : value) : bool :=
  py_eq kind (VStr "executable")
  || py_eq kind (VStr "static_library")
  || py_eq kind (VStr "shared_library").

(** [dependency.get_output] *)
Definition get_output (fuel : nat) (h : string) : M value :=
  ctxfolder <- ctxfolder_of h ;;
  sc <- get_sources h ;;
  r1 <- pull sc ;;
  provider <- attr h "provider" ;;
  if py_eq provider (VStr "local") then
    ret (match fst r1 with Some p => VStr p | None => VNone end)
  else
    let by_kind : M bool :=
      kind <- attr h "kind" ;; ret (is_terminal_kind kind) in
    named <-
      match fst r1 with
      | None => ret true
      | Some p =>
          if String.eqb p "" then ret true
          else
            r2 <- pull (snd r1) ;;
            match fst r2 with
            | Some q => if String.eqb q "" then by_kind else ret true
            | None => by_kind
            end
      end ;;
    if named : bool then
      name <- attr h "name" ;;
      kind <- attr h "kind" ;;
      match name with
      | VStr n => ret (VStr (path_join ctxfolder (n ++ kind_to_ext kind)))
      | _ => raise "TypeError"
      end
    else
      let source := match fst r1 with Some p => p | None => "" end in
      g <- attr h "generator" ;;
      if truthy g then
        kind <- attr h "kind" ;;
        out <- generator_get_output g source kind ;;
        ret (VStr out)
      else
        ft <- filetype_find source ;;
        ft' <- expand fuel ft ;;
        g' <- attr ft' "generator" ;;
        kind <- attr h "kind" ;;
        out <- generator_get_output g' source kind ;;
        ret (VStr out).

(** The body of the source loop of [get_dependencies]: the node
    synthesized for one source path, expanded. *)
Definition source_dependency (fuel : nat) (h : string) (source : string)
  : M value :=
  s <- get_state ;;
  let ft := try_find s source in
  kind <- attr h "kind" ;;
  (match ft with
   | None =>
       if py_eq kind (VStr "executable")
       then target_fatal h ("no filetype for '" ++ source ++ "'") None
       else ret tt
   | Some _ => ret tt
   end) ;;
  nofiletype <- attr h "nofiletype" ;;
  match (if truthy nofiletype then None else ft) with
  | None =>
      env <- attr h "environment" ;;
      dep <- Target_call C_dependency source
               [("sources", VStr source); ("environment", env);
                ("provider", VStr "local"); ("kind", VStr "source")]
               site_source ;;
      d <- expand fuel dep ;; ret (VRef d)
  | Some fth =>
      expand fuel fth ;;
      g <- attr fth "generator" ;;
      out <- generator_get_output g source (VStr "object") ;;
      env <- attr h "environment" ;;
      g' <- attr fth "generator" ;;
      dep <- Target_call C_dependency out
               [("sources", VStr source); ("environment", env);
                ("generator", g'); ("nofiletype", VBool true);
                ("kind", VStr "object")]
               site_object ;;
      d <- expand fuel dep ;; ret (VRef d)
  end.

(** [dependency.get_dependencies], run to exhaustion: everything it
    yields, in order. *)
Definition get_dependencies (fuel : nat) (h : string) : M (list value) :=
  provider <- attr h "provider" ;;
  if py_eq provider (VStr "local") then ret []
  else
    deps <- attr h "dependencies" ;;
    match py_iter deps with
    | None => raise "TypeError"
    | Some l =>
        explicit <- map_m (expand_value (expand fuel)) l ;;
        sc <- get_sources h ;;
        synthesized <- for_script sc (source_dependency fuel h) ;;
        ret (List.app explicit synthesized)
    end.

(* ---------------------------------------------------------------- *)
(** ** builder_ninja.py: the graph-file orchestrator *)

Definition nl : string := String (ascii_of_nat 10) "".

(** [file.write(text)] on [build.ninja] *)
Definition write (text : string) : M unit :=
  modify (fun s => set_build_ninja (List.app s.(build_ninja) [text]) s).

(** What calling an [async def] method evaluates to when the call is
    not awaited: an asynchronous generator object (the body has a
    [yield]) or a coroutine object; no line of the body has run. *)
Inductive unawaited (A : Type) : Type :=
| AsyncGenerator (body : M (list A))
| Coroutine (body : M A).

(** [iter(obj)], as the [for] statement calls it: neither kind of
    object defines [__iter__]. *)
Definition sync_iter {A B} (obj : unawaited A) : M (list B) :=
  raise "TypeError".

(** [os.fspath(obj)], as [os.path.isabs] calls it. *)
Definition fspath {A} (obj : unawaited A) : M string :=
  raise "TypeError".

(** [builder.rootdir_relpath(path)] for a path inside the tree as the
    source uses it: absolute paths are made relative by
    [os.path.relpath], which is not modelled; relative paths are
    returned unchanged. *)
Definition rootdir_relpath {A} (obj : unawaited A) : M string :=
  fspath obj.

(** [visit(target)] of [builder_ninja.builder]; [vis] is the set
    [visited]. *)
Fixpoint visit (fuel : nat) (expand_fuel : nat) (target : value)
  (vis : list value) : M (list value) :=
  match fuel with
  | 0 => raise "RecursionError"
  | S n =>
      if negb (hashable target) then raise "TypeError"
      else if existsb (py_eq target) vis then ret vis
      else
        let vis := target :: vis in
        match target with
        | VRef h =>
            nd <- lookup h ;;
            (if isinstance nd.(n_class) C_generator then
               name <- attr h "name" ;;
               write ("rule " ++ py_str name ++ nl) ;;
               command <- attr h "command" ;;
               write ("  command = " ++ py_str command ++ nl) ;;
               write nl
             else ret tt) ;;
            if isinstance nd.(n_class) C_dependency then
              g <- attr h "generator" ;;
              vis1 <- (if truthy g then visit n expand_fuel g vis
                       else ret vis) ;;
              deps <- sync_iter
                        (AsyncGenerator (get_dependencies expand_fuel h)) ;;
              r <- (fix loop (deps : list value) (acc : list value * list string)
                      : M (list value * list string) :=
                      match deps with
                      | [] => ret acc
                      | dep :: deps' =>
                          vis' <- visit n expand_fuel dep (fst acc) ;;
                          path <- rootdir_relpath
                                    (Coroutine
                                       (match dep with
                                        | VRef d => get_output expand_fuel d
                                        | _ => raise "AttributeError"
                                        end)) ;;
                          provider <-
                            match dep with
                            | VRef d => attr d "provider"
                            | _ => raise "AttributeError"
                            end ;;
                          let input :=
                            if py_eq provider (VStr "internal")
                            then path_join "$builddir" path
                            else if isabs path then path
                            else path_join "$rootdir" path in
                          loop deps' (vis', set_add input (snd acc))
                      end) deps (vis1, []) ;;
              let (vis2, inputs) := r : list value * list string in
              provider <- attr h "provider" ;;
              if negb (py_eq provider (VStr "internal")) then ret vis2
              else if Nat.eqb (length inputs) 0 then ret vis2
              else
                p <- rootdir_relpath (Coroutine (get_output expand_fuel h)) ;;
                let path := if isabs p then p else path_join "$builddir" p in
                aliases <- attr h "aliases" ;;
                match py_iter aliases with
                | None => raise "TypeError"
                | Some als =>
                    for_each als
                      (fun a => write ("build " ++ py_str a ++ ": phony "
                                       ++ path ++ nl)) ;;
                    g2 <- attr h "generator" ;;
                    rule <- (if truthy g2 then
                               match g2 with
                               | VRef gh => n' <- attr gh "name" ;; ret (py_str n')
                               | _ => raise "AttributeError"
                               end
                             else ret "phony") ;;
                    write ("build " ++ path ++ ": " ++ rule ++ " "
                           ++ String.concat " " inputs ++ nl) ;;
                    ret vis2
                end
            else ret vis
        | _ => ret vis
        end
  end.

(** [builder_ninja.builder(self, targets)], up to the launch of the
    external build tool. *)
Definition ninja_builder (fuel expand_fuel : nat) (targets : list value)
  : M unit :=
  write ("ninja_required_version = 1.3" ++ nl ++ nl) ;;
  write ("builddir = ." ++ nl) ;;
  write ("rootdir = " ++ rel_rootdir ++ nl) ;;
  write nl ;;
  (fix loop (ts : list value) (vis : list value) : M unit :=
     match ts with
     | [] => ret tt
     | t :: ts' => vis' <- visit fuel expand_fuel t vis ;; loop ts' vis'
     end) targets [].

End Engine.

(* ------------------------------------------------------------------ *)
(** ** Notions used in the statements *)

(** Attribute names that no class defines: neither a property, a method
    nor a class variable. *)
Definition plain_key (k : string) : bool :=
  negb (String.eqb k "expanded" || String.eqb k "prepared"
        || String.eqb k "_expanded" || String.eqb k "_prepared"
        || String.eqb k "default")
  && forallb (fun c => negb (has_method c k))
       [C_target; C_namedtarget; C_path; C_file; C_folder; C_environment;
        C_dependency; C_project; C_generator; C_filetype; C_finder;
        C_alias; C_builder; C_external].


(** [target_name()] as a function of the class and the instance
    dictionary. *)
Definition name_of (c : cls) (d : dict) : option string :=
  match c with
  | C_external =>
      match dget "kind" d, dget "external_name" d with
      | Some k, Some e => Some ("external." ++ py_str k ++ "::" ++ py_str e)
      | _, _ => None
      end
  | C_target | C_dependency | C_alias => option_map py_str (dget "name" d)
  | c =>
      match dget "name" d with
      | Some n => Some (cls_name c ++ "::" ++ py_str n)
      | None => None
      end
  end.



(** The attribute [_frame] is unset or a frame record. *)
Definition frame_ok (d : dict) : Prop :=
  dget "_frame" d = None \/ exists f l, dget "_frame" d = Some (VFrame f l).


(** The state a call leaves behind, whatever its outcome. *)
Definition state_after {A} (m : M A) (s : state) : state :=
  match m s with
  | Ok _ s' | Exit s' | Raise _ s' | Hang s' => s'
  end.


(* ------------------------------------------------------------------ *)
(** ** Sample recipes *)

Definition recipe_site : string * Z := ("/r/simba.py", 3%Z).

(** A recipe in its [load] phase. *)
Definition loading : state := set_phase "load" (initial_state "/r/simba.py").

(** [target('x', kind='a')] has been declared. *)
Definition declared_x : state :=
  state_after (Target_call C_target "x" [("kind", VStr "a")] recipe_site)
    loading.

(** [dependency('app', kind=None)] has been declared. *)
Definition declared_app : state :=
  state_after
    (Target_call C_dependency "app" [("kind", VNone)] recipe_site) loading.

(** The head of the error lines of an object, from its [_frame]. *)
Definition error_prefix (d : dict) : string :=
  match dget "_frame" d with
  | Some (VFrame f l) => error_head (Some f) (Some l)
  | _ => "Error"
  end.

(** The first extension of [l] that the loop of [filetype._prepare]
    finds already registered, with the target that registered it. *)
Fixpoint first_clash (h : string) (l : list value)
  (ft : list (value * string)) : option (value * string) :=
  match l with
  | [] => None
  | e :: l' =>
      if hashable e then
        match vget e ft with
        | Some other => Some (e, other)
        | None => first_clash h l' (vset e h ft)
        end
      else None
  end.

(** Two filetypes that both list [.c]; the first one has been prepared. *)
Definition two_filetypes : state :=
  state_after
    (xcc <- Target_call C_external "executable:cc"
              [("external_name", VStr "cc"); ("provider", VStr "local");
               ("kind", VStr "executable")] recipe_site ;;
     cc <- Target_call C_generator "cc"
             [("command", VStr "{exe} -c {in} -o {out}");
              ("executor", VRef xcc)] recipe_site ;;
     c <- Target_call C_filetype "c"
            [("extensions", VList [VStr ".c"]); ("generator", VRef cc)]
            recipe_site ;;
     Target_call C_filetype "c2"
       [("extensions", VList [VStr ".c"]); ("generator", VRef cc)]
       ("/r/simba.py", 9%Z) ;;
     modify (set_phase "prepare") ;;
     prepare "x86_64-pc-linux-gnu" c)
    loading.

(** The two pulls [get_output] makes on the sources of a non-local
    dependency: the second one only when the first gave a non-empty
    path. *)
Definition first_two (sc : list event)
  : M (option string * option string) :=
  r1 <- pull sc ;;
  match fst r1 with
  | None => ret (None, None)
  | Some p =>
      if String.eqb p "" then ret (Some p, None)
      else r2 <- pull (snd r1) ;; ret (Some p, fst r2)
  end.

(** [bool(path)] for an optional path ([None] stands for Python's
    [None]). *)
Definition some_path (o : option string) : bool :=
  match o with
  | Some p => negb (String.eqb p "")
  | None => false
  end.

(** A file system with two C sources next to the recipe. *)
Definition sample_glob (pattern : string) : list string :=
  if String.eqb pattern "/r/*.c" then ["/r/a.c"; "/r/b.c"]
  else if String.eqb pattern "/r/a.c" then ["/r/a.c"]
  else if String.eqb pattern "/r/b.c" then ["/r/b.c"]
  else if String.eqb pattern "/r/logo.png" then ["/r/logo.png"]
  else [].

(** Two finder hooks of the shape of [default_find]: the first looks in
    [/usr/bin], every other one in [/opt/bin]. *)
Definition sample_call (id : nat) (args : list value) : M value :=
  match id with
  | 0 => default_find (fun n => Some ("/usr/bin/" ++ n)) args
  | _ => default_find (fun n => Some ("/opt/bin/" ++ n)) args
  end.

Definition sample_systarget : string := "x86_64-pc-linux-gnu".

(** [dependency('logo', sources='logo.png', provider='local')]: a
    pass-through node. *)
Definition declared_logo : state :=
  state_after
    (Target_call C_dependency "logo"
       [("sources", VStr "logo.png"); ("provider", VStr "local")] recipe_site)
    loading.

(** [dependency('app', sources='*.c', kind='executable',
    provider='internal')] *)
Definition declared_exe : state :=
  state_after
    (Target_call C_dependency "app"
       [("sources", VStr "*.c"); ("kind", VStr "executable");
        ("provider", VStr "internal")] recipe_site)
    loading.

(** The built-in recipes of [builtin_recipes.load_recipes] that matter
    for C sources (the default environment with its archiver and linker,
    the [c] filetype with its generator, the default finder), a second
    finder, and two user declarations: a static library [app] made of
    [*.c], and [raw], the same sources with [nofiletype=True].  Then
    what [_.load] does: every registered target is prepared and the
    phase moves on to [postload]. *)
Definition sample_recipe : M unit :=
  modify (set_phase "load") ;;
  xar <- Target_call C_external "executable:ar"
           [("external_name", VStr "ar"); ("provider", VStr "local");
            ("kind", VStr "executable")] recipe_site ;;
  ar <- Target_call C_generator "ar"
          [("command",
            VStr "rm -f {output} && {executor} crs {output} {input}");
           ("executor", VRef xar)] recipe_site ;;
  xcc <- Target_call C_external "executable:cc"
           [("external_name", VStr "cc"); ("provider", VStr "local");
            ("kind", VStr "executable")] recipe_site ;;
  link <- Target_call C_generator "link"
            [("command", VStr "{exe} {in} -o {out}"); ("executor", VRef xcc)]
            recipe_site ;;
  Target_call C_environment "default"
    [("systarget", VStr sample_systarget); ("archiver", VRef ar);
     ("linker", VRef link); ("default", VBool true)] recipe_site ;;
  cc <- Target_call C_generator "cc"
          [("command", VStr "{exe} -c {in} {env.CFLAGS} -o {out}");
           ("executor", VRef xcc)] recipe_site ;;
  Target_call C_filetype "c"
    [("extensions", VList [VStr ".c"; VStr ".cc"]); ("generator", VRef cc)]
    recipe_site ;;
  Target_hook C_finder "default" 0 [("default", VBool true)] recipe_site ;;
  Target_hook C_finder "second" 1 [] recipe_site ;;
  Target_call C_dependency "app"
    [("sources", VStr "*.c"); ("kind", VStr "static_library")] recipe_site ;;
  Target_call C_dependency "raw"
    [("sources", VStr "*.c"); ("nofiletype", VBool true)] recipe_site ;;
  stop_on_error ;;
  modify (set_phase "prepare") ;;
  s <- get_state ;;
  for_each (map fst s.(registry))
    (fun h => prepare sample_systarget h ;; ret tt) ;;
  stop_on_error ;;
  modify (set_phase "postload").

Definition loaded : state :=
  state_after sample_recipe (initial_state "/r/simba.py").

(** [await app.expand()] and [await raw.expand()] have run. *)
Definition expanded_app : state :=
  state_after (expand sample_systarget sample_call 10 "app") loaded.

Definition expanded_raw : state :=
  state_after (expand sample_systarget sample_call 10 "raw") loaded.

Definition api_site_source : string * Z := ("/lib/simbabuild/api.py", 590%Z).
Definition api_site_object : string * Z := ("/lib/simbabuild/api.py", 601%Z).

(** Everything of the process state that a successful expansion leaves
    as it is: the error counter and console, the phase, the default
    environment, the extension table, the finders and the context. *)
Definition same_world (s s' : state) : Prop :=
  haserror s' = haserror s /\ console s' = console s
  /\ phase s' = phase s
  /\ class_default s' C_environment = class_default s C_environment
  /\ filetypes s' = filetypes s /\ finders s' = finders s
  /\ context_file s' = context_file s.

(** A stretch of a script that only runs [stop_on_error()]. *)
Definition only_checks (sc : list event) : bool :=
  forallb (fun ev => match ev with ECheck => true | _ => false end) sc.

(** An object that has been expanded and whose lock is free. *)
Definition settled (nd : node) : Prop :=
  is_expanded nd = true /\ dget "_expand_lock" nd.(n_dict) = Some (VLock false).

(** Every registered target has been expanded, as [main.check] does. *)
Definition checked : state :=
  state_after
    (s <- get_state ;;
     for_each (map fst s.(registry))
       (fun h => expand sample_systarget sample_call 10 h ;; ret tt))
    loaded.


(** [external.executable('cc')] has been declared; nothing is prepared. *)
Definition declared_cc : state :=
  state_after
    (Target_call C_external "executable:cc"
       [("external_name", VStr "cc"); ("provider", VStr "local");
        ("kind", VStr "executable")] recipe_site)
    loading.

(* ------------------------------------------------------------------ *)
(** ** [api._]: forward references, [_.prepare], [_.load]; [main.check] *)

Definition set_visited (v : list string) (s : state) : state :=
  mkState s.(haserror) s.(console) s.(phase) s.(registry) s.(defaults)
          s.(filetypes) s.(finders) v s.(pool_all) s.(context_file)
          s.(vfields) s.(build_ninja).

(** [target.is_forward_ref()]: no public attribute besides the name.
    The classes below [path] take the method of [nofwdref]. *)
Definition is_forward_ref (s : state) (h : string) (nd : node) : bool :=
  if isinstance nd.(n_class) C_path then false
  else
    forallb (fun kv => is_private (fst kv) || String.eqb (fst kv) "name")
      (bunch_iter s h nd).

Section Orchestration.

Variable opt_systarget : string.
Variable call : nat -> list value -> M value.

(** [_.prepare(target)].  [visited] holds the members of [_.visited]
    that are targets, by registry key; the paths that [include] adds to
    the same set are strings and never equal to a target. *)
Definition registry_prepare (h : string) : M unit :=
  s <- get_state ;;
  if existsb (String.eqb h) s.(visited) then ret tt
  else
    nd <- lookup h ;;
    (if is_forward_ref s h nd
     then target_fatal h "forward reference" None
     else ret tt) ;;
    modify (fun s => set_visited (set_add h s.(visited)) s) ;;
    prepare opt_systarget h ;;
    ret tt.

(** [external.get(name, kind, kwargs)]; the object is declared from
    the [return external(...)] statement of [external.get]. *)
Definition external_get (name kind : string) (kwargs : dict) : M string :=
  Target_call C_external (kind ++ ":" ++ name)
    (List.app
       [("external_name", VStr name); ("provider", VStr "local");
        ("kind", VStr kind)] kwargs)
    ("/lib/simbabuild/api.py", 877%Z).

(** [external.executable(name, kwargs)]: the keyword arguments are not
    passed on. *)
Definition external_executable (name : string) (kwargs : dict) : M string :=
  external_get name "executable" [].

(** [builtin_recipes.load_recipes()].  The hooks [default_find],
    [builder_async.builder] and [builder_ninja.builder] are the
    function objects 0, 1 and 2; [Target.hook] declares its object from
    line 137 of apiutility.py. *)
Definition load_recipes : M unit :=
  let here (line : Z) := ("/lib/simbabuild/builtin_recipes.py", line) in
  let hook_site := ("/lib/simbabuild/apiutility.py", 137%Z) in
  xar <- external_executable "ar" [] ;;
  ar <- Target_call C_generator "ar"
          [("command",
            VStr "rm -f {output} && {executor} crs {output} {input}");
           ("executor", VRef xar)] (here 16%Z) ;;
  xcc <- external_executable "cc" [] ;;
  link <- Target_call C_generator "link"
            [("command", VStr "{exe} {in} -o {out}"); ("executor", VRef xcc)]
            (here 21%Z) ;;
  Target_call C_environment "default"
    [("systarget", VStr opt_systarget); ("archiver", VRef ar);
     ("linker", VRef link); ("default", VBool true)] (here 13%Z) ;;
  xld <- external_executable "ld" [] ;;
  Target_call C_generator "ld"
    [("command", VStr "{exe} -r {env.LDFLAGS} -o {out} {in}");
     ("executor", VRef xld)] (here 31%Z) ;;
  xcc2 <- external_executable "cc" [] ;;
  cc <- Target_call C_generator "cc"
          [("command", VStr "{exe} -c {in} {env.CFLAGS} -o {out}");
           ("executor", VRef xcc2)] (here 42%Z) ;;
  Target_call C_filetype "c"
    [("extensions", VList [VStr ".c"; VStr ".cc"]); ("generator", VRef cc)]
    (here 39%Z) ;;
  xcpp <- external_executable "cpp" [] ;;
  cpp <- Target_call C_generator "cpp"
           [("command", VStr "{exe} {in} {env.CXXFLAGS} -o {out}");
            ("executor", VRef xcpp)] (here 52%Z) ;;
  Target_call C_filetype "cpp"
    [("extensions", VList [VStr ".cpp"; VStr ".cxx"]); ("generator", VRef cpp)]
    (here 49%Z) ;;
  xldmd2 <- external_executable "ldmd2" [] ;;
  ldmd2 <- Target_call C_generator "ldmd2"
             [("command",
               VStr "{executor} -c {in} {includes} {env.DFLAGS} -of={out}");
              ("executor", VRef xldmd2)] (here 62%Z) ;;
  Target_call C_filetype "d"
    [("extensions", VList [VStr ".d"]); ("generator", VRef ldmd2)]
    (here 59%Z) ;;
  Target_hook C_finder "default" 0 [("default", VBool true)] hook_site ;;
  Target_hook C_builder "default" 1 [("default", VBool true)] hook_site ;;
  xninja <- external_executable "ninja" [] ;;
  Target_hook C_builder "ninja" 2 [("executor", VRef xninja)] hook_site ;;
  ret tt.

(** [_.load()].  [recipes] is what [load_recipes()] and the execution
    of the recipe file do. *)
Definition load (recipes : M unit) : M unit :=
  modify (set_phase "load") ;;
  recipes ;;
  stop_on_error ;;
  modify (set_phase "prepare") ;;
  s <- get_state ;;
  for_each (map fst s.(registry)) registry_prepare ;;
  stop_on_error ;;
  modify (set_phase "postload").

(** [main.check()]: every target registered at that moment is
    expanded. *)
Definition check (fuel : nat) : M unit :=
  s <- get_state ;;
  for_each (map fst s.(registry))
    (fun h => expand opt_systarget call fuel h ;; ret tt).

End Orchestration.

(** [target('later')]: a reference to a target that is never defined. *)
Definition declared_fwd : state :=
  state_after (Target_call C_target "later" [] recipe_site) loading.

(** [dependency('loop', dependencies={target('loop')})], prepared, in a
    process whose default environment is expanded. *)
Definition declared_loop : state :=
  state_after
    (Target_call C_dependency "loop" [("dependencies", VSet [VRef "loop"])]
       recipe_site ;;
     prepare sample_systarget "loop" ;;
     expand sample_systarget sample_call 10 "environment::default")
    loaded.

(** The built-in recipes have been declared; nothing is prepared. *)
Definition declared_builtin : state :=
  state_after (modify (set_phase "load") ;; load_recipes sample_systarget)
    (initial_state "/r/simba.py").

(* ------------------------------------------------------------------ *)
(** ** Schemas *)

(** One [v.field(name, types, required=, default=)] declaration. *)
Record field_spec : Type := mkSpec {
  fs_name : string;
  fs_types : list pytype;
  fs_required : bool;
  fs_default : value
}.

(** The declarations of a schema, one after the other. *)
Definition declare (h : string) (specs : list field_spec) : M unit :=
  for_each specs
    (fun sp => field h sp.(fs_name) sp.(fs_types) sp.(fs_required)
                 sp.(fs_default)).

(** The attribute [sp] declares holds a value of one of its types, or,
    when it is not required, its default. *)
Definition conforms (s : state) (d : dict) (sp : field_spec) : Prop :=
  exists v,
    dget sp.(fs_name) d = Some v
    /\ ((v <> VNone /\ existsb (isinstance_val s v) sp.(fs_types) = true)
        \/ (sp.(fs_required) = false /\ v = sp.(fs_default))).

(** The schema of [external._prepare]. *)
Definition external_schema : list field_spec :=
  [mkSpec "kind" [T_str] false (VStr "unknown");
   mkSpec "provider" [T_str] true VNone;
   mkSpec "external_name" [T_str] true VNone;
   mkSpec "path" [T_str] false VNone].

(** The schema of [generator._prepare] for a generator named [n]. *)
Definition generator_schema (n : string) : list field_spec :=
  [mkSpec "command" [T_str] true VNone;
   mkSpec "executor" [T_class C_dependency] true VNone;
   mkSpec "depfile" [T_str] false VNone;
   mkSpec "deptype" [T_str] false VNone;
   mkSpec "rspfile" [T_str] false VNone;
   mkSpec "rspcontent" [T_str] false VNone;
   mkSpec "includefmt" [T_str] false (VStr "-I '%s'");
   mkSpec "variables" [T_dict] false (VDict []);
   mkSpec "description" [T_str] false (VStr (upper n ++ " {out}"));
   mkSpec "output" [T_str] false (VStr "{filename}{kindext}")].

(** The schema of [dependency._prepare] when the default environment
    is [env_default]. *)
Definition dependency_schema (env_default : string) : list field_spec :=
  [mkSpec "kind" [T_str] false (VStr "unknown");
   mkSpec "aliases" [T_set] false (VSet []);
   mkSpec "dependencies" [T_set] false (VSet []);
   mkSpec "provider" [T_str] false (VStr "internal");
   mkSpec "generator" [T_class C_generator] false VNone;
   mkSpec "nofiletype" [T_bool] false (VBool false);
   mkSpec "sources" [T_files; T_class C_file; T_set; T_tuple; T_str]
     false (VSet []);
   mkSpec "environment" [T_class C_environment] false (VRef env_default)].

(* ------------------------------------------------------------------ *)
(** ** What no call undoes *)

(** A registered object stays registered with its class and keeps the
    flags it has; nothing is registered. *)
Definition node_grows (o o' : option node) : Prop :=
  match o, o' with
  | Some nd, Some nd' =>
      n_class nd' = n_class nd
      /\ (is_prepared nd = true -> is_prepared nd' = true)
      /\ (is_expanded nd = true -> is_expanded nd' = true)
  | None, None => True
  | _, _ => False
  end.

(** From [s] to [s'] no error has been cleared and every object has
    grown. *)
Definition grows (s s' : state) : Prop :=
  haserror s <= haserror s'
  /\ forall h, node_grows (hget h (registry s)) (hget h (registry s')).

(** What the calls of the lifecycle never touch: the phase, the class
    defaults, the visited set, the current context and the graph file. *)
Definition stable (s s' : state) : Prop :=
  phase s' = phase s /\ defaults s' = defaults s
  /\ visited s' = visited s /\ context_file s' = context_file s
  /\ build_ninja s' = build_ninja s.

(** An assignment that cannot reset a lifecycle flag. *)
Definition flag_safe (k : string) (v : value) : Prop :=
  (k <> "_prepared" /\ k <> "_expanded") \/ truthy v = true.

(** A relation between states that holds across every elementary step
    the lifecycle takes: recording an error, the bookkeeping of the
    validator, of the extension table, of the finders and of the pool,
    and an assignment to an attribute of a registered object. *)
Record frame (R : state -> state -> Prop) : Prop := mkFrame {
  frame_refl : forall s, R s s;
  frame_trans : forall s1 s2 s3, R s1 s2 -> R s2 s3 -> R s1 s3;
  frame_error :
    forall s line,
      R s (set_console (List.app s.(console) [line])
             (set_haserror (S s.(haserror)) s));
  frame_vfields : forall s f, R s (set_vfields f s);
  frame_filetypes : forall s f, R s (set_filetypes f s);
  frame_finders : forall s f, R s (set_finders f s);
  frame_pool : forall s p, R s (set_pool_all p s);
  frame_setattr :
    forall s h nd k v,
      hget h s.(registry) = Some nd -> flag_safe k v ->
      R s (set_registry
             (hset h (mkNode nd.(n_class) (dset k v nd.(n_dict)))
                s.(registry)) s)
}.

(** A computation that, whatever its outcome, leaves the state related
    to the one it started from. *)
Definition keeps (R : state -> state -> Prop) {A} (m : M A) : Prop :=
  forall s, R s (state_after m s).

(* ------------------------------------------------------------------ *)
(** ** Inheritance between environments *)

(** An attribute is given when it is present and not [None]. *)
Definition given (o : option value) : bool :=
  match o with
  | None | Some VNone => false
  | Some _ => true
  end.

(** The value given on the object, or else the one of its parent. *)
Definition inherit (own parent : option value) : option value :=
  if given own then own else parent.

(** [if self.x is None: self.x = e] *)
Definition or_empty (e : value) (o : option value) : option value :=
  match o with
  | Some VNone => Some e
  | _ => o
  end.

(** The declarations of [environment._prepare] that follow [parent],
    for an environment that is not the default one. *)
Definition environment_schema (st ar li inc va : value) : list field_spec :=
  [mkSpec "systarget" [T_str] false st;
   mkSpec "archiver" [T_class C_generator] false ar;
   mkSpec "linker" [T_class C_generator] false li;
   mkSpec "includes" [T_list; T_set] false inc;
   mkSpec "variables" [T_dict; T_bunch] false va].

(** [environment(name='debug', variables={'CFLAGS': '-g'})] has been
    declared after the built-in recipes were loaded and prepared. *)
Definition declared_env : state :=
  state_after
    (Target_call C_environment "debug"
       [("variables", VDict [("CFLAGS", VStr "-g")])] recipe_site)
    loaded.

(** The built-in recipes have been declared and every target has been
    prepared. *)
Definition prepared_builtin : state :=
  state_after
    (s <- get_state ;;
     for_each (map fst s.(registry))
       (fun h => prepare sample_systarget h ;; ret tt))
    declared_builtin.

(** [shutil.which] on a system that has [ninja] only. *)
Definition sample_which (n : string) : option string :=
  if String.eqb n "ninja" then Some "/usr/bin/ninja" else None.

(** A recipe that declares
    [dependency('tool', sources=file('a.c'), kind='executable')] after
    the built-in recipes, loaded by [_.load]. *)
Definition loaded_tool : state :=
  state_after
    (load sample_systarget
       (load_recipes sample_systarget ;;
        f <- Target_call C_file "a.c" [] recipe_site ;;
        Target_call C_dependency "tool"
          [("sources", VRef f); ("kind", VStr "executable")] recipe_site ;;
        ret tt))
    (initial_state "/r/simba.py").

(* ================================================================== *)
(** * Properties *)

(** ** Dictionaries and the registry *)

Lemma dget_dset_same k v d : dget k (dset k v d) = Some v.
Proof.
  induction d as [|[k' v'] d IH]; simpl.
  - now rewrite String.eqb_refl.
  - destruct (String.eqb k k') eqn:E; simpl; rewrite ?E, ?String.eqb_refl; auto.
Qed.

Lemma dget_dset_other k k' v d : k <> k' -> dget k (dset k' v d) = dget k d.
Proof.
  intros Hne. apply String.eqb_neq in Hne.
  induction d as [|[k2 v2] d IH]; simpl.
  - now rewrite Hne.
  - destruct (String.eqb k' k2) eqn:E; simpl.
    + apply String.eqb_eq in E; subst. now rewrite Hne.
    + destruct (String.eqb k k2); auto.
Qed.

Lemma dget_ddel_other k k' d : k <> k' -> dget k (ddel k' d) = dget k d.
Proof.
  intros Hne. apply String.eqb_neq in Hne.
  induction d as [|[k2 v2] d IH]; simpl; auto.
  destruct (String.eqb k' k2) eqn:E; simpl.
  - apply String.eqb_eq in E; subst. now rewrite Hne.
  - destruct (String.eqb k k2); auto.
Qed.

Lemma dset_same_value k v d : dget k d = Some v -> dset k v d = d.
Proof.
  induction d as [|[k' v'] d IH]; simpl; [discriminate|].
  destruct (String.eqb k k') eqn:E.
  - apply String.eqb_eq in E; subst. now intros [= ->].
  - intros H. now rewrite IH.
Qed.

Lemma dset_dset k v v' d : dset k v (dset k v' d) = dset k v d.
Proof.
  induction d as [|[k' w] d IH]; simpl.
  - now rewrite String.eqb_refl.
  - destruct (String.eqb k k') eqn:E; simpl.
    + now rewrite String.eqb_refl.
    + now rewrite E, IH.
Qed.

Lemma hget_hset_same k v h : hget k (hset k v h) = Some v.
Proof.
  induction h as [|[k' v'] h IH]; simpl.
  - now rewrite String.eqb_refl.
  - destruct (String.eqb k k') eqn:E; simpl; rewrite ?E, ?String.eqb_refl; auto.
Qed.

Lemma hget_hset_other k k' v h : k <> k' -> hget k (hset k' v h) = hget k h.
Proof.
  intros Hne. apply String.eqb_neq in Hne.
  induction h as [|[k2 v2] h IH]; simpl.
  - now rewrite Hne.
  - destruct (String.eqb k' k2) eqn:E; simpl.
    + apply String.eqb_eq in E; subst. now rewrite Hne.
    + destruct (String.eqb k k2); auto.
Qed.

Lemma hset_same_value k v h : hget k h = Some v -> hset k v h = h.
Proof.
  induction h as [|[k' v'] h IH]; simpl; [discriminate|].
  destruct (String.eqb k k') eqn:E.
  - apply String.eqb_eq in E; subst. now intros [= ->].
  - intros H. now rewrite IH.
Qed.

Lemma hset_hset k v v' h : hset k v (hset k v' h) = hset k v h.
Proof.
  induction h as [|[k' w] h IH]; simpl.
  - now rewrite String.eqb_refl.
  - destruct (String.eqb k k') eqn:E; simpl.
    + now rewrite String.eqb_refl.
    + now rewrite E, IH.
Qed.

(** ** Attribute lookup on names that no class defines *)

Lemma has_method_plain c k : plain_key k = true -> has_method c k = false.
Proof.
  unfold plain_key. rewrite andb_true_iff, forallb_forall. intros [_ H].
  apply negb_true_iff, H. destruct c; simpl; tauto.
Qed.

Lemma getattr_plain s h nd k :
  plain_key k = true -> py_getattr s h nd k = dget k nd.(n_dict).
Proof.
  intros Hk. pose proof (has_method_plain nd.(n_class) k Hk) as Hm.
  unfold plain_key in Hk. apply andb_true_iff in Hk as [Hk _].
  apply negb_true_iff in Hk. repeat (apply orb_false_iff in Hk as [Hk ?]).
  unfold py_getattr. rewrite Hk, H2, Hm.
  destruct (dget k (n_dict nd)); auto.
  rewrite H1, H0, H. reflexivity.
Qed.

Lemma target_name_name_of s h nd :
  target_name s h nd = name_of nd.(n_class) nd.(n_dict).
Proof.
  unfold target_name, name_of.
  rewrite !getattr_plain by reflexivity. destruct (n_class nd); reflexivity.
Qed.

Lemma name_of_ddel c k d :
  k <> "name" -> k <> "kind" -> k <> "external_name" ->
  name_of c (ddel k d) = name_of c d.
Proof.
  intros. unfold name_of.
  rewrite !dget_ddel_other by congruence. reflexivity.
Qed.

Lemma name_of_dset c k v d :
  k <> "name" -> k <> "kind" -> k <> "external_name" ->
  name_of c (dset k v d) = name_of c d.
Proof.
  intros. unfold name_of.
  rewrite !dget_dset_other by congruence. reflexivity.
Qed.

Lemma take_flag_name_of c k d :
  k <> "name" -> k <> "kind" -> k <> "external_name" ->
  name_of c (snd (take_flag k d)) = name_of c d.
Proof.
  intros. unfold take_flag. destruct (dget k d); simpl; auto.
  now apply name_of_ddel.
Qed.

Lemma take_flag_dget k k' d :
  k' <> k -> dget k' (snd (take_flag k d)) = dget k' d.
Proof.
  intros. unfold take_flag. destruct (dget k d); simpl; auto.
  now apply dget_ddel_other.
Qed.

(* ------------------------------------------------------------------ *)
(** ** C6: creation of nodes and the phase *)

(** What [_.update] does with an object whose qualified name is new. *)
Lemma update_new c d s tname :
  name_of c d = Some tname ->
  hget tname s.(registry) = None ->
  dget "name" d <> None ->
  dget "_frame" d = None ->
  (s.(phase) = "prepare" ->
   exists s', update (mkNode c d) s = Exit s'
              /\ haserror s' = S (haserror s))
  /\ (s.(phase) <> "prepare" ->
      exists s', update (mkNode c d) s = Ok tname s'
                 /\ s'.(registry)
                    = hset tname
                        (mkNode c (snd (take_flag "default"
                                          (snd (take_flag "override" d)))))
                        s.(registry)
                 /\ haserror s' = haserror s
                 /\ console s' = console s
                 /\ phase s' = phase s
                 /\ filetypes s' = filetypes s
                 /\ finders s' = finders s
                 /\ context_file s' = context_file s
                 /\ (defaults s' = defaults s
                     \/ defaults s' = (c, tname) :: defaults s)).
Proof.
  intros Hname Hfresh Hn Hframe.
  unfold update, bind, get_state.
  rewrite target_name_name_of. cbn [n_class n_dict]. rewrite Hname.
  destruct (take_flag "override" d) as [override d1] eqn:E1. cbn [snd].
  destruct (take_flag "default" d1) as [default d2] eqn:E2. cbn [snd].
  assert (Ed2 : d2 = snd (take_flag "default" (snd (take_flag "override" d))))
    by (rewrite E1; simpl; rewrite E2; reflexivity).
  assert (Hname2 : name_of c d2 = Some tname).
  { rewrite Ed2, !take_flag_name_of by discriminate. exact Hname. }
  assert (Hn2 : dget "name" d2 <> None).
  { rewrite Ed2, !take_flag_dget by discriminate. exact Hn. }
  assert (Hframe2 : dget "_frame" d2 = None).
  { rewrite Ed2, !take_flag_dget by discriminate. exact Hframe. }
  clear Ed2 E1 E2.
  cbn [n_class]. rewrite Hfresh.
  unfold store, modify, bind. simpl.
  set (s1 := set_registry (hset tname (mkNode c d2) (registry s)) s).
  assert (Hend : forall s2 : state,
             phase s2 = phase s -> haserror s2 = haserror s ->
             console s2 = console s ->
             registry s2 = registry s1 -> filetypes s2 = filetypes s ->
             finders s2 = finders s ->
             context_file s2 = context_file s ->
             (defaults s2 = defaults s
              \/ defaults s2 = (c, tname) :: defaults s) ->
             (phase s = "prepare" ->
              exists s', (ensure_can_create tname (mkNode c d2) ;; ret tname) s2
                         = Exit s' /\ haserror s' = S (haserror s))
             /\ (phase s <> "prepare" ->
                 exists s', (ensure_can_create tname (mkNode c d2) ;; ret tname) s2
                            = Ok tname s'
                            /\ registry s' = registry s1
                            /\ haserror s' = haserror s
                            /\ console s' = console s
                            /\ phase s' = phase s
                            /\ filetypes s' = filetypes s
                            /\ finders s' = finders s
                            /\ context_file s' = context_file s
                            /\ (defaults s' = defaults s
                                \/ defaults s' = (c, tname) :: defaults s))).
  { intros s2 Hp He Hco Hr Hf Hfi Hc Hd.
    unfold ensure_can_create, bind, get_state. split.
    - intros Hprep. rewrite Hp, Hprep. simpl.
      unfold node_fatal, node_error, bind, get_state.
      rewrite target_name_name_of. simpl. rewrite Hname2.
      rewrite getattr_plain by reflexivity. simpl. rewrite Hframe2.
      unfold error, modify, sys_exit. simpl. eexists; split; eauto.
      simpl. congruence.
    - intros Hprep. apply String.eqb_neq in Hprep. rewrite Hp, Hprep.
      unfold ret. eexists; repeat split; eauto. }
  destruct (truthy default).
  - unfold set_class_default, modify. simpl.
    apply Hend; try reflexivity. now right.
  - unfold name_is_default. rewrite getattr_plain by reflexivity. simpl.
    destruct (dget "name" d2) as [n|] eqn:En; [|congruence].
    unfold ret. simpl.
    destruct (py_eq n (VStr "default") && _).
    + unfold set_class_default, modify. simpl.
      apply Hend; try reflexivity. now right.
    + apply Hend; try reflexivity. now left.
Qed.

(** C6, as stated, fails: in the [postload] phase (which follows
    [prepare]) declaring a name that is not registered creates the
    node and returns it; no error is recorded. *)
Lemma create_in_postload_succeeds :
  let s := set_phase "postload" (initial_state "/r/simba.py") in
  hget "app" s.(registry) = None
  /\ exists s',
       Target_call C_dependency "app" [("kind", VStr "executable")]
         ("/r/simba.py", 3%Z) s = Ok "app" s'
       /\ hget "app" s'.(registry) <> None
       /\ haserror s' = 0.
Proof.
  simpl. split; [reflexivity|].
  eexists. split; [vm_compute; reflexivity|].
  split; [discriminate | reflexivity].
Qed.

(** C6 (amended): declaring a qualified name that is not in the registry
    is a hard error that terminates the process exactly while the engine
    is in the [prepare] phase; in every other phase ([preload], [load],
    [postload]) the node is created and returned without error. *)
Theorem create_is_fatal_exactly_in_prepare_phase :
  forall c name kwargs site s tname,
    target_name s "" (mkNode c (("name", VStr name) :: kwargs)) = Some tname ->
    hget tname s.(registry) = None ->
    dget "_frame" kwargs = None ->
    (s.(phase) = "prepare" ->
     exists s', Target_call c name kwargs site s = Exit s'
                /\ haserror s' = S (haserror s))
    /\ (s.(phase) <> "prepare" ->
        exists s' nd, Target_call c name kwargs site s = Ok tname s'
                      /\ hget tname s'.(registry) = Some nd
                      /\ n_class nd = c
                      /\ haserror s' = haserror s).
Proof.
  intros c name kwargs site s tname Hname Hfresh Hframe.
  rewrite target_name_name_of in Hname. cbn [n_class n_dict] in Hname.
  destruct (update_new c (("name", VStr name) :: kwargs) s Hname Hfresh)
    as [Hprep Hother]; [discriminate | exact Hframe |].
  split; intros Hp.
  - destruct (Hprep Hp) as (s' & Hu & He).
    exists s'. split; [|exact He].
    unfold Target_call, bind. rewrite Hu. reflexivity.
  - destruct (Hother Hp) as (s' & Hu & Hr & He & _).
    unfold Target_call, bind. rewrite Hu.
    unfold get_state, lookup. rewrite Hr, hget_hset_same.
    unfold store, modify, ret. cbn [n_class n_dict].
    eexists; eexists. split; [reflexivity|].
    cbn [registry set_registry]. rewrite hget_hset_same.
    repeat split. exact He.
Qed.

Lemma create_is_fatal_exactly_in_prepare_phase_witness :
  let s := set_phase "prepare" (initial_state "/r/simba.py") in
  target_name s "" (mkNode C_dependency [("name", VStr "app")]) = Some "app"
  /\ hget "app" s.(registry) = None
  /\ exists s', Target_call C_dependency "app" [] ("/r/simba.py", 3%Z) s = Exit s'
                /\ haserror s' = 1.
Proof.
  simpl. split; [reflexivity|]. split; [reflexivity|].
  apply (create_is_fatal_exactly_in_prepare_phase C_dependency "app" []
           ("/r/simba.py", 3%Z)
           (set_phase "prepare" (initial_state "/r/simba.py")) (tname := "app"));
    reflexivity.
Defined.

(* ------------------------------------------------------------------ *)
(** ** C1: merging a second declaration *)

Lemma append_assoc (a b c : string) : (a ++ b) ++ c = a ++ (b ++ c).
Proof. induction a; simpl; congruence. Qed.

Lemma error_spec reason f l s :
  exists line,
    error reason f l s
    = Ok tt (set_console (List.app (console s) [line])
               (set_haserror (S (haserror s)) s))
    /\ exists pre, line = pre ++ ": " ++ reason.
Proof.
  unfold error, modify. eexists. split; [reflexivity|].
  eexists; reflexivity.
Qed.

Lemma target_error_spec h r reason fld s :
  hget h (registry s) = Some r ->
  name_of (n_class r) (n_dict r) <> None ->
  frame_ok (n_dict r) ->
  exists line,
    target_error h reason fld s
    = Ok tt (set_console (List.app (console s) [line])
               (set_haserror (S (haserror s)) s))
    /\ exists pre, line = pre ++ ": " ++ reason.
Proof.
  intros Hr Hn Hf.
  unfold target_error, bind, lookup. rewrite Hr.
  unfold node_error, bind, get_state. rewrite target_name_name_of.
  destruct (name_of (n_class r) (n_dict r)) as [n|]; [|congruence].
  rewrite getattr_plain by reflexivity.
  set (prefix := match fld with
                 | Some f => if String.eqb f "" then n else n ++ "." ++ f
                 | None => n
                 end).
  assert (Hgen : forall f l,
             exists line,
               error (prefix ++ ": " ++ reason) f l s
               = Ok tt (set_console (List.app (console s) [line])
                          (set_haserror (S (haserror s)) s))
               /\ exists pre, line = pre ++ ": " ++ reason).
  { intros f l. destruct (error_spec (prefix ++ ": " ++ reason) f l s)
      as (line & He & pre & Hl).
    exists line. split; [exact He|].
    exists (pre ++ ": " ++ prefix). rewrite Hl.
    now rewrite !append_assoc. }
  destruct Hf as [Hf | (f & l & Hf)]; rewrite Hf; apply Hgen.
Qed.


Lemma getattr_defaults s s' h nd k :
  defaults s = defaults s' -> py_getattr s h nd k = py_getattr s' h nd k.
Proof.
  intros Hd. unfold py_getattr, class_default. now rewrite Hd.
Qed.







Lemma getattr_hit s h c d k v :
  is_property k = false -> dget k d = Some v ->
  py_getattr s h (mkNode c d) k = Some v.
Proof.
  unfold is_property. intros Hp Hg. apply orb_false_iff in Hp as [H1 H2].
  unfold py_getattr. cbn [n_dict]. now rewrite H1, H2, Hg.
Qed.
















(* ------------------------------------------------------------------ *)
(** ** C10: a field that is [None] *)

(** C10: [TargetValidator.field] treats an attribute whose value is
    [None] exactly like a missing attribute.  In both cases: when the
    field is not required the declared default is assigned and no error
    is recorded; when it is required the error "field is required" is
    recorded and the object is left as it is. *)
Theorem field_none_is_treated_as_absent :
  forall s h obj fieldname fieldtypes default,
    hget h s.(registry) = Some obj ->
    py_getattr s h obj fieldname = None
    \/ py_getattr s h obj fieldname = Some VNone ->
    (is_property fieldname = false ->
     exists s' obj',
       field h fieldname fieldtypes false default s = Ok tt s'
       /\ hget h s'.(registry) = Some obj'
       /\ py_getattr s' h obj' fieldname = Some default
       /\ haserror s' = haserror s
       /\ console s' = console s
       /\ vfields s' = List.app (vfields s) [fieldname])
    /\ (name_of obj.(n_class) obj.(n_dict) <> None ->
        frame_ok obj.(n_dict) ->
        exists s' pre,
          field h fieldname fieldtypes true default s = Ok tt s'
          /\ registry s' = registry s
          /\ haserror s' = S (haserror s)
          /\ console s'
             = List.app (console s) [pre ++ ": field is required"]
          /\ vfields s' = List.app (vfields s) [fieldname]).
Proof.
  intros s h obj f ts dflt Hobj Hnone.
  set (s0 := set_vfields (List.app (vfields s) [f]) s).
  assert (Hg : py_getattr s0 h obj f = None \/ py_getattr s0 h obj f = Some VNone).
  { now rewrite (getattr_defaults s0 s h obj f eq_refl). }
  assert (Hbranch : forall required,
             field h f ts required dflt s
             = (if required then target_error h "field is required" (Some f)
                else py_setattr h f dflt) s0).
  { intros required. unfold field.
    unfold bind at 1, modify at 1. fold s0.
    unfold bind at 1, get_state at 1.
    unfold bind at 1, lookup at 1. cbn [registry s0 set_vfields]. rewrite Hobj.
    destruct Hg as [Hg | Hg]; rewrite Hg; reflexivity. }
  split.
  - intros Hprop. rewrite Hbranch.
    unfold py_setattr, bind, lookup. cbn [registry s0 set_vfields]. rewrite Hobj.
    unfold node_setattr. rewrite Hprop. unfold store, modify.
    eexists. eexists. split; [reflexivity|]. cbn.
    rewrite hget_hset_same. split; [reflexivity|].
    split; [|auto]. apply getattr_hit; [exact Hprop | apply dget_dset_same].
  - intros Hn Hf. rewrite Hbranch.
    destruct (target_error_spec h "field is required" (Some f) s0 Hobj Hn Hf)
      as (line & He & pre & Hl).
    rewrite He. exists (set_console (List.app (console s0) [line])
                          (set_haserror (S (haserror s0)) s0)), pre.
    split; [reflexivity|]. cbn. rewrite Hl. auto.
Qed.

Lemma field_none_is_treated_as_absent_witness :
  (exists obj, hget "app" declared_app.(registry) = Some obj
               /\ py_getattr declared_app "app" obj "kind" = Some VNone)
  /\ (exists s' obj',
        field "app" "kind" [T_str] false (VStr "unknown") declared_app
        = Ok tt s'
        /\ hget "app" s'.(registry) = Some obj'
        /\ py_getattr s' "app" obj' "kind" = Some (VStr "unknown")
        /\ haserror s' = haserror declared_app)
  /\ exists s',
       field "app" "kind" [T_str] true (VStr "unknown") declared_app
       = Ok tt s'
       /\ haserror s' = S (haserror declared_app).
Proof.
  pose (obj := mkNode C_dependency
                 [("name", VStr "app"); ("kind", VNone);
                  ("_context", VCtx "/r/simba.py");
                  ("_frame", VFrame "/r/simba.py" 3)]).
  assert (Hobj : hget "app" declared_app.(registry) = Some obj) by reflexivity.
  destruct (@field_none_is_treated_as_absent declared_app "app" obj "kind"
              [T_str] (VStr "unknown") Hobj (or_intror eq_refl)) as [Hopt Hreq].
  split; [exists obj; split; reflexivity|]. split.
  - destruct (Hopt eq_refl) as (s' & obj' & Hf & Hg & Hv & Hh & _).
    exists s', obj'. auto.
  - destruct Hreq as (s' & pre & Hf & _ & Hh & _).
    + discriminate.
    + right. eexists. eexists. reflexivity.
    + exists s'. auto.
Defined.

(* ------------------------------------------------------------------ *)
(** ** The validator on a well-formed object *)

Lemma target_error_exact h r reason fld s n :
  hget h (registry s) = Some r ->
  name_of (n_class r) (n_dict r) = Some n ->
  frame_ok (n_dict r) ->
  target_error h reason fld s
  = Ok tt
      (set_console
         (List.app (console s)
            [error_prefix (n_dict r) ++ ": "
             ++ (match fld with
                 | Some f => if String.eqb f "" then n else n ++ "." ++ f
                 | None => n
                 end ++ ": " ++ reason)])
         (set_haserror (S (haserror s)) s)).
Proof.
  intros Hr Hn Hf.
  unfold target_error, bind, lookup. rewrite Hr.
  unfold node_error, bind, get_state. rewrite target_name_name_of, Hn.
  rewrite getattr_plain by reflexivity. unfold error_prefix.
  destruct Hf as [Hf | (f & l & Hf)]; rewrite Hf; reflexivity.
Qed.

Lemma field_present s h obj f ts req dflt v :
  hget h (registry s) = Some obj ->
  py_getattr s h obj f = Some v ->
  v <> VNone ->
  existsb (isinstance_val s v) ts = true ->
  field h f ts req dflt s
  = Ok tt (set_vfields (List.app (vfields s) [f]) s).
Proof.
  intros Hobj Hg Hv Hty. unfold field.
  unfold bind at 1, modify at 1.
  set (s0 := set_vfields (List.app (vfields s) [f]) s).
  unfold bind at 1, get_state at 1.
  unfold bind at 1, lookup at 1. cbn [registry s0 set_vfields]. rewrite Hobj.
  rewrite (getattr_defaults s0 s h obj f eq_refl), Hg.
  change (existsb (isinstance_val s0 v) ts)
    with (existsb (isinstance_val s v) ts).
  rewrite Hty. destruct v; try reflexivity. congruence.
Qed.

Lemma bunch_iter_keys s h nd kv :
  In kv (bunch_iter s h nd) ->
  is_private (fst kv) = false /\ In (fst kv) (map fst (n_dict nd)).
Proof.
  unfold bunch_iter. intros H. apply in_flat_map in H as ([k v] & Hin & H).
  cbn [fst] in H. destruct (is_private k) eqn:Ep; [destruct H|].
  destruct (py_getattr s h nd k); [|destruct H].
  destruct H as [<- | []]. cbn [fst]. split; [exact Ep|].
  change k with (fst (k, v)). now apply in_map.
Qed.

Lemma validator_exit_clean h obj s :
  hget h (registry s) = Some obj ->
  haserror s = 0 ->
  (forall k, In k (map fst (n_dict obj)) -> is_private k = false ->
             In k (vfields s)) ->
  validator_exit h s = Ok tt s.
Proof.
  intros Hobj Herr Hkeys. unfold validator_exit.
  unfold bind at 1, get_state at 1.
  unfold bind at 1, lookup at 1. rewrite Hobj.
  assert (Hloop : forall l,
             (forall kv, In kv l -> In kv (bunch_iter s h obj)) ->
             for_each l
               (fun kv =>
                  if is_private (fst kv) then ret tt
                  else
                    s' <- get_state ;;
                    if existsb (String.eqb (fst kv)) s'.(vfields) then ret tt
                    else
                      str_obj <- str_of h ;;
                      error ("unrecognized field '" ++ str_obj ++ "."
                             ++ fst kv ++ "'") None None) s = Ok tt s).
  { induction l as [|kv l IH]; intros Hl; [reflexivity|].
    cbn [for_each]. unfold bind at 1.
    destruct (bunch_iter_keys s h obj kv (Hl kv (or_introl eq_refl)))
      as [Hp Hin].
    rewrite Hp. unfold bind at 1, get_state at 1.
    assert (He : existsb (String.eqb (fst kv)) (vfields s) = true).
    { apply existsb_exists. exists (fst kv). split; [auto|].
      apply String.eqb_refl. }
    rewrite He. unfold ret at 1. apply IH. intros; apply Hl; now right. }
  unfold bind. rewrite Hloop by auto.
  unfold stop_on_error. now rewrite Herr.
Qed.

(* ------------------------------------------------------------------ *)
(** ** C4: an extension registered twice *)

Lemma register_loop_clash h nd str_self :
  forall l s e other onode str_other,
    hget h (registry s) = Some nd ->
    name_of (n_class nd) (n_dict nd) = Some str_self ->
    frame_ok (n_dict nd) ->
    first_clash h l (filetypes s) = Some (e, other) ->
    hget other (registry s) = Some onode ->
    name_of (n_class onode) (n_dict onode) = Some str_other ->
    exists s',
      for_each l
        (fun e =>
           if hashable e then
             s <- get_state ;;
             (match vget e s.(filetypes) with
              | Some other =>
                  str_other <- str_of other ;;
                  target_fatal h
                    ("target '" ++ str_other ++ "' already registers '."
                     ++ py_str e ++ "'") None
              | None => ret tt
              end) ;;
             modify (fun s => set_filetypes (vset e h s.(filetypes)) s)
           else raise "TypeError") s = Exit s'
      /\ haserror s' = S (haserror s)
      /\ console s'
         = List.app (console s)
             [error_prefix (n_dict nd) ++ ": " ++ str_self ++ ": target '"
              ++ str_other ++ "' already registers '." ++ py_str e ++ "'"].
Proof.
  induction l as [|x l IH]; intros s e other onode str_other Hh Hn Hf Hclash Ho Hon;
    [discriminate|].
  cbn [first_clash] in Hclash. cbn [for_each].
  destruct (hashable x) eqn:Ehash; [|discriminate].
  unfold bind at 1. unfold bind at 1. unfold bind at 1, get_state at 1.
  destruct (vget x (filetypes s)) as [o|] eqn:Eget.
  - injection Hclash as -> ->.
    unfold bind at 1. unfold str_of at 1.
    unfold bind at 1, get_state at 1. unfold bind at 1, lookup at 1.
    rewrite Ho, target_name_name_of, Hon. unfold ret at 1.
    unfold target_fatal, bind at 1, lookup at 1. rewrite Hh.
    unfold node_fatal, bind.
    pose proof (@target_error_exact h nd
                  ("target '" ++ str_other ++ "' already registers '."
                   ++ py_str e ++ "'") None s str_self Hh Hn Hf) as He.
    unfold target_error, bind, lookup in He. rewrite Hh in He. rewrite He.
    unfold sys_exit. eexists. split; [reflexivity|]. cbn. auto.
  - unfold ret at 1. unfold modify at 1.
    apply (IH (set_filetypes (vset x h (filetypes s)) s) e other onode str_other);
      auto.
Qed.

Lemma bind_Ok {A B} (m : M A) (f : A -> M B) s a s' :
  m s = Ok a s' -> bind m f s = f a s'.
Proof. intros H. unfold bind. now rewrite H. Qed.
Arguments bind_Ok {A B m f s a s'} _.

Lemma try_finally_Ok {A} (body : M A) (fin : M unit) s a s' s'' :
  body s = Ok a s' -> fin s' = Ok tt s'' -> try_finally body fin s = Ok a s''.
Proof. intros Hb Hf. unfold try_finally, bind. now rewrite Hb, Hf. Qed.

Lemma attr_plain h k s nd v :
  hget h (registry s) = Some nd -> plain_key k = true ->
  dget k (n_dict nd) = Some v -> attr h k s = Ok v s.
Proof.
  intros Hh Hk Hg. unfold attr, bind, get_state, lookup.
  now rewrite Hh, getattr_plain, Hg.
Qed.

(** C4, as stated, fails: preparing a second filetype that lists [.c]
    when [filetype::c] has registered it leaves the process through
    [sys.exit] at once; it is not an error that accumulates until the
    next checkpoint.  The message names both targets. *)
Lemma duplicate_extension_exits_at_once :
  vget (VStr ".c") two_filetypes.(filetypes) = Some "filetype::c"
  /\ haserror two_filetypes = 0
  /\ exists s',
       prepare "x86_64-pc-linux-gnu" "filetype::c2" two_filetypes = Exit s'
       /\ (forall r s'',
              prepare "x86_64-pc-linux-gnu" "filetype::c2" two_filetypes
              <> Ok r s'')
       /\ console s'
          = ["Error in /r/simba.py at 9: filetype::c2: target 'filetype::c' already registers '..c'"].
Proof.
  split; [reflexivity|]. split; [reflexivity|].
  eexists. split; [vm_compute; reflexivity|].
  split; [intros r s'' H; vm_compute in H; discriminate | reflexivity].
Qed.

(** C4 (amended): when [filetype._prepare] reaches an extension that
    another filetype target has registered, the error is fatal: it is
    recorded (the error counter grows by one) and the process terminates
    at once through [sys.exit], without waiting for a checkpoint.  The
    message names the registering target (as the subject of the line)
    and the target that already registers the extension. *)
Theorem duplicate_extension_is_fatal :
  forall s h nd n l g gn b str_self e other onode str_other,
    hget h s.(registry) = Some nd ->
    dget "name" nd.(n_dict) = Some (VStr n) ->
    dget "extensions" nd.(n_dict) = Some (VList l) ->
    dget "generator" nd.(n_dict) = Some (VRef g) ->
    hget g s.(registry) = Some gn ->
    isinstance gn.(n_class) C_generator = true ->
    private_flag "_expanded" nd = VBool b ->
    (forall k, In k (map fst nd.(n_dict)) -> is_private k = false ->
               In k ["name"; "expanded"; "extensions"; "generator"]) ->
    haserror s = 0 ->
    frame_ok nd.(n_dict) ->
    name_of nd.(n_class) nd.(n_dict) = Some str_self ->
    first_clash h l s.(filetypes) = Some (e, other) ->
    hget other s.(registry) = Some onode ->
    name_of onode.(n_class) onode.(n_dict) = Some str_other ->
    exists s',
      filetype_prepare h s = Exit s'
      /\ haserror s' = 1
      /\ console s'
         = List.app (console s)
             [error_prefix nd.(n_dict) ++ ": " ++ str_self ++ ": target '"
              ++ str_other ++ "' already registers '." ++ py_str e ++ "'"].
Proof.
  intros s h nd n l g gn b str_self e other onode str_other
         Hh Hname Hext Hgen Hg Hgc Hexp Hkeys Herr Hf Hn Hclash Ho Hon.
  unfold filetype_prepare.
  set (s0 := set_vfields [] s).
  set (s1 := set_vfields (List.app (vfields s0) ["name"]) s0).
  set (s2 := set_vfields (List.app (vfields s1) ["expanded"]) s1).
  set (s3 := set_vfields (List.app (vfields s2) ["extensions"]) s2).
  set (s4 := set_vfields (List.app (vfields s3) ["generator"]) s3).
  assert (E1 : field h "name" [T_str] true (VStr "default") s0 = Ok tt s1).
  { apply field_present with (obj := nd) (v := VStr n);
      [exact Hh | now rewrite getattr_plain | discriminate | reflexivity]. }
  assert (E2 : field h "expanded" [T_bool] false (VBool false) s1 = Ok tt s2).
  { apply field_present with (obj := nd) (v := VBool b);
      [exact Hh | unfold py_getattr; cbn [String.eqb Ascii.eqb Bool.eqb];
                  now rewrite Hexp
      | discriminate | reflexivity]. }
  assert (E3 : field h "extensions" [T_list] true VNone s2 = Ok tt s3).
  { apply field_present with (obj := nd) (v := VList l);
      [exact Hh | now rewrite getattr_plain | discriminate | reflexivity]. }
  assert (E4 : field h "generator" [T_class C_generator] true VNone s3
               = Ok tt s4).
  { apply field_present with (obj := nd) (v := VRef g);
      [exact Hh | now rewrite getattr_plain | discriminate |].
    cbn [existsb isinstance_val]. change (registry s3) with (registry s).
    now rewrite Hg, Hgc. }
  assert (E5 : validator_exit h s4 = Ok tt s4).
  { apply validator_exit_clean with (obj := nd); [exact Hh | exact Herr |].
    intros k Hin Hp. specialize (Hkeys k Hin Hp). cbn in Hkeys |- *. tauto. }
  assert (Hv : (modify (set_vfields []) ;;
                field h "name" [T_str] true (VStr "default") ;;
                field h "expanded" [T_bool] false (VBool false)) s = Ok tt s2).
  { unfold bind at 1, modify at 1. fold s0.
    rewrite (bind_Ok E1). exact E2. }
  assert (Hw : (field h "extensions" [T_list] true VNone ;;
                field h "generator" [T_class C_generator] true VNone) s2
               = Ok tt s4).
  { rewrite (bind_Ok E3). exact E4. }
  assert (Hwv : with_validator h
                  (field h "extensions" [T_list] true VNone ;;
                   field h "generator" [T_class C_generator] true VNone) s
                = Ok tt s4).
  { unfold with_validator, validator_enter. rewrite (bind_Ok Hv).
    apply try_finally_Ok with (s' := s4); [exact Hw | exact E5]. }
  rewrite (bind_Ok Hwv).
  rewrite (bind_Ok (@attr_plain h "extensions" s4 nd (VList l) Hh eq_refl Hext)).
  cbn [py_iter].
  destruct (@register_loop_clash h nd str_self l s4 e other onode str_other)
    as (s' & Hrun & Hh' & Hc'); auto.
  exists s'. split; [exact Hrun|]. split; [|exact Hc'].
  rewrite Hh'. cbn. now rewrite Herr.
Qed.

Lemma duplicate_extension_is_fatal_witness :
  first_clash "filetype::c2" [VStr ".c"] two_filetypes.(filetypes)
  = Some (VStr ".c", "filetype::c")
  /\ exists s',
       filetype_prepare "filetype::c2" two_filetypes = Exit s'
       /\ haserror s' = 1
       /\ console s'
          = ["Error in /r/simba.py at 9: filetype::c2: target 'filetype::c' already registers '..c'"].
Proof.
  split; [reflexivity|].
  pose (nd := mkNode C_filetype
                [("name", VStr "c2"); ("extensions", VList [VStr ".c"]);
                 ("generator", VRef "generator::cc");
                 ("_context", VCtx "/r/simba.py");
                 ("_frame", VFrame "/r/simba.py" 9)]).
  pose (gn := mkNode C_generator
                [("name", VStr "cc");
                 ("command", VStr "{exe} -c {in} -o {out}");
                 ("executor", VRef "external.executable::cc");
                 ("_context", VCtx "/r/simba.py");
                 ("_frame", VFrame "/r/simba.py" 3)]).
  pose (on := mkNode C_filetype
                [("name", VStr "c"); ("extensions", VList [VStr ".c"]);
                 ("generator", VRef "generator::cc");
                 ("_context", VCtx "/r/simba.py");
                 ("_frame", VFrame "/r/simba.py" 3);
                 ("_expand_lock", VLock false); ("_prepared", VBool true)]).
  apply (@duplicate_extension_is_fatal two_filetypes "filetype::c2" nd "c2"
           [VStr ".c"] "generator::cc" gn false "filetype::c2" (VStr ".c")
           "filetype::c" on "filetype::c");
    try reflexivity.
  - intros k Hin Hp. cbn in Hin.
    repeat (destruct Hin as [<- | Hin]; [cbn; tauto || discriminate Hp|]).
    destruct Hin.
  - right. eexists. eexists. reflexivity.
Defined.

(* ------------------------------------------------------------------ *)
(** ** Pulling sources leaves the registry alone *)

Lemma target_error_frame h reason fld s s' :
  target_error h reason fld s = Ok tt s' ->
  registry s' = registry s /\ defaults s' = defaults s.
Proof.
  unfold target_error, bind, lookup.
  destruct (hget h (registry s)) as [nd|]; [|discriminate].
  unfold node_error, bind, get_state.
  destruct (target_name s h nd); [|discriminate].
  destruct (py_getattr s h nd "_frame") as [[]|];
    unfold error, modify, raise; intros [= <-]; auto.
Qed.

Lemma run_event_frame ev s s' :
  run_event ev s = Ok tt s' ->
  registry s' = registry s /\ defaults s' = defaults s.
Proof.
  destruct ev as [p| |[h|] reason|e]; cbn [run_event].
  - now intros [= <-].
  - unfold stop_on_error. destruct (Nat.eqb (haserror s) 0); [|discriminate].
    now intros [= <-].
  - apply target_error_frame.
  - discriminate.
  - discriminate.
Qed.

Lemma pull_frame : forall sc s r s',
  pull sc s = Ok r s' ->
  registry s' = registry s /\ defaults s' = defaults s.
Proof.
  induction sc as [|ev sc IH]; intros s r s' H.
  - injection H as _ <-. auto.
  - assert (Hgen : (run_event ev ;; pull sc) s = Ok r s' ->
                   registry s' = registry s /\ defaults s' = defaults s).
    { unfold bind. destruct (run_event ev s) as [[] s1| | |] eqn:E; try discriminate.
      intros H1. destruct (IH _ _ _ H1) as [A B].
      destruct (run_event_frame _ _ E) as [C D]. split; congruence. }
    destruct ev; cbn [pull] in H; try (now apply Hgen).
    injection H as _ <-. auto.
Qed.

Section Dependency.

Variable glob : string -> list string.
Variable opt_systarget : string.
Variable call : nat -> list value -> M value.
Variable site_source site_object : string * Z.

Lemma get_sources_Ok h s nd f srcs :
  hget h (registry s) = Some nd ->
  ctx_of_node nd = Some f ->
  dget "sources" (n_dict nd) = Some srcs ->
  get_sources glob h s = Ok (expand_script glob s (Some h) f srcs) s.
Proof.
  intros Hh Hc Hs. unfold get_sources.
  rewrite (bind_Ok (@attr_plain h "sources" s nd srcs Hh eq_refl Hs)).
  unfold bind, get_state, lookup. now rewrite Hh, Hc.
Qed.

(* ---------------------------------------------------------------- *)
(** ** C8: pass-through dependencies *)

(** C8: for a dependency whose provider is ['local'],
    [get_dependencies] yields nothing and leaves the state as it is,
    and [get_output] returns the first (for a single source: the
    sole) path its sources expand to, unchanged: no generator, no
    extension and no directory is applied to it. *)
Theorem local_dependency_passes_its_source_through :
  forall fuel h s nd f srcs pv p rest s1,
    hget h s.(registry) = Some nd ->
    ctx_of_node nd = Some f ->
    dget "sources" nd.(n_dict) = Some srcs ->
    dget "provider" nd.(n_dict) = Some pv ->
    py_eq pv (VStr "local") = true ->
    pull (expand_script glob s (Some h) f srcs) s = Ok (Some p, rest) s1 ->
    get_dependencies glob opt_systarget call site_source site_object fuel h s
    = Ok [] s
    /\ get_output glob opt_systarget call fuel h s = Ok (VStr p) s1.
Proof.
  intros fuel h s nd f srcs pv p rest s1 Hh Hc Hs Hp Hlocal Hpull.
  split.
  - unfold get_dependencies.
    rewrite (bind_Ok (@attr_plain h "provider" s nd pv Hh eq_refl Hp)).
    now rewrite Hlocal.
  - unfold get_output, ctxfolder_of.
    unfold bind at 1. unfold bind at 1, lookup at 1. rewrite Hh, Hc.
    unfold ret at 1.
    rewrite (bind_Ok (get_sources_Ok h s Hh Hc Hs)).
    rewrite (bind_Ok Hpull).
    destruct (pull_frame _ _ Hpull) as [Hreg _].
    assert (Hh1 : hget h (registry s1) = Some nd) by now rewrite Hreg.
    rewrite (bind_Ok (@attr_plain h "provider" s1 nd pv Hh1 eq_refl Hp)).
    now rewrite Hlocal.
Qed.

End Dependency.

Lemma local_dependency_passes_its_source_through_witness :
  (exists nd, hget "logo" declared_logo.(registry) = Some nd
              /\ dget "provider" nd.(n_dict) = Some (VStr "local"))
  /\ get_dependencies sample_glob sample_systarget sample_call
       recipe_site recipe_site 5 "logo" declared_logo = Ok [] declared_logo
  /\ get_output sample_glob sample_systarget sample_call 5 "logo" declared_logo
     = Ok (VStr "/r/logo.png") declared_logo.
Proof.
  pose (nd := mkNode C_dependency
                [("name", VStr "logo"); ("sources", VStr "logo.png");
                 ("provider", VStr "local");
                 ("_context", VCtx "/r/simba.py");
                 ("_frame", VFrame "/r/simba.py" 3)]).
  split; [exists nd; split; reflexivity|].
  apply (@local_dependency_passes_its_source_through sample_glob
           sample_systarget sample_call recipe_site recipe_site 5 "logo"
           declared_logo nd "/r/simba.py" (VStr "logo.png") (VStr "local")
           "/r/logo.png" [ECheck] declared_logo);
    reflexivity.
Defined.

Section Output.

Variable glob : string -> list string.
Variable opt_systarget : string.
Variable call : nat -> list value -> M value.

(* ---------------------------------------------------------------- *)
(** ** The output of a terminal dependency *)

(** X26.  For a dependency whose provider is not ['local'] and whose
    sources answer the pulls [get_output] makes (the first, and the
    second when the first gave a path), whenever both pulls give a
    path or the kind is [executable], [static_library] or
    [shared_library], [get_output] returns [os.path.join] of the
    declaring directory and the name of the node followed by the
    extension of its kind: nothing for [executable], [.a] for
    [static_library], [.so] for [shared_library], [.o] for [object]
    and [.out] for every other kind. *)
Theorem terminal_output_is_name_plus_kind_extension :
  forall fuel h s nd f srcs pv n k o1 o2 s',
    hget h s.(registry) = Some nd ->
    ctx_of_node nd = Some f ->
    dget "sources" nd.(n_dict) = Some srcs ->
    dget "provider" nd.(n_dict) = Some pv ->
    py_eq pv (VStr "local") = false ->
    dget "name" nd.(n_dict) = Some (VStr n) ->
    dget "kind" nd.(n_dict) = Some k ->
    first_two (expand_script glob s (Some h) f srcs) s = Ok (o1, o2) s' ->
    (some_path o1 = true /\ some_path o2 = true)
    \/ is_terminal_kind k = true ->
    get_output glob opt_systarget call fuel h s
    = Ok (VStr (path_join (dirname f) (n ++ kind_to_ext k))) s'
    /\ kind_to_ext (VStr "executable") = ""
    /\ kind_to_ext (VStr "static_library") = ".a"
    /\ kind_to_ext (VStr "shared_library") = ".so"
    /\ kind_to_ext (VStr "object") = ".o"
    /\ (py_eq k (VStr "executable") = false ->
        py_eq k (VStr "static_library") = false ->
        py_eq k (VStr "shared_library") = false ->
        py_eq k (VStr "object") = false ->
        kind_to_ext k = ".out").
Proof.
  intros fuel h s nd f srcs pv n k o1 o2 s'
         Hh Hc Hs Hp Hlocal Hn Hk Hft Hcase.
  split; [|repeat split; try reflexivity;
           intros E1 E2 E3 E4; unfold kind_to_ext;
           now rewrite E1, E2, E3, E4].
  unfold get_output, ctxfolder_of.
  unfold bind at 1. unfold bind at 1, lookup at 1. rewrite Hh, Hc.
  unfold ret at 1.
  rewrite (bind_Ok (get_sources_Ok glob h s Hh Hc Hs)).
  unfold first_two in Hft. unfold bind at 1 in Hft.
  destruct (pull (expand_script glob s (Some h) f srcs) s)
    as [[o sc1] s1| | |] eqn:E1; try discriminate.
  rewrite (bind_Ok E1). cbn [fst snd] in Hft |- *.
  destruct (pull_frame _ _ E1) as [Hreg1 _].
  assert (Hh1 : hget h (registry s1) = Some nd) by now rewrite Hreg1.
  rewrite (bind_Ok (@attr_plain h "provider" s1 nd pv Hh1 eq_refl Hp)).
  rewrite Hlocal.
  assert (Hfinal : forall s2,
             registry s2 = registry s ->
             (name <- attr h "name" ;;
              kind <- attr h "kind" ;;
              match name with
              | VStr n0 =>
                  ret (VStr (path_join (dirname f) (n0 ++ kind_to_ext kind)))
              | _ => raise "TypeError"
              end) s2
             = Ok (VStr (path_join (dirname f) (n ++ kind_to_ext k))) s2).
  { intros s2 Hreg. assert (Hh2 : hget h (registry s2) = Some nd)
      by now rewrite Hreg.
    rewrite (bind_Ok (@attr_plain h "name" s2 nd (VStr n) Hh2 eq_refl Hn)).
    rewrite (bind_Ok (@attr_plain h "kind" s2 nd k Hh2 eq_refl Hk)).
    reflexivity. }
  destruct o as [p|].
  - destruct (String.eqb p "") eqn:Ep.
    + injection Hft as <- <- <-. unfold bind at 1, ret at 1.
      now apply Hfinal.
    + unfold bind at 1 in Hft.
      destruct (pull sc1 s1) as [[q sc2] s2| | |] eqn:E2; try discriminate.
      injection Hft as <- <- <-. cbn [fst snd].
      destruct (pull_frame _ _ E2) as [Hreg2 _].
      assert (Hh2 : hget h (registry s2) = Some nd)
        by now rewrite Hreg2, Hreg1.
      assert (Hby : is_terminal_kind k = true ->
                 (kind <- attr h "kind" ;; ret (is_terminal_kind kind)) s2
                 = Ok true s2).
      { intros Ht.
        rewrite (bind_Ok (@attr_plain h "kind" s2 nd k Hh2 eq_refl Hk)).
        unfold ret. now rewrite Ht. }
      cbv zeta.
      match goal with
      | |- bind ?m _ s1 = _ => assert (Hin : m s1 = Ok true s2)
      end.
      { rewrite (bind_Ok E2). cbn [fst].
        destruct q as [q|].
        - destruct (String.eqb q "") eqn:Eq; [|reflexivity].
          destruct Hcase as [[_ Hq] | Ht];
            [cbn in Hq; rewrite Eq in Hq; discriminate|].
          now apply Hby.
        - destruct Hcase as [[_ Hq] | Ht]; [discriminate|].
          now apply Hby. }
      rewrite (bind_Ok Hin). apply Hfinal. congruence.
  - injection Hft as <- <- <-. unfold bind at 1, ret at 1.
    now apply Hfinal.
Qed.

End Output.

Lemma terminal_output_is_name_plus_kind_extension_witness :
  (exists nd, hget "app" loaded.(registry) = Some nd
              /\ dget "provider" nd.(n_dict) = Some (VStr "internal")
              /\ dget "kind" nd.(n_dict) = Some (VStr "static_library"))
  /\ get_output sample_glob sample_systarget sample_call 5 "app" loaded
     = Ok (VStr "/r/app.a") loaded.
Proof.
  pose (nd := match hget "app" (registry loaded) with
              | Some nd => nd
              | None => mkNode C_target []
              end).
  split.
  { exists nd. split; [|split]; vm_compute; reflexivity. }
  apply (@terminal_output_is_name_plus_kind_extension sample_glob
           sample_systarget sample_call 5 "app" loaded nd
           "/r/simba.py" (VStr "*.c") (VStr "internal") "app"
           (VStr "static_library") (Some "/r/a.c") (Some "/r/b.c") loaded);
    try (vm_compute; reflexivity).
  left. split; reflexivity.
Defined.

(* ------------------------------------------------------------------ *)
(** ** C7: a terminal dependency made of a [file] *)

(** C7 at its failing input: [tool] is an executable declared with
    [sources=file('a.c')] in a recipe that [_.load] has loaded without
    error.  [get_output] pulls the first path and then asks for a
    second one; the [file] branch of [expand_files] calls [next] on an
    asynchronous generator at that point, so [get_output] raises
    [TypeError] where the claim gives [/r/tool]. *)
Theorem terminal_output_raises_on_a_file_source :
  haserror loaded_tool = 0
  /\ phase loaded_tool = "postload"
  /\ (exists nd,
        hget "tool" (registry loaded_tool) = Some nd
        /\ n_class nd = C_dependency
        /\ dget "kind" (n_dict nd) = Some (VStr "executable")
        /\ dget "provider" (n_dict nd) = Some (VStr "internal")
        /\ dget "sources" (n_dict nd) = Some (VRef "file::a.c"))
  /\ (exists fd,
        hget "file::a.c" (registry loaded_tool) = Some fd
        /\ n_class fd = C_file
        /\ dget "name" (n_dict fd) = Some (VStr "a.c"))
  /\ sample_glob "/r/a.c" = ["/r/a.c"]
  /\ get_output sample_glob sample_systarget sample_call 5 "tool" loaded_tool
     = Raise "TypeError" loaded_tool.
Proof.
  split; [vm_compute; reflexivity|].
  split; [vm_compute; reflexivity|].
  split.
  { eexists. split; [vm_compute; reflexivity|].
    split; [|split; [|split]]; vm_compute; reflexivity. }
  split.
  { eexists. split; [vm_compute; reflexivity|].
    split; vm_compute; reflexivity. }
  split; [reflexivity|].
  vm_compute; reflexivity.
Qed.

(* ------------------------------------------------------------------ *)
(** ** C5: the finder chain *)

(** [finder.find] has no [return]: whenever it returns, it returns
    [None], so the loop over the finders never stops early. *)
Lemma finder_find_returns_None call f h s r s' :
  finder_find call f h s = Ok r s' -> r = VNone.
Proof.
  unfold finder_find, bind.
  destruct (attr f "__call__" s) as [c s1| | |]; try discriminate.
  destruct c; try discriminate.
  destruct (call id [VRef f; VRef h] s1); try discriminate.
  unfold ret. now intros [= <- _].
Qed.

Lemma try_finders_never_returns call h :
  forall fs s r s', try_finders call fs h s = Ok r s' -> r = false.
Proof.
  induction fs as [|f fs IH]; intros s r s'; cbn [try_finders].
  - now intros [= <- _].
  - unfold bind. destruct (finder_find call f h s) as [v s1| | |] eqn:E;
      try discriminate.
    apply finder_find_returns_None in E. subst v. cbn [truthy]. apply IH.
Qed.

(** C5 at its failing input: [external.executable::cc] has no path and
    two finders are registered, [finder::default] first.  The hook of
    the first finder locates the program (it sets [/usr/bin/cc] and
    returns the target), yet [_resolve] goes on to the second finder,
    whose path [/opt/bin/cc] is the one that stays. *)
Theorem second_finder_overrides_first :
  finders loaded = ["finder::default"; "finder::second"]
  /\ (exists nd, hget "external.executable::cc" loaded.(registry) = Some nd
                 /\ py_getattr loaded "external.executable::cc" nd "path"
                    = Some VNone)
  /\ (exists s1 nd1,
        sample_call 0 [VRef "finder::default"; VRef "external.executable::cc"]
          loaded = Ok (VRef "external.executable::cc") s1
        /\ hget "external.executable::cc" s1.(registry) = Some nd1
        /\ py_getattr s1 "external.executable::cc" nd1 "path"
           = Some (VStr "/usr/bin/cc"))
  /\ exists s' nd',
       external_resolve sample_call "external.executable::cc" loaded
       = Ok tt s'
       /\ hget "external.executable::cc" s'.(registry) = Some nd'
       /\ py_getattr s' "external.executable::cc" nd' "path"
          = Some (VStr "/opt/bin/cc").
Proof.
  split; [reflexivity|].
  split; [eexists; split; vm_compute; reflexivity|].
  split.
  - eexists. eexists. split; [vm_compute; reflexivity|].
    split; reflexivity.
  - eexists. eexists. split; [vm_compute; reflexivity|].
    split; reflexivity.
Qed.

(* ------------------------------------------------------------------ *)
(** ** C9: the graph-file orchestrator *)

(** [visit] on a dependency that has no generator yet: the [for]
    statement over the asynchronous generator raises before anything is
    written. *)
Lemma visit_dependency_raises glob sys call ss so n fuel h vis s nd :
  hget h (registry s) = Some nd ->
  isinstance (n_class nd) C_generator = false ->
  isinstance (n_class nd) C_dependency = true ->
  dget "generator" (n_dict nd) = Some VNone ->
  existsb (py_eq (VRef h)) vis = false ->
  visit glob sys call ss so (S n) fuel (VRef h) vis s = Raise "TypeError" s.
Proof.
  intros Hh Hg Hd Hgen Hvis. cbn [visit hashable negb]. rewrite Hvis.
  unfold bind at 1, lookup at 1. rewrite Hh, Hg, Hd.
  unfold bind at 1, ret at 1.
  rewrite (bind_Ok (@attr_plain h "generator" s nd VNone Hh eq_refl Hgen)).
  reflexivity.
Qed.

(** C9 at its failing input: the targets are the generator [cc] and the
    expanded static library [app] (non-local, generator [ar], sources
    [a.c] and [b.c]).  The rule blocks carry the raw command strings,
    placeholders untouched; then [visit(app)] raises [TypeError] at
    [for dep in target.get_dependencies()], and [build.ninja] holds no
    build statement. *)
Theorem ninja_visit_raises_on_a_dependency :
  exists s',
    ninja_builder sample_glob sample_systarget sample_call
      api_site_source api_site_object ".." 10 10
      [VRef "generator::cc"; VRef "app"] expanded_app
    = Raise "TypeError" s'
    /\ build_ninja s'
       = ["ninja_required_version = 1.3" ++ nl ++ nl;
          "builddir = ." ++ nl;
          "rootdir = .." ++ nl;
          nl;
          "rule cc" ++ nl;
          "  command = {exe} -c {in} {env.CFLAGS} -o {out}" ++ nl;
          nl;
          "rule ar" ++ nl;
          "  command = rm -f {output} && {executor} crs {output} {input}" ++ nl;
          nl]
    /\ forall line, In line (build_ninja s') ->
                    String.prefix "build " line = false.
Proof.
  eexists. split; [vm_compute; reflexivity|].
  split; [reflexivity|].
  intros line Hin. cbn in Hin.
  repeat (destruct Hin as [<- | Hin]; [reflexivity|]). destruct Hin.
Qed.

(* ------------------------------------------------------------------ *)
(** ** Expansion of settled and of freshly synthesized objects *)

Lemma set_registry_same s : set_registry (registry s) s = s.
Proof. destruct s; reflexivity. Qed.

Lemma same_world_refl s : same_world s s.
Proof. unfold same_world; tauto. Qed.


Lemma set_private_Ok h k v s nd :
  hget h (registry s) = Some nd ->
  set_private h k v s
  = Ok tt (set_registry (hset h (mkNode (n_class nd) (dset k v (n_dict nd)))
                           (registry s)) s).
Proof.
  intros Hh. unfold set_private, bind, lookup. now rewrite Hh.
Qed.

Lemma acquire_release_noop h s nd :
  hget h (registry s) = Some nd ->
  dget "_expand_lock" (n_dict nd) = Some (VLock false) ->
  try_finally (acquire h ;; ret h) (release h) s = Ok h s.
Proof.
  intros Hh Hl.
  set (nd1 := mkNode (n_class nd) (dset "_expand_lock" (VLock true) (n_dict nd))).
  set (s1 := set_registry (hset h nd1 (registry s)) s).
  assert (Ha : (acquire h ;; ret h) s = Ok h s1).
  { assert (Hq : acquire h s = Ok tt s1).
    { unfold acquire.
      rewrite (bind_Ok (@attr_plain h "_expand_lock" s nd _ Hh eq_refl Hl)).
      apply (set_private_Ok h "_expand_lock" (VLock true) s Hh). }
    now rewrite (bind_Ok Hq). }
  assert (Hh1 : hget h (registry s1) = Some nd1) by apply hget_hset_same.
  assert (Hr : release h s1 = Ok tt s).
  { unfold release.
    rewrite (bind_Ok (@attr_plain h "_expand_lock" s1 nd1 (VLock true) Hh1
                        eq_refl (dget_dset_same _ _ _))).
    rewrite (set_private_Ok h "_expand_lock" (VLock false) s1 Hh1).
    cbn [n_class n_dict nd1 s1 registry set_registry].
    rewrite dset_dset, (dset_same_value _ _ Hl), hset_hset.
    destruct nd as [c d]. cbn [n_class n_dict].
    rewrite (hset_same_value _ _ Hh).
    destruct s; reflexivity. }
  apply try_finally_Ok with (s' := s1); assumption.
Qed.

Section Expansion.

Variable opt_systarget : string.
Variable call : nat -> list value -> M value.

(** Expanding an expanded object whose lock is free changes nothing. *)
Lemma expand_settled n h s nd :
  hget h (registry s) = Some nd -> settled nd ->
  expand opt_systarget call (S n) h s = Ok h s.
Proof.
  intros Hh [He Hl]. cbn [expand].
  unfold bind at 1, lookup at 1. rewrite Hh, He.
  now apply acquire_release_noop with (nd := nd).
Qed.

Lemma expand_value_settled n h s nd :
  hget h (registry s) = Some nd -> settled nd ->
  expand_value (expand opt_systarget call (S n)) (VRef h) s = Ok (VRef h) s.
Proof.
  intros Hh Hs. cbn [expand_value].
  now rewrite (bind_Ok (expand_settled n h s Hh Hs)).
Qed.

End Expansion.

(** *** The validator, step by step, on the object under construction *)








Section Synthesis.

Variable glob : string -> list string.
Variable opt_systarget : string.
Variable call : nat -> list value -> M value.
Variable site_source site_object : string * Z.





Lemma map_m_settled n s : forall deps,
  (forall d, In d deps ->
             exists dn, hget d (registry s) = Some dn /\ settled dn) ->
  map_m (expand_value (expand opt_systarget call (S n))) (map VRef deps) s
  = Ok (map VRef deps) s.
Proof.
  induction deps as [|d deps IH]; intros Hall; [reflexivity|].
  cbn [map map_m].
  destruct (Hall d (or_introl eq_refl)) as (dn & Hd & Hs).
  rewrite (bind_Ok (expand_value_settled opt_systarget call n d s Hd Hs)).
  rewrite (bind_Ok (IH (fun x Hx => Hall x (or_intror Hx)))).
  reflexivity.
Qed.

Lemma for_script_checks {B} (body : string -> M B) s :
  haserror s = 0 ->
  forall c sc, only_checks c = true ->
               for_script (List.app c sc) body s = for_script sc body s.
Proof.
  intros Herr. induction c as [|ev c IH]; intros sc Hc; [reflexivity|].
  cbn [only_checks forallb] in Hc. apply andb_true_iff in Hc as [Hev Hc].
  destruct ev; try discriminate.
  cbn [List.app for_script run_event].
  unfold bind at 1, stop_on_error at 1. rewrite Herr. cbn [Nat.eqb].
  now apply IH.
Qed.

(* ---------------------------------------------------------------- *)
(** ** C3: the nodes synthesized for the sources *)


End Synthesis.



(* ================================================================== *)
(** * The lifecycle as a whole: what no call undoes *)

Lemma state_after_Ok {A} (m : M A) s a s' :
  m s = Ok a s' -> state_after m s = s'.
Proof. unfold state_after. now intros ->. Qed.

Lemma bind_Ok_inv {A B} (m : M A) (f : A -> M B) s b s'' :
  bind m f s = Ok b s'' ->
  exists a s', m s = Ok a s' /\ f a s' = Ok b s''.
Proof.
  unfold bind. destruct (m s) as [a s'| | |]; try discriminate.
  intros H. now exists a, s'.
Qed.

Lemma try_finally_Ok_inv {A} (body : M A) (fin : M unit) s a s'' :
  try_finally body fin s = Ok a s'' ->
  exists s', body s = Ok a s' /\ fin s' = Ok tt s''.
Proof.
  unfold try_finally, bind.
  destruct (body s) as [b s'|s'|e s'|s']; try discriminate;
    destruct (fin s') as [[] s3| | |] eqn:E; try discriminate.
  intros [= -> ->]. now exists s'.
Qed.

Create HintDb keeps.

Section Frame.

Variable R : state -> state -> Prop.
Hypothesis F : frame R.

Lemma keeps_ret {A} (a : A) : keeps R (ret a).
Proof. intros s. apply (frame_refl F). Qed.

Lemma keeps_raise {A} (e : string) : keeps R (@raise A e).
Proof. intros s. apply (frame_refl F). Qed.

Lemma keeps_sys_exit {A} : keeps R (@sys_exit A).
Proof. intros s. apply (frame_refl F). Qed.

Lemma keeps_hang {A} : keeps R (fun s : state => @Hang A s).
Proof. intros s. apply (frame_refl F). Qed.

Lemma keeps_get_state : keeps R get_state.
Proof. intros s. apply (frame_refl F). Qed.

Lemma keeps_lookup h : keeps R (lookup h).
Proof.
  intros s. unfold state_after, lookup.
  destruct (hget h (registry s)); apply (frame_refl F).
Qed.

Lemma keeps_stop_on_error : keeps R stop_on_error.
Proof.
  intros s. unfold state_after, stop_on_error.
  destruct (Nat.eqb (haserror s) 0); apply (frame_refl F).
Qed.

Lemma keeps_bind {A B} (m : M A) (f : A -> M B) :
  keeps R m -> (forall a, keeps R (f a)) -> keeps R (bind m f).
Proof.
  intros Hm Hf s. specialize (Hm s). unfold state_after, bind in *.
  destruct (m s) as [a s'| | |]; auto.
  apply (frame_trans F) with (s2 := s'); [exact Hm|]. apply (Hf a s').
Qed.

Lemma keeps_try_finally {A} (body : M A) (fin : M unit) :
  keeps R body -> keeps R fin -> keeps R (try_finally body fin).
Proof.
  intros Hb Hf s. specialize (Hb s). unfold state_after, try_finally, bind in *.
  destruct (body s) as [a s'|s'|e s'|s']; auto;
    (apply (frame_trans F) with (s2 := s'); [exact Hb|]);
    specialize (Hf s'); unfold state_after in Hf;
    destruct (fin s'); exact Hf.
Qed.

Lemma keeps_for_each {A} (body : A -> M unit) :
  (forall x, keeps R (body x)) -> forall l, keeps R (for_each l body).
Proof.
  intros Hb. induction l as [|x l IH]; simpl.
  - apply keeps_ret.
  - apply keeps_bind; auto.
Qed.

Lemma keeps_error reason f l : keeps R (error reason f l).
Proof. intros s. apply (frame_error F). Qed.

Lemma keeps_fatal {A} reason f l : keeps R (@fatal A reason f l).
Proof.
  unfold fatal. apply keeps_bind; [apply keeps_error|].
  intros _. apply keeps_sys_exit.
Qed.

Lemma keeps_set_private h k v : flag_safe k v -> keeps R (set_private h k v).
Proof.
  intros Hk s. unfold state_after, set_private, bind, lookup.
  destruct (hget h (registry s)) as [nd|] eqn:E; [|apply (frame_refl F)].
  unfold store, modify. now apply (frame_setattr F).
Qed.

Lemma keeps_py_setattr h k v : flag_safe k v -> keeps R (py_setattr h k v).
Proof.
  intros Hk s. unfold state_after, py_setattr, bind, lookup.
  destruct (hget h (registry s)) as [nd|] eqn:E; [|apply (frame_refl F)].
  unfold node_setattr. destruct (is_property k); [apply (frame_refl F)|].
  unfold store, modify. now apply (frame_setattr F).
Qed.

#[local] Hint Resolve keeps_ret keeps_raise keeps_sys_exit keeps_hang
  keeps_get_state keeps_lookup keeps_stop_on_error keeps_error keeps_fatal
  keeps_set_private keeps_py_setattr : keeps.

#[local] Hint Extern 1 (flag_safe _ _) =>
  solve [left; split; discriminate | right; reflexivity | assumption] : keeps.

Ltac keeps_step :=
  first
    [ solve [auto with keeps]
    | apply keeps_bind; [|intros ?]
    | apply keeps_try_finally
    | apply keeps_for_each; intros ?
    | progress (cbv zeta)
    | match goal with
      | |- keeps _ (match ?x with _ => _ end) => destruct x
      end ].

Ltac keeps_go := repeat keeps_step.

Lemma keeps_node_error h nd reason fld : keeps R (node_error h nd reason fld).
Proof. unfold node_error. keeps_go. Qed.

#[local] Hint Resolve keeps_node_error : keeps.

Lemma keeps_node_fatal {A} h nd reason fld :
  keeps R (@node_fatal A h nd reason fld).
Proof. unfold node_fatal. keeps_go. Qed.

#[local] Hint Resolve keeps_node_fatal : keeps.

Lemma keeps_target_error h reason fld : keeps R (target_error h reason fld).
Proof. unfold target_error. keeps_go. Qed.

Lemma keeps_target_fatal {A} h reason fld :
  keeps R (@target_fatal A h reason fld).
Proof. unfold target_fatal. keeps_go. Qed.

Lemma keeps_attr h k : keeps R (attr h k).
Proof. unfold attr. keeps_go. Qed.

Lemma keeps_str_of h : keeps R (str_of h).
Proof. unfold str_of. keeps_go. Qed.

Lemma keeps_get_default c : keeps R (get_default c).
Proof. unfold get_default. keeps_go. Qed.

#[local] Hint Resolve keeps_target_error keeps_target_fatal keeps_attr
  keeps_str_of keeps_get_default : keeps.

Lemma keeps_modify_vfields f :
  keeps R (modify (fun s => set_vfields (f s) s)).
Proof. intros s. apply (frame_vfields F). Qed.

Lemma keeps_field h f ts req dflt :
  flag_safe f dflt -> keeps R (field h f ts req dflt).
Proof.
  intros Hf. unfold field.
  apply keeps_bind; [apply keeps_modify_vfields|intros _].
  keeps_go.
Qed.

#[local] Hint Resolve keeps_field : keeps.

Lemma keeps_validator_enter h : keeps R (validator_enter h).
Proof.
  unfold validator_enter.
  apply keeps_bind; [intros s; apply (frame_vfields F)|intros _].
  keeps_go.
Qed.

Lemma keeps_validator_exit h : keeps R (validator_exit h).
Proof. unfold validator_exit. keeps_go. Qed.

#[local] Hint Resolve keeps_validator_enter keeps_validator_exit : keeps.

Lemma keeps_with_validator h body :
  keeps R body -> keeps R (with_validator h body).
Proof. intros Hb. unfold with_validator. keeps_go. Qed.

Lemma keeps_acquire h : keeps R (acquire h).
Proof. unfold acquire. keeps_go. Qed.

Lemma keeps_release h : keeps R (release h).
Proof. unfold release. keeps_go. Qed.

#[local] Hint Resolve keeps_acquire keeps_release : keeps.

(** *** The [_prepare] hooks *)

Variable opt_systarget : string.

Lemma keeps_target_prepare h : keeps R (target_prepare h).
Proof. unfold target_prepare. apply keeps_with_validator. keeps_go. Qed.

Lemma keeps_environment_prepare h :
  keeps R (environment_prepare opt_systarget h).
Proof.
  unfold environment_prepare.
  apply keeps_bind; [auto with keeps|intros d].
  apply keeps_bind; [|intros _; keeps_go].
  apply keeps_with_validator.
  apply keeps_bind; [destruct (String.eqb d h); auto with keeps|intros _].
  apply keeps_bind; [auto with keeps|intros parent].
  apply keeps_bind; [keeps_go|intros inherited].
  destruct inherited as [[[[st va] ar] li] inc].
  destruct (String.eqb d h); keeps_go.
Qed.

Lemma keeps_dependency_prepare h : keeps R (dependency_prepare h).
Proof.
  unfold dependency_prepare.
  apply keeps_bind; [auto with keeps|intros d].
  apply keeps_bind; [apply keeps_with_validator|intros _]; keeps_go.
Qed.

Lemma keeps_project_prepare h : keeps R (project_prepare h).
Proof. unfold project_prepare. apply keeps_with_validator. keeps_go. Qed.

Lemma keeps_generator_prepare h : keeps R (generator_prepare h).
Proof. unfold generator_prepare. apply keeps_with_validator. keeps_go. Qed.

Lemma keeps_filetype_prepare h : keeps R (filetype_prepare h).
Proof.
  unfold filetype_prepare.
  apply keeps_bind; [apply keeps_with_validator; keeps_go|intros _].
  apply keeps_bind; [auto with keeps|intros exts].
  destruct (py_iter exts); [|auto with keeps].
  apply keeps_for_each. intros e.
  destruct (hashable e); [|auto with keeps].
  apply keeps_bind; [auto with keeps|intros s0].
  apply keeps_bind; [keeps_go|intros _].
  intros s. apply (frame_filetypes F).
Qed.

Lemma keeps_finder_prepare h : keeps R (finder_prepare h).
Proof. intros s. apply (frame_finders F). Qed.

Lemma keeps_builder_prepare h : keeps R (builder_prepare h).
Proof. unfold builder_prepare. apply keeps_with_validator. keeps_go. Qed.

Lemma keeps_external_prepare h : keeps R (external_prepare h).
Proof. unfold external_prepare. apply keeps_with_validator. keeps_go. Qed.

Lemma keeps_hook_prepare c h : keeps R (hook_prepare opt_systarget c h).
Proof.
  destruct c; simpl;
    auto using keeps_target_prepare, keeps_environment_prepare,
      keeps_dependency_prepare, keeps_project_prepare,
      keeps_generator_prepare, keeps_filetype_prepare, keeps_finder_prepare,
      keeps_builder_prepare, keeps_external_prepare.
Qed.

#[local] Hint Resolve keeps_hook_prepare : keeps.

Lemma keeps_prepare h : keeps R (prepare opt_systarget h).
Proof. unfold prepare. keeps_go. Qed.

(** *** The [_resolve] hooks, for finder hooks that respect the relation *)

Variable call : nat -> list value -> M value.
Hypothesis call_keeps : forall id args, keeps R (call id args).

Lemma keeps_finder_find f h : keeps R (finder_find call f h).
Proof. unfold finder_find. keeps_go. Qed.

#[local] Hint Resolve keeps_finder_find : keeps.

Lemma keeps_try_finders h : forall fs, keeps R (try_finders call fs h).
Proof. induction fs as [|f fs IH]; simpl; keeps_go. Qed.

#[local] Hint Resolve keeps_try_finders : keeps.

Lemma keeps_external_resolve h : keeps R (external_resolve call h).
Proof. unfold external_resolve. keeps_go. Qed.

Lemma keeps_expand_value rec v :
  (forall h, keeps R (rec h)) -> keeps R (expand_value rec v).
Proof. intros Hr. unfold expand_value. keeps_go. Qed.

#[local] Hint Resolve keeps_external_resolve keeps_expand_value : keeps.

Lemma keeps_hook_resolve rec c h :
  (forall x, keeps R (rec x)) -> keeps R (hook_resolve call rec c h).
Proof.
  intros Hr. destruct c; simpl; auto with keeps.
  - unfold dependency_resolve. keeps_go.
  - unfold generator_resolve. keeps_go.
  - unfold builder_resolve. keeps_go.
Qed.

Lemma keeps_modify_pool f :
  keeps R (modify (fun s => set_pool_all (f s) s)).
Proof. intros s. apply (frame_pool F). Qed.

Lemma keeps_expand : forall n h, keeps R (expand opt_systarget call n h).
Proof.
  induction n as [|n IH]; intros h; cbn [expand]; [auto with keeps|].
  apply keeps_bind; [auto with keeps|intros nd].
  destruct (is_expanded nd); [keeps_go|].
  apply keeps_try_finally; [|auto with keeps].
  apply keeps_bind; [auto with keeps|intros _].
  apply keeps_bind; [auto with keeps|intros nd1].
  apply keeps_bind; [keeps_go|intros _].
  apply keeps_bind; [auto with keeps|intros _].
  apply keeps_bind; [auto with keeps|intros nd2].
  apply keeps_bind; [keeps_go|intros _].
  apply keeps_bind; [auto with keeps|intros nd3].
  apply keeps_bind; [apply keeps_hook_resolve; exact IH|intros _].
  apply keeps_bind; [apply keeps_modify_pool|intros _].
  auto with keeps.
Qed.

Lemma keeps_default_find which args : keeps R (default_find which args).
Proof. unfold default_find. keeps_go. Qed.

End Frame.

Lemma sample_call_keeps R : frame R -> forall id args,
  keeps R (sample_call id args).
Proof. intros F [|id] args; apply (keeps_default_find F). Qed.

(** *** The two relations the lifecycle keeps *)

Lemma grows_node s s' h nd :
  grows s s' -> hget h (registry s) = Some nd ->
  exists nd', hget h (registry s') = Some nd'
              /\ n_class nd' = n_class nd
              /\ (is_prepared nd = true -> is_prepared nd' = true)
              /\ (is_expanded nd = true -> is_expanded nd' = true).
Proof.
  intros [_ H] Hh. specialize (H h). rewrite Hh in H.
  destruct (hget h (registry s')) as [nd'|]; [|contradiction].
  now exists nd'.
Qed.

Lemma grows_fresh s s' h :
  grows s s' -> hget h (registry s) = None -> hget h (registry s') = None.
Proof.
  intros [_ H] Hh. specialize (H h). rewrite Hh in H.
  now destruct (hget h (registry s')).
Qed.

Lemma node_grows_refl o : node_grows o o.
Proof. destruct o; simpl; auto. Qed.

Lemma node_grows_trans a b c :
  node_grows a b -> node_grows b c -> node_grows a c.
Proof.
  destruct a, b, c; simpl; try tauto.
  intros (? & ? & ?) (? & ? & ?). repeat split; auto; congruence.
Qed.

Lemma grows_same s s' :
  registry s' = registry s -> haserror s <= haserror s' -> grows s s'.
Proof.
  intros Hr He. split; [exact He|]. intros h. rewrite Hr.
  apply node_grows_refl.
Qed.

Lemma flag_after_dset flag k v d :
  (flag = "_prepared" \/ flag = "_expanded") -> flag_safe k v ->
  truthy (private_flag flag (mkNode C_target d)) = true ->
  truthy (private_flag flag (mkNode C_target (dset k v d))) = true.
Proof.
  intros Hflag Hk. unfold private_flag. cbn [n_dict].
  destruct (String.eqb_spec flag k) as [->|Hne].
  - rewrite dget_dset_same. destruct Hk as [[? ?]|Hv]; [|now intros _].
    destruct Hflag; congruence.
  - now rewrite dget_dset_other.
Qed.

Lemma grows_frame : frame grows.
Proof.
  constructor.
  - intros s. apply grows_same; auto.
  - intros s1 s2 s3 [He1 H1] [He2 H2]. split; [lia|].
    intros h. eapply node_grows_trans; eauto.
  - intros s line. apply grows_same; simpl; auto.
  - intros s f. apply grows_same; simpl; auto.
  - intros s f. apply grows_same; simpl; auto.
  - intros s f. apply grows_same; simpl; auto.
  - intros s p. apply grows_same; simpl; auto.
  - intros s h nd k v Hh Hk. split; [simpl; lia|]. intros x.
    cbn [registry set_registry].
    destruct (String.eqb_spec x h) as [->|Hne].
    + rewrite Hh, hget_hset_same. simpl. split; [reflexivity|].
      destruct nd as [c d]. cbn [n_dict].
      split; intros Hflag.
      * apply (@flag_after_dset "_prepared" k v d); auto.
      * apply (@flag_after_dset "_expanded" k v d); auto.
    + rewrite hget_hset_other by exact Hne. apply node_grows_refl.
Qed.

Lemma stable_frame : frame stable.
Proof.
  constructor; unfold stable; simpl; intros; intuition congruence.
Qed.

(** *** Inversion of the elementary steps *)

Lemma lookup_Ok_inv h s nd s' :
  lookup h s = Ok nd s' -> s' = s /\ hget h (registry s) = Some nd.
Proof.
  unfold lookup. destruct (hget h (registry s)); [|discriminate].
  now intros [= -> ->].
Qed.

Lemma attr_Ok_inv h k s v s' :
  attr h k s = Ok v s' ->
  s' = s /\ exists nd, hget h (registry s) = Some nd
                       /\ py_getattr s h nd k = Some v.
Proof.
  unfold attr, bind, get_state, lookup.
  destruct (hget h (registry s)) as [nd|]; [|discriminate].
  destruct (py_getattr s h nd k) as [w|] eqn:E; [|discriminate].
  unfold ret. intros [= <- <-]. split; eauto.
Qed.

Lemma set_private_Ok_inv h k v s s' :
  set_private h k v s = Ok tt s' ->
  exists nd,
    hget h (registry s) = Some nd
    /\ s' = set_registry
              (hset h (mkNode (n_class nd) (dset k v (n_dict nd)))
                 (registry s)) s.
Proof.
  unfold set_private, bind, lookup.
  destruct (hget h (registry s)) as [nd|]; [|discriminate].
  unfold store, modify. intros [= <-]. eauto.
Qed.

Lemma release_Ok_inv h s s' :
  release h s = Ok tt s' ->
  exists nd nd',
    hget h (registry s) = Some nd
    /\ hget h (registry s') = Some nd'
    /\ dget "_expand_lock" (n_dict nd') = Some (VLock false)
    /\ is_prepared nd' = is_prepared nd
    /\ is_expanded nd' = is_expanded nd.
Proof.
  unfold release. intros H.
  apply bind_Ok_inv in H as (l & s0 & Ha & H).
  apply attr_Ok_inv in Ha as (-> & _).
  destruct l as [| | | | | | | | | | | | | |[|]]; try discriminate.
  apply set_private_Ok_inv in H as (nd & Hh & ->).
  exists nd. eexists. split; [exact Hh|].
  cbn [registry set_registry]. rewrite hget_hset_same.
  split; [reflexivity|]. cbn [n_dict].
  split; [apply dget_dset_same|].
  unfold is_prepared, is_expanded, private_flag. cbn [n_dict].
  now rewrite !dget_dset_other by discriminate.
Qed.

Lemma flag_set h k s s' :
  (k = "_prepared" \/ k = "_expanded") ->
  set_private h k (VBool true) s = Ok tt s' ->
  exists nd, hget h (registry s') = Some nd
             /\ truthy (private_flag k nd) = true.
Proof.
  intros Hk H. apply set_private_Ok_inv in H as (nd & Hh & ->).
  eexists. cbn [registry set_registry]. rewrite hget_hset_same.
  split; [reflexivity|]. unfold private_flag. cbn [n_dict].
  now rewrite dget_dset_same.
Qed.

Lemma target_fatal_not_Ok {A} h reason fld s (a : A) s' :
  target_fatal h reason fld s <> Ok a s'.
Proof.
  unfold target_fatal, node_fatal. intros H.
  apply bind_Ok_inv in H as (nd & s0 & _ & H).
  apply bind_Ok_inv in H as (u & s1 & _ & H). discriminate.
Qed.

(* ------------------------------------------------------------------ *)
(** ** [expandable.prepare] *)

(** X1.  Whatever its outcome (return, [sys.exit], exception),
    [prepare] never clears a recorded error, never changes the phase,
    a class default or the visited set, registers no object, and
    leaves every registered object registered with its class and with
    the [_prepared] and [_expanded] flags it had. *)
Theorem prepare_never_undoes :
  forall sys h s,
    let s' := state_after (prepare sys h) s in
    haserror s <= haserror s'
    /\ phase s' = phase s
    /\ defaults s' = defaults s
    /\ visited s' = visited s
    /\ forall x,
         match hget x (registry s) with
         | Some nd =>
             exists nd',
               hget x (registry s') = Some nd'
               /\ n_class nd' = n_class nd
               /\ (is_prepared nd = true -> is_prepared nd' = true)
               /\ (is_expanded nd = true -> is_expanded nd' = true)
         | None => hget x (registry s') = None
         end.
Proof.
  intros sys h s s'.
  pose proof (keeps_prepare grows_frame sys h s) as G.
  pose proof (keeps_prepare stable_frame sys h s) as (Hp & Hd & Hv & _).
  fold s' in G, Hp, Hd, Hv.
  split; [apply G|]. repeat (split; [assumption|]).
  intros x. destruct (hget x (registry s)) as [nd|] eqn:E.
  - apply (@grows_node _ _ x _ G E).
  - apply (@grows_fresh _ _ x G E).
Qed.

(** What a call of [prepare] that returns leaves behind. *)
Lemma prepare_returns sys h s r s1 :
  prepare sys h s = Ok r s1 ->
  r = h
  /\ exists nd, hget h (registry s1) = Some nd
                /\ is_prepared nd = true
                /\ dget "_expand_lock" (n_dict nd) = Some (VLock false).
Proof.
  unfold prepare. intros H.
  apply bind_Ok_inv in H as (nd & s0 & Hl & H).
  apply lookup_Ok_inv in Hl as (-> & Hh).
  destruct (is_prepared nd) eqn:Ep.
  - apply try_finally_Ok_inv in H as (s' & Hb & Hr).
    apply bind_Ok_inv in Hb as ([] & s2 & Ha & Hret).
    injection Hret as <- <-.
    pose proof (keeps_acquire grows_frame h s) as G.
    rewrite (state_after_Ok _ _ Ha) in G.
    destruct (@grows_node _ _ h _ G Hh) as (nd2 & Hh2 & _ & Hp2 & _).
    apply release_Ok_inv in Hr as (nd3 & nd4 & Hh3 & Hh4 & Hl4 & Hp4 & _).
    split; [reflexivity|]. exists nd4. repeat split; auto.
    rewrite Hp4. replace nd3 with nd2 by congruence. auto.
  - apply try_finally_Ok_inv in H as (s' & Hb & Hr).
    apply bind_Ok_inv in Hb as ([] & sa & _ & Hb).
    apply bind_Ok_inv in Hb as ([] & sb & Hset & Hb).
    destruct (@flag_set h _ _ _ (or_introl eq_refl) Hset) as (ndb & Hhb & Hpb).
    assert (G : grows sb s' /\ r = h).
    { match type of Hb with
      | ?m sb = _ =>
          assert (K : keeps grows m)
      end.
      { apply (keeps_bind grows_frame); [apply (keeps_acquire grows_frame)|intros _].
        apply (keeps_bind grows_frame); [apply (keeps_lookup grows_frame)|intros ?].
        apply (keeps_bind grows_frame);
          [apply (keeps_hook_prepare grows_frame)|intros _].
        apply (keeps_ret grows_frame). }
      specialize (K sb). rewrite (state_after_Ok _ _ Hb) in K.
      split; [exact K|].
      apply bind_Ok_inv in Hb as (? & ? & _ & Hb).
      apply bind_Ok_inv in Hb as (? & ? & _ & Hb).
      apply bind_Ok_inv in Hb as (? & ? & _ & Hb).
      now injection Hb. }
    destruct G as [G ->].
    destruct (@grows_node _ _ h _ G Hhb) as (nd2 & Hh2 & _ & Hp2 & _).
    apply release_Ok_inv in Hr as (nd3 & nd4 & Hh3 & Hh4 & Hl4 & Hp4 & _).
    split; [reflexivity|]. exists nd4. repeat split; auto.
    rewrite Hp4. replace nd3 with nd2 by congruence. auto.
Qed.

(** X2.  [prepare] is idempotent in a sequential run: when a call
    returns, it returns the object itself, the object is prepared and
    its lock is free, and a second call returns the object again and
    leaves the whole process state as it is (no hook runs again, no
    error is recorded). *)
Theorem prepare_again_changes_nothing :
  forall sys h s r s1,
    prepare sys h s = Ok r s1 ->
    r = h
    /\ (exists nd, hget h (registry s1) = Some nd
                   /\ is_prepared nd = true
                   /\ dget "_expand_lock" (n_dict nd) = Some (VLock false))
    /\ prepare sys h s1 = Ok h s1.
Proof.
  intros sys h s r s1 H.
  destruct (prepare_returns _ _ _ H) as (-> & nd & Hh & Hp & Hl).
  split; [reflexivity|]. split; [eauto|].
  unfold prepare, bind at 1, lookup at 1. rewrite Hh, Hp.
  now apply acquire_release_noop with (nd := nd).
Qed.

Lemma prepare_again_changes_nothing_witness :
  let h := "external.executable::cc" in
  let s1 := state_after (prepare sample_systarget h) declared_cc in
  prepare sample_systarget h declared_cc = Ok h s1
  /\ prepare sample_systarget h s1 = Ok h s1.
Proof.
  cbv zeta.
  assert (H : prepare sample_systarget "external.executable::cc" declared_cc
              = Ok "external.executable::cc"
                  (state_after
                     (prepare sample_systarget "external.executable::cc")
                     declared_cc))
    by (vm_compute; reflexivity).
  split; [exact H|].
  exact (proj2 (proj2 (prepare_again_changes_nothing _ _ _ H))).
Defined.

(* ------------------------------------------------------------------ *)
(** ** [expandable.expand] *)

Section Expand.

Variable sys : string.
Variable call : nat -> list value -> M value.
Hypothesis call_grows : forall id args, keeps grows (call id args).

(** What a call of [expand] that returns leaves behind. *)
Lemma expand_returns n h s r s1 :
  expand sys call n h s = Ok r s1 ->
  r = h /\ exists nd, hget h (registry s1) = Some nd /\ settled nd.
Proof.
  destruct n as [|n]; [discriminate|]. cbn [expand]. intros H.
  apply bind_Ok_inv in H as (nd & s0 & Hl & H).
  apply lookup_Ok_inv in Hl as (-> & Hh).
  destruct (is_expanded nd) eqn:Ep.
  - apply try_finally_Ok_inv in H as (s' & Hb & Hr).
    apply bind_Ok_inv in Hb as ([] & s2 & Ha & Hret).
    injection Hret as <- <-.
    pose proof (keeps_acquire grows_frame h s) as G.
    rewrite (state_after_Ok _ _ Ha) in G.
    destruct (@grows_node _ _ h _ G Hh) as (nd2 & Hh2 & _ & _ & He2).
    apply release_Ok_inv in Hr as (nd3 & nd4 & Hh3 & Hh4 & Hl4 & _ & He4).
    split; [reflexivity|]. exists nd4. repeat split; auto.
    rewrite He4. replace nd3 with nd2 by congruence. auto.
  - apply try_finally_Ok_inv in H as (s' & Hb & Hr).
    apply bind_Ok_inv in Hb as ([] & sa & Hset & Hb).
    destruct (@flag_set h _ _ _ (or_intror eq_refl) Hset) as (nda & Hha & Hea).
    assert (G : grows sa s' /\ r = h).
    { match type of Hb with
      | ?m sa = _ => assert (K : keeps grows m)
      end.
      { apply (keeps_bind grows_frame);
          [apply (keeps_lookup grows_frame)|intros nd1].
        apply (keeps_bind grows_frame).
        { destruct (is_prepared nd1); [apply (keeps_ret grows_frame)|].
          apply (keeps_bind grows_frame); intros;
            apply (keeps_set_private grows_frame);
            [left; split; discriminate | right; reflexivity]. }
        intros _.
        apply (keeps_bind grows_frame);
          [apply (keeps_acquire grows_frame)|intros _].
        apply (keeps_bind grows_frame);
          [apply (keeps_lookup grows_frame)|intros nd2].
        apply (keeps_bind grows_frame).
        { destruct (is_prepared nd1); [apply (keeps_ret grows_frame)|].
          apply (keeps_hook_prepare grows_frame). }
        intros _.
        apply (keeps_bind grows_frame);
          [apply (keeps_lookup grows_frame)|intros nd3].
        apply (keeps_bind grows_frame).
        { apply (@keeps_hook_resolve _ grows_frame call call_grows).
          intros x. apply (@keeps_expand _ grows_frame sys call call_grows). }
        intros _.
        apply (keeps_bind grows_frame);
          [apply (keeps_modify_pool grows_frame)|intros _].
        apply (keeps_ret grows_frame). }
      specialize (K sa). rewrite (state_after_Ok _ _ Hb) in K.
      split; [exact K|].
      repeat (apply bind_Ok_inv in Hb as (? & ? & _ & Hb)).
      now injection Hb. }
    destruct G as [G ->].
    destruct (@grows_node _ _ h _ G Hha) as (nd2 & Hh2 & _ & _ & He2).
    apply release_Ok_inv in Hr as (nd3 & nd4 & Hh3 & Hh4 & Hl4 & _ & He4).
    split; [reflexivity|]. exists nd4. repeat split; auto.
    rewrite He4. replace nd3 with nd2 by congruence. auto.
Qed.

End Expand.

(** X3.  [expand] is idempotent in a sequential run, for finder hooks
    that clear no error, register or re-class no object and reset no
    flag: when a call returns, it returns the object itself, the
    object is expanded and its lock is free, and every further call
    returns the object again and leaves the whole process state as it
    is (neither [_prepare] nor [_resolve] runs again, the pool is not
    touched). *)
Theorem expand_again_changes_nothing :
  forall sys call,
    (forall id args, keeps grows (call id args)) ->
    forall n h s r s1,
      expand sys call n h s = Ok r s1 ->
      r = h
      /\ (exists nd, hget h (registry s1) = Some nd
                     /\ is_expanded nd = true
                     /\ dget "_expand_lock" (n_dict nd) = Some (VLock false))
      /\ forall m, expand sys call (S m) h s1 = Ok h s1.
Proof.
  intros sys call Hc n h s r s1 H.
  destruct (@expand_returns sys call Hc _ _ _ _ _ H) as (-> & nd & Hh & He & Hl).
  split; [reflexivity|]. split; [eauto|].
  intros m. apply (@expand_settled sys call m h s1 nd Hh (conj He Hl)).
Qed.

Lemma expand_again_changes_nothing_witness :
  expand sample_systarget sample_call 10 "app" loaded = Ok "app" expanded_app
  /\ expand sample_systarget sample_call 1 "app" expanded_app
     = Ok "app" expanded_app.
Proof.
  assert (H : expand sample_systarget sample_call 10 "app" loaded
              = Ok "app" expanded_app) by (vm_compute; reflexivity).
  split; [exact H|].
  exact (proj2 (proj2 (@expand_again_changes_nothing sample_systarget
                         sample_call (sample_call_keeps grows_frame)
                         _ _ _ _ _ H)) 0).
Defined.

(** X4.  Whatever its outcome, [expand] never clears a recorded error,
    never changes the phase, a class default or the visited set,
    registers no object, and leaves every registered object registered
    with its class and its flags, provided the finder hooks it calls do
    the same. *)
Theorem expand_never_undoes :
  forall sys call,
    (forall id args, keeps grows (call id args)) ->
    (forall id args, keeps stable (call id args)) ->
    forall n h s,
      let s' := state_after (expand sys call n h) s in
      haserror s <= haserror s'
      /\ phase s' = phase s
      /\ defaults s' = defaults s
      /\ visited s' = visited s
      /\ forall x,
           match hget x (registry s) with
           | Some nd =>
               exists nd',
                 hget x (registry s') = Some nd'
                 /\ n_class nd' = n_class nd
                 /\ (is_prepared nd = true -> is_prepared nd' = true)
                 /\ (is_expanded nd = true -> is_expanded nd' = true)
           | None => hget x (registry s') = None
           end.
Proof.
  intros sys call Hg Hs n h s s'.
  pose proof (@keeps_expand _ grows_frame sys call Hg n h s) as G.
  pose proof (@keeps_expand _ stable_frame sys call Hs n h s) as (Hp & Hd & Hv & _).
  fold s' in G, Hp, Hd, Hv.
  split; [apply G|]. repeat (split; [assumption|]).
  intros x. destruct (hget x (registry s)) as [nd|] eqn:E.
  - apply (@grows_node _ _ x _ G E).
  - apply (@grows_fresh _ _ x G E).
Qed.

Lemma expand_never_undoes_witness :
  haserror loaded <= haserror expanded_app
  /\ phase expanded_app = phase loaded
  /\ hget "/r/a.o" (registry expanded_app) = None.
Proof.
  destruct (@expand_never_undoes sample_systarget sample_call
              (sample_call_keeps grows_frame) (sample_call_keeps stable_frame)
              10 "app" loaded) as (He & Hp & _ & _ & Hx).
  split; [exact He|]. split; [exact Hp|].
  exact (Hx "/r/a.o").
Defined.

(* ------------------------------------------------------------------ *)
(** ** [_.prepare], [_.load] and [main.check] *)

Lemma hget_In h : forall reg nd,
  hget h reg = Some nd -> In h (map fst reg).
Proof.
  induction reg as [|[k v] reg IH]; simpl; [discriminate|].
  intros nd. destruct (String.eqb_spec h k) as [->|Hne]; eauto.
Qed.

Lemma set_add_In x y l : In x (set_add y l) -> x = y \/ In x l.
Proof.
  unfold set_add. destruct (existsb (String.eqb y) l); [now right|].
  rewrite in_app_iff. simpl. intuition.
Qed.

(** Every visited target is prepared. *)
Lemma registry_prepare_step sys h s s' :
  (forall x, In x (visited s) ->
             exists nd, hget x (registry s) = Some nd
                        /\ is_prepared nd = true) ->
  registry_prepare sys h s = Ok tt s' ->
  (forall x, In x (visited s') ->
             exists nd, hget x (registry s') = Some nd
                        /\ is_prepared nd = true)
  /\ grows s s'
  /\ exists nd, hget h (registry s') = Some nd /\ is_prepared nd = true.
Proof.
  intros P H. unfold registry_prepare in H.
  apply bind_Ok_inv in H as (s0 & ? & [= <- <-] & H).
  rename s into s0.
  destruct (existsb (String.eqb h) (visited s0)) eqn:Ev.
  - injection H as <-. split; [exact P|].
    split; [apply (frame_refl grows_frame)|].
    apply existsb_exists in Ev as (x & Hx & Hxe).
    apply String.eqb_eq in Hxe as <-. now apply P.
  - apply bind_Ok_inv in H as (nd & s1 & Hl & H).
    apply lookup_Ok_inv in Hl as (-> & Hh).
    apply bind_Ok_inv in H as ([] & s2 & Hf & H).
    assert (s2 = s0) as ->.
    { destruct (is_forward_ref s0 h nd).
      - now apply target_fatal_not_Ok in Hf.
      - now injection Hf. }
    apply bind_Ok_inv in H as ([] & sv & [= <-] & H).
    apply bind_Ok_inv in H as (r & s3 & Hp & [= <-]).
    set (sv := set_visited (set_add h (visited s0)) s0) in *.
    pose proof (keeps_prepare grows_frame sys h sv) as G.
    pose proof (keeps_prepare stable_frame sys h sv) as (_ & _ & Hv & _).
    rewrite (state_after_Ok _ _ Hp) in G, Hv.
    assert (G0 : grows s0 s3).
    { apply (frame_trans grows_frame) with (s2 := sv); [|exact G].
      apply grows_same; simpl; auto. }
    destruct (prepare_returns _ _ _ Hp) as (_ & ndh & Hhh & Hph & _).
    split; [|split; [exact G0|eauto]].
    intros x Hx. rewrite Hv in Hx. cbn [visited sv set_visited] in Hx.
    apply set_add_In in Hx as [->|Hx]; [eauto|].
    destruct (P x Hx) as (ndx & Hhx & Hpx).
    destruct (@grows_node _ _ x _ G0 Hhx) as (ndx' & ? & _ & ? & _).
    eauto.
Qed.

Lemma registry_prepare_loop sys : forall l s s',
  (forall x, In x (visited s) ->
             exists nd, hget x (registry s) = Some nd
                        /\ is_prepared nd = true) ->
  for_each l (registry_prepare sys) s = Ok tt s' ->
  grows s s'
  /\ forall h, In h l ->
               exists nd, hget h (registry s') = Some nd
                          /\ is_prepared nd = true.
Proof.
  induction l as [|h l IH]; intros s s' P H.
  - injection H as <-. split; [apply (frame_refl grows_frame)|].
    intros h [].
  - cbn [for_each] in H.
    apply bind_Ok_inv in H as ([] & s1 & H1 & H).
    destruct (@registry_prepare_step sys h s s1 P H1) as (P1 & G1 & ndh & Hh & Hp).
    destruct (IH _ _ P1 H) as (G & Hall).
    split; [apply (frame_trans grows_frame) with (s2 := s1); assumption|].
    intros x [<-|Hx]; [|now apply Hall].
    destruct (@grows_node _ _ h _ G Hh) as (nd' & ? & _ & ? & _). eauto.
Qed.

(** X5.  When [_.load] returns (no target has been through
    [_.prepare] before its prepare phase starts), the engine is in the
    [postload] phase, no error is pending, and every target in the
    registry is prepared. *)
Theorem load_prepares_every_target :
  forall sys recipes s s',
    visited (state_after (modify (set_phase "load") ;; recipes) s) = [] ->
    load sys recipes s = Ok tt s' ->
    phase s' = "postload"
    /\ haserror s' = 0
    /\ forall h nd, hget h (registry s') = Some nd -> is_prepared nd = true.
Proof.
  intros sys recipes s s' Hv H. unfold load in H.
  apply bind_Ok_inv in H as ([] & s0 & [= <-] & H).
  apply bind_Ok_inv in H as ([] & s1 & Hr & H).
  assert (Hv1 : visited s1 = []).
  { rewrite <- Hv. unfold state_after, bind, modify. now rewrite Hr. }
  apply bind_Ok_inv in H as ([] & s1' & Hc & H).
  assert (s1' = s1) as ->.
  { unfold stop_on_error in Hc.
    destruct (Nat.eqb (haserror s1) 0); [now injection Hc|discriminate]. }
  apply bind_Ok_inv in H as ([] & s2 & [= <-] & H).
  apply bind_Ok_inv in H as (? & ? & [= <- <-] & H).
  apply bind_Ok_inv in H as ([] & s3 & Hloop & H).
  apply bind_Ok_inv in H as ([] & s3' & Hc3 & [= <-]).
  unfold stop_on_error in Hc3.
  destruct (Nat.eqb (haserror s3) 0) eqn:E0; [|discriminate].
  injection Hc3 as <-. apply Nat.eqb_eq in E0.
  cbn [phase haserror registry set_phase].
  split; [reflexivity|]. split; [exact E0|].
  intros h nd Hh.
  assert (P : forall x, In x (visited (set_phase "prepare" s1)) ->
             exists nd0, hget x (registry (set_phase "prepare" s1)) = Some nd0
                         /\ is_prepared nd0 = true).
  { cbn [visited set_phase]. rewrite Hv1. intros x []. }
  destruct (@registry_prepare_loop sys _ _ _ P Hloop) as (G & Hall).
  destruct (hget h (registry (set_phase "prepare" s1))) as [nd0|] eqn:E.
  - destruct (Hall h (hget_In _ _ E)) as (nd' & Hh' & Hp).
    congruence.
  - rewrite (@grows_fresh _ _ h G E) in Hh. discriminate.
Qed.

Lemma load_prepares_every_target_witness :
  let s := initial_state "/r/simba.py" in
  let s' := state_after (load sample_systarget (load_recipes sample_systarget)) s in
  load sample_systarget (load_recipes sample_systarget) s = Ok tt s'
  /\ phase s' = "postload" /\ haserror s' = 0.
Proof.
  cbv zeta.
  assert (H : load sample_systarget (load_recipes sample_systarget)
                (initial_state "/r/simba.py")
              = Ok tt (state_after
                         (load sample_systarget (load_recipes sample_systarget))
                         (initial_state "/r/simba.py")))
    by (vm_compute; reflexivity).
  split; [exact H|].
  assert (Hv : visited
                 (state_after
                    (modify (set_phase "load") ;; load_recipes sample_systarget)
                    (initial_state "/r/simba.py")) = [])
    by (vm_compute; reflexivity).
  destruct (load_prepares_every_target _ _ _ Hv H) as (Hp & He & _).
  split; [exact Hp | exact He].
Defined.

Section Check.

Variable sys : string.
Variable call : nat -> list value -> M value.
Hypothesis call_grows : forall id args, keeps grows (call id args).

Lemma expand_loop fuel : forall l s s',
  for_each l (fun h => expand sys call fuel h ;; ret tt) s = Ok tt s' ->
  grows s s'
  /\ forall h, In h l ->
               exists nd, hget h (registry s') = Some nd
                          /\ is_expanded nd = true.
Proof.
  induction l as [|h l IH]; intros s s' H.
  - injection H as <-. split; [apply (frame_refl grows_frame)|].
    intros h [].
  - cbn [for_each] in H.
    apply bind_Ok_inv in H as ([] & s1 & H1 & H).
    apply bind_Ok_inv in H1 as (r & s1' & H1 & [= ->]).
    pose proof (@keeps_expand _ grows_frame sys call call_grows fuel h s) as G1.
    rewrite (state_after_Ok _ _ H1) in G1.
    destruct (@expand_returns sys call call_grows _ _ _ _ _ H1)
      as (_ & ndh & Hh & He & _).
    destruct (IH _ _ H) as (G & Hall).
    split; [apply (frame_trans grows_frame) with (s2 := s1); assumption|].
    intros x [<-|Hx]; [|now apply Hall].
    destruct (@grows_node _ _ h _ G Hh) as (nd' & ? & _ & _ & ?). eauto.
Qed.

End Check.

(** X6.  When [main.check] returns (the finder hooks clear no error,
    register or re-class no object and reset no flag), every target in
    the registry is expanded, and no error recorded before has been
    cleared. *)
Theorem check_expands_every_target :
  forall sys call,
    (forall id args, keeps grows (call id args)) ->
    forall fuel s s',
      check sys call fuel s = Ok tt s' ->
      haserror s <= haserror s'
      /\ forall h nd, hget h (registry s') = Some nd -> is_expanded nd = true.
Proof.
  intros sys call Hc fuel s s' H. unfold check in H.
  apply bind_Ok_inv in H as (? & ? & [= <- <-] & H).
  destruct (@expand_loop sys call Hc fuel _ _ _ H) as (G & Hall).
  split; [apply G|].
  intros h nd Hh.
  destruct (hget h (registry s)) as [nd0|] eqn:E.
  - destruct (Hall h (hget_In _ _ E)) as (nd' & Hh' & He). congruence.
  - rewrite (@grows_fresh _ _ h G E) in Hh. discriminate.
Qed.

Lemma check_expands_every_target_witness :
  check sample_systarget sample_call 10 loaded = Ok tt checked
  /\ forall h nd, hget h (registry checked) = Some nd -> is_expanded nd = true.
Proof.
  assert (H : check sample_systarget sample_call 10 loaded = Ok tt checked)
    by (vm_compute; reflexivity).
  split; [exact H|].
  exact (proj2 (@check_expands_every_target sample_systarget sample_call
                  (sample_call_keeps grows_frame) _ _ _ H)).
Defined.

(* ------------------------------------------------------------------ *)
(** ** The registry *)

Lemma node_error_spec h r reason fld s :
  hget h (registry s) = Some r ->
  name_of (n_class r) (n_dict r) <> None ->
  frame_ok (n_dict r) ->
  exists pre,
    node_error h r reason fld s
    = Ok tt (set_console (List.app (console s) [pre ++ ": " ++ reason])
               (set_haserror (S (haserror s)) s)).
Proof.
  intros Hr Hn Hf.
  destruct (target_error_spec h reason fld s Hr Hn Hf)
    as (line & He & pre & ->).
  exists pre. rewrite <- He.
  unfold target_error, bind, lookup. now rewrite Hr.
Qed.

(** X7.  Declaring, or merely referring to, a name whose object is
    already expanded terminates the process at once: one error
    "can't update an expanded object" is recorded and the registry is
    left as it is, whatever the class and the fields of the new
    declaration. *)
Theorem declaring_an_expanded_target_is_fatal :
  forall c name kwargs site s tname robj,
    target_name s "" (mkNode c (("name", VStr name) :: kwargs)) = Some tname ->
    hget tname (registry s) = Some robj ->
    is_expanded robj = true ->
    name_of (n_class robj) (n_dict robj) <> None ->
    frame_ok (n_dict robj) ->
    exists s' pre,
      Target_call c name kwargs site s = Exit s'
      /\ registry s' = registry s
      /\ haserror s' = S (haserror s)
      /\ console s'
         = List.app (console s) [pre ++ ": can't update an expanded object"].
Proof.
  intros c name kwargs site s tname robj Hname Hr Hexp Hn Hf.
  destruct (node_error_spec tname "can't update an expanded object" None s
              Hr Hn Hf) as (pre & He).
  eexists. exists pre.
  unfold Target_call, bind at 1, update, bind at 1, get_state at 1.
  rewrite Hname.
  destruct (take_flag "override" _) as [ov d1].
  destruct (take_flag "default" d1) as [df d2].
  rewrite Hr, Hexp.
  unfold bind at 1, node_fatal, bind at 1. rewrite He.
  unfold sys_exit. split; [reflexivity|].
  cbn [registry haserror console set_console set_haserror]. auto.
Qed.

Lemma declaring_an_expanded_target_is_fatal_witness :
  exists s',
    Target_call C_target "app" [] recipe_site expanded_app = Exit s'
    /\ registry s' = registry expanded_app.
Proof.
  destruct (@declaring_an_expanded_target_is_fatal C_target "app" []
              recipe_site expanded_app "app"
              (mkNode C_dependency
                 (match hget "app" (registry expanded_app) with
                  | Some nd => n_dict nd
                  | None => []
                  end)))
    as (s' & pre & H & Hr & _).
  - vm_compute; reflexivity.
  - vm_compute; reflexivity.
  - vm_compute; reflexivity.
  - vm_compute; discriminate.
  - right. vm_compute. eexists; eexists; reflexivity.
  - exists s'. split; assumption.
Defined.

(* ------------------------------------------------------------------ *)
(** ** The extension table: [filetype._prepare] and [filetype.try_find] *)

Lemma vset_fresh e h : forall ft,
  vget e ft = None -> vset e h ft = List.app ft [(e, h)].
Proof.
  induction ft as [|[k v] ft IH]; simpl; [reflexivity|].
  destruct (py_eq e k); [discriminate|]. intros H. now rewrite IH.
Qed.

Lemma vget_app x e h : forall ft,
  vget x (List.app ft [(e, h)])
  = match vget x ft with
    | Some y => Some y
    | None => if py_eq x e then Some h else None
    end.
Proof.
  induction ft as [|[k v] ft IH]; simpl; [reflexivity|].
  destruct (py_eq x k); auto.
Qed.

Lemma register_loop_Ok h : forall l s s',
  for_each l
    (fun e =>
       if hashable e then
         s <- get_state ;;
         (match vget e s.(filetypes) with
          | Some other =>
              str_other <- str_of other ;;
              target_fatal h
                ("target '" ++ str_other ++ "' already registers '."
                 ++ py_str e ++ "'") None
          | None => ret tt
          end) ;;
         modify (fun s => set_filetypes (vset e h s.(filetypes)) s)
       else raise "TypeError") s = Ok tt s' ->
  registry s' = registry s
  /\ (forall x o, vget x (filetypes s) = Some o ->
                  vget x (filetypes s') = Some o)
  /\ forall x, In (VStr x) l -> vget (VStr x) (filetypes s') = Some h.
Proof.
  induction l as [|e l IH]; intros s s' H.
  - injection H as <-. split; [reflexivity|]. split; [auto|]. intros x [].
  - cbn [for_each] in H.
    apply bind_Ok_inv in H as ([] & s1 & He & H).
    destruct (hashable e); [|discriminate].
    apply bind_Ok_inv in He as (s0 & ? & [= <- <-] & He).
    apply bind_Ok_inv in He as ([] & s2 & Hm & He).
    destruct (vget e (filetypes s)) as [other|] eqn:Eg.
    { apply bind_Ok_inv in Hm as (? & ? & _ & Hm).
      now apply target_fatal_not_Ok in Hm. }
    injection Hm as <-. injection He as <-.
    destruct (IH _ _ H) as (Hr & Hkeep & Hnew).
    cbn [registry filetypes set_filetypes] in Hr, Hkeep.
    rewrite (vset_fresh _ _ _ Eg) in Hkeep.
    split; [exact Hr|]. split.
    + intros x o Hx. apply Hkeep. rewrite vget_app. now rewrite Hx.
    + intros x [->|Hx]; [|now apply Hnew].
      apply Hkeep. rewrite vget_app, Eg. simpl.
      now rewrite String.eqb_refl.
Qed.

(** X8.  Registration and lookup of extensions agree: when
    [filetype._prepare] returns for a filetype, [filetype.try_find]
    answers that very filetype for every path whose extension is in
    its [extensions] list. *)
Theorem registered_extensions_are_found :
  forall h s s',
    filetype_prepare h s = Ok tt s' ->
    exists nd exts l,
      hget h (registry s') = Some nd
      /\ dget "extensions" (n_dict nd) = Some exts
      /\ py_iter exts = Some l
      /\ forall path,
           In (VStr (snd (splitext path))) l -> try_find s' path = Some h.
Proof.
  intros h s s' H. unfold filetype_prepare in H.
  apply bind_Ok_inv in H as ([] & s1 & _ & H).
  apply bind_Ok_inv in H as (exts & s2 & Ha & H).
  apply attr_Ok_inv in Ha as (-> & nd & Hh & Hg).
  rewrite getattr_plain in Hg by reflexivity.
  destruct (py_iter exts) as [l|] eqn:El; [|discriminate].
  destruct (register_loop_Ok _ _ _ H) as (Hr & _ & Hnew).
  exists nd, exts, l. rewrite Hr. repeat split; auto.
  intros path Hin. unfold try_find. now apply Hnew.
Qed.

Lemma registered_extensions_are_found_witness :
  let s' := state_after (filetype_prepare "filetype::c") declared_builtin in
  filetype_prepare "filetype::c" declared_builtin = Ok tt s'
  /\ try_find s' "/r/main.cc" = Some "filetype::c".
Proof.
  cbv zeta.
  assert (H : filetype_prepare "filetype::c" declared_builtin
              = Ok tt (state_after (filetype_prepare "filetype::c")
                         declared_builtin))
    by (vm_compute; reflexivity).
  split; [exact H|].
  destruct (registered_extensions_are_found _ _ H)
    as (nd & exts & l & Hh & Hd & Hl & Hfind).
  apply Hfind.
  assert (Hnd : hget "filetype::c"
                  (registry (state_after (filetype_prepare "filetype::c")
                               declared_builtin))
                = Some nd) by exact Hh.
  vm_compute in Hnd. injection Hnd as <-.
  vm_compute in Hd. injection Hd as <-.
  vm_compute in Hl. injection Hl as <-.
  vm_compute. auto.
Defined.

(* ------------------------------------------------------------------ *)
(** ** [TargetValidator] *)

(** X9.  A field that is present with a value of none of the declared
    types is reported by one error line that names the object, the
    field, the declared types and the type found, and carries no recipe
    position; the object itself is left as it is, and the field counts
    as declared. *)
Theorem field_of_wrong_type_is_reported :
  forall s h obj f ts req dflt v n,
    hget h (registry s) = Some obj ->
    py_getattr s h obj f = Some v ->
    v <> VNone ->
    existsb (isinstance_val s v) ts = false ->
    name_of (n_class obj) (n_dict obj) = Some n ->
    field h f ts req dflt s
    = Ok tt
        (set_console
           (List.app (console s)
              ["Error: field '" ++ n ++ "(" ++ f ++ ")' expected types "
               ++ types_repr ts ++ ", but got " ++ type_of s v])
           (set_haserror (S (haserror s))
              (set_vfields (List.app (vfields s) [f]) s))).
Proof.
  intros s h obj f ts req dflt v n Hobj Hg Hv Hty Hn. unfold field.
  unfold bind at 1, modify at 1.
  set (s0 := set_vfields (List.app (vfields s) [f]) s).
  unfold bind at 1, get_state at 1.
  unfold bind at 1, lookup at 1. cbn [registry s0 set_vfields]. rewrite Hobj.
  rewrite (getattr_defaults s0 s h obj f eq_refl), Hg.
  change (existsb (isinstance_val s0 v) ts)
    with (existsb (isinstance_val s v) ts).
  rewrite Hty.
  assert (Hstr : str_of h s0 = Ok n s0).
  { unfold str_of, bind, get_state, lookup. cbn [registry s0 set_vfields].
    now rewrite Hobj, target_name_name_of, Hn. }
  change (type_of s0 v) with (type_of s v).
  destruct v; try congruence; unfold bind; rewrite Hstr; reflexivity.
Qed.

Lemma field_of_wrong_type_is_reported_witness :
  exists s',
    field "x" "kind" [T_bool; T_list] false (VBool false) declared_x = Ok tt s'
    /\ registry s' = registry declared_x
    /\ console s'
       = ["Error: field 'x(kind)' expected types "
          ++ "[<class 'bool'>, <class 'list'>], but got <class 'str'>"].
Proof.
  eexists. split.
  - apply (@field_of_wrong_type_is_reported declared_x "x"
             (mkNode C_target
                (match hget "x" (registry declared_x) with
                 | Some nd => n_dict nd
                 | None => []
                 end))
             "kind" [T_bool; T_list] false (VBool false) (VStr "a") "x");
      try (vm_compute; reflexivity).
    discriminate.
  - split; vm_compute; reflexivity.
Defined.

Lemma dget_In k : forall d, In k (map fst d) -> dget k d <> None.
Proof.
  induction d as [|[k' v] d IH]; simpl; [tauto|].
  destruct (String.eqb_spec k k') as [->|Hne]; [discriminate|].
  intros [H|H]; [congruence|auto].
Qed.

Lemma bunch_iter_has s h nd k :
  In k (map fst (n_dict nd)) -> is_private k = false ->
  exists v, In (k, v) (bunch_iter s h nd).
Proof.
  intros Hin Hp.
  assert (Hg : exists v, py_getattr s h nd k = Some v).
  { unfold py_getattr.
    destruct (String.eqb k "expanded"); [eauto|].
    destruct (String.eqb k "prepared"); [eauto|].
    destruct (dget k (n_dict nd)) eqn:E; [eauto|].
    now apply dget_In in Hin. }
  destruct Hg as (v & Hg). exists v.
  apply in_map_iff in Hin as ([k' v0] & <- & Hin).
  unfold bunch_iter. apply in_flat_map. exists (k', v0).
  split; [exact Hin|]. cbn [fst] in *. rewrite Hp, Hg. now left.
Qed.

Lemma unrecognized_loop h obj n : forall (l : list (string * value)) s,
  hget h (registry s) = Some obj ->
  name_of (n_class obj) (n_dict obj) = Some n ->
  exists s',
    for_each l
      (fun kv =>
         if is_private (fst kv) then ret tt
         else
           s' <- get_state ;;
           if existsb (String.eqb (fst kv)) s'.(vfields) then ret tt
           else
             str_obj <- str_of h ;;
             error ("unrecognized field '" ++ str_obj ++ "." ++ fst kv ++ "'")
                   None None) s = Ok tt s'
    /\ registry s' = registry s
    /\ vfields s' = vfields s
    /\ haserror s <= haserror s'
    /\ (forall line, In line (console s) -> In line (console s'))
    /\ forall kv, In kv l -> is_private (fst kv) = false ->
                  ~ In (fst kv) (vfields s) ->
                  haserror s < haserror s'
                  /\ In ("Error: unrecognized field '" ++ n ++ "." ++ fst kv
                         ++ "'") (console s').
Proof.
  induction l as [|[k v] l IH]; intros s Hh Hn.
  - exists s. split; [reflexivity|]. do 4 (split; [auto|]). intros kv [].
  - cbn [for_each fst].
    destruct (is_private k) eqn:Ep.
    + destruct (IH s Hh Hn) as (s' & Hrun & Hr & Hv & Hle & Hc & Hall).
      exists s'. unfold bind at 1, ret at 1. repeat (split; [assumption|]).
      intros kv [<-|Hin] Hpub Hnot; [cbn [fst] in Hpub; congruence|].
      now apply Hall.
    + unfold bind at 1. unfold bind at 1, get_state at 1.
      destruct (existsb (String.eqb k) (vfields s)) eqn:Ex.
      * destruct (IH s Hh Hn) as (s' & Hrun & Hr & Hv & Hle & Hc & Hall).
        exists s'. unfold ret at 1. repeat (split; [assumption|]).
        intros kv [<-|Hin] Hpub Hnot; [|now apply Hall].
        exfalso. apply Hnot. cbn [fst].
        apply existsb_exists in Ex as (x & Hx & Hxe).
        now apply String.eqb_eq in Hxe as ->.
      * assert (Hstr : str_of h s = Ok n s).
        { unfold str_of, bind, get_state, lookup.
          now rewrite Hh, target_name_name_of, Hn. }
        unfold bind at 1. rewrite Hstr. unfold error at 1, modify at 1.
        set (s1 := set_console _ _).
        destruct (IH s1 Hh Hn) as (s' & Hrun & Hr & Hv & Hle & Hc & Hall).
        exists s'. split; [exact Hrun|].
        cbn [registry vfields haserror console s1 set_console set_haserror]
          in Hr, Hv, Hle, Hc.
        split; [exact Hr|]. split; [exact Hv|]. split; [lia|].
        split. { intros line Hl. apply Hc. apply in_or_app. now left. }
        intros kv [<-|Hin] Hpub Hnot.
        -- split; [lia|]. apply Hc. apply in_or_app. right. now left.
        -- destruct (Hall kv Hin Hpub) as [Hlt Hmsg]; [exact Hnot|].
           split; [|exact Hmsg].
           cbn [haserror s1 set_console set_haserror] in Hlt. lia.
Qed.

(** X10.  Leaving the validator terminates the process whenever the
    object carries a public attribute that no [field] call has
    declared, even if no error was pending before: the error
    "unrecognized field '<object>.<attribute>'" is recorded and the
    checkpoint that follows exits. *)
Theorem unrecognized_field_stops_the_process :
  forall h s obj n k,
    hget h (registry s) = Some obj ->
    name_of (n_class obj) (n_dict obj) = Some n ->
    In k (map fst (n_dict obj)) ->
    is_private k = false ->
    ~ In k (vfields s) ->
    exists s',
      validator_exit h s = Exit s'
      /\ registry s' = registry s
      /\ haserror s < haserror s'
      /\ In ("Error: unrecognized field '" ++ n ++ "." ++ k ++ "'")
            (console s').
Proof.
  intros h s obj n k Hh Hn Hin Hpub Hnot.
  destruct (bunch_iter_has s h obj k Hin Hpub) as (v & Hkv).
  destruct (@unrecognized_loop h obj n (bunch_iter s h obj) s Hh Hn)
    as (s' & Hrun & Hr & _ & _ & _ & Hall).
  destruct (Hall (k, v) Hkv Hpub Hnot) as [Hlt Hmsg].
  exists s'. unfold validator_exit.
  unfold bind at 1, get_state at 1. unfold bind at 1, lookup at 1.
  rewrite Hh. unfold bind at 1. rewrite Hrun.
  unfold stop_on_error.
  destruct (Nat.eqb_spec (haserror s') 0) as [E|E]; [lia|].
  auto.
Qed.

Lemma unrecognized_field_stops_the_process_witness :
  exists s',
    validator_exit "x" (set_vfields ["name"; "expanded"] declared_x) = Exit s'
    /\ In "Error: unrecognized field 'x.kind'" (console s').
Proof.
  destruct (@unrecognized_field_stops_the_process "x"
              (set_vfields ["name"; "expanded"] declared_x)
              (mkNode C_target
                 (match hget "x" (registry declared_x) with
                  | Some nd => n_dict nd
                  | None => []
                  end)) "x" "kind")
    as (s' & H & _ & _ & Hm).
  - vm_compute; reflexivity.
  - vm_compute; reflexivity.
  - vm_compute. auto.
  - reflexivity.
  - vm_compute. intros [H|[H|[]]]; discriminate.
  - exists s'. split; assumption.
Defined.

(* ------------------------------------------------------------------ *)
(** ** [expand_files] on a [file] target *)

Lemma for_script_raises {B} (body : string -> M B) e :
  forall pre s r s', for_script (List.app pre [ERaise e]) body s <> Ok r s'.
Proof.
  induction pre as [|ev pre IH]; intros s r s' H.
  - cbn in H. discriminate.
  - cbn [List.app for_script] in H. destruct ev.
    + apply bind_Ok_inv in H as (y & s1 & _ & H).
      apply bind_Ok_inv in H as (ys & s2 & H & _). now apply IH in H.
    + apply bind_Ok_inv in H as (? & s1 & _ & H). now apply IH in H.
    + apply bind_Ok_inv in H as (? & s1 & _ & H). now apply IH in H.
    + apply bind_Ok_inv in H as (? & s1 & _ & H). now apply IH in H.
Qed.

(** X11.  A [file] target used as a source never expands to the
    end: the loop of a consumer ([get_dependencies]) never completes,
    whatever its body does.  Pulled by hand, the generator gives the
    first match of the file's pattern and fails with [TypeError] on
    the next pull; with no match it fails with [RuntimeError] on the
    first pull. *)
Theorem file_source_never_completes :
  forall glob s0 owner ctx h nd fctx pat,
    hget h (registry s0) = Some nd ->
    isinstance (n_class nd) C_file = true ->
    ctx_of_node nd = Some fctx ->
    py_getattr s0 h nd "name" = Some (VStr pat) ->
    let sc := expand_script glob s0 owner ctx (VRef h) in
    (forall B (body : string -> M B) s r s', for_script sc body s <> Ok r s')
    /\ forall s,
         haserror s = 0 ->
         match glob (path_join (dirname fctx) pat) with
         | p :: _ =>
             exists rest,
               pull sc s = Ok (Some p, rest) s
               /\ pull rest s = Raise "TypeError" s
         | [] => pull sc s = Raise "RuntimeError" s
         end.
Proof.
  intros glob s0 owner ctx h nd fctx pat Hh Hc Hctx Hname sc.
  assert (Hsc : sc = match glob (path_join (dirname fctx) pat) with
                     | p :: _ => [EYield p; ERaise "TypeError"]
                     | [] => [ECheck; ERaise "RuntimeError"]
                     end).
  { unfold sc. cbn [expand_script]. rewrite Hh, Hc, Hctx, Hname.
    destruct (glob (path_join (dirname fctx) pat)); reflexivity. }
  rewrite Hsc. split.
  - intros B body s r s'.
    destruct (glob (path_join (dirname fctx) pat)) as [|p l].
    + apply (for_script_raises body "RuntimeError" [ECheck]).
    + apply (for_script_raises body "TypeError" [EYield p]).
  - intros s He.
    destruct (glob (path_join (dirname fctx) pat)) as [|p l].
    + cbn. unfold bind, stop_on_error. now rewrite He.
    + eexists. split; reflexivity.
Qed.

Lemma file_source_never_completes_witness :
  let s := state_after (Target_call C_file "a.c" [] recipe_site) loading in
  let sc := expand_script sample_glob s (Some "app") "/r/simba.py"
              (VRef "file::a.c") in
  exists rest,
    pull sc s = Ok (Some "/r/a.c", rest) s
    /\ pull rest s = Raise "TypeError" s.
Proof.
  cbv zeta.
  set (s := state_after (Target_call C_file "a.c" [] recipe_site) loading).
  destruct (@file_source_never_completes sample_glob s (Some "app")
              "/r/simba.py" "file::a.c"
              (mkNode C_file
                 (match hget "file::a.c" (registry s) with
                  | Some nd => n_dict nd
                  | None => []
                  end)) "/r/simba.py" "a.c") as [_ H];
    try (vm_compute; reflexivity).
  apply (H s). vm_compute; reflexivity.
Defined.

(* ------------------------------------------------------------------ *)
(** ** Forward references: [target.is_forward_ref] and [_.prepare] *)

Lemma existsb_eqb_false h l : ~ In h l -> existsb (String.eqb h) l = false.
Proof.
  intros H. destruct (existsb (String.eqb h) l) eqn:E; [|reflexivity].
  apply existsb_exists in E as (x & Hx & Hxe).
  apply String.eqb_eq in Hxe as ->. contradiction.
Qed.

(** X12.  A target that is only referred to, never defined (no public
    attribute besides its name), cannot get through [_.prepare]: the
    process terminates with the error "forward reference" before the
    target is marked visited or prepared.  Paths, files and folders are
    exempt. *)
Theorem forward_reference_is_fatal :
  forall sys h s nd,
    hget h (registry s) = Some nd ->
    ~ In h (visited s) ->
    isinstance (n_class nd) C_path = false ->
    (forall k, In k (map fst (n_dict nd)) ->
               is_private k = true \/ k = "name") ->
    name_of (n_class nd) (n_dict nd) <> None ->
    frame_ok (n_dict nd) ->
    exists s' pre,
      registry_prepare sys h s = Exit s'
      /\ registry s' = registry s
      /\ visited s' = visited s
      /\ haserror s' = S (haserror s)
      /\ console s' = List.app (console s) [pre ++ ": forward reference"].
Proof.
  intros sys h s nd Hh Hv Hc Hkeys Hn Hf.
  destruct (node_error_spec h "forward reference" None s Hh Hn Hf)
    as (pre & He).
  eexists. exists pre.
  unfold registry_prepare, bind at 1, get_state at 1.
  rewrite (existsb_eqb_false _ _ Hv).
  unfold bind at 1, lookup at 1. rewrite Hh.
  assert (Hfwd : is_forward_ref s h nd = true).
  { unfold is_forward_ref. rewrite Hc. apply forallb_forall.
    intros kv Hkv. destruct (bunch_iter_keys s h nd kv Hkv) as [Hp Hin].
    destruct (Hkeys _ Hin) as [Hpriv| ->]; [congruence|].
    now rewrite orb_true_r. }
  rewrite Hfwd. unfold bind at 1, target_fatal, bind at 1, lookup at 1.
  rewrite Hh. unfold node_fatal, bind at 1. rewrite He.
  unfold sys_exit. split; [reflexivity|].
  cbn [registry visited haserror console set_console set_haserror]. auto.
Qed.

Lemma forward_reference_is_fatal_witness :
  exists s',
    registry_prepare sample_systarget "later" declared_fwd = Exit s'
    /\ console s' = ["Error in /r/simba.py at 3: later: forward reference"].
Proof.
  destruct (@forward_reference_is_fatal sample_systarget "later" declared_fwd
              (mkNode C_target
                 (match hget "later" (registry declared_fwd) with
                  | Some nd => n_dict nd
                  | None => []
                  end)))
    as (s' & pre & H & _ & _ & _ & Hc).
  - vm_compute; reflexivity.
  - vm_compute. tauto.
  - reflexivity.
  - vm_compute. intros k [<-|[<-|[<-|[]]]]; auto.
  - vm_compute; discriminate.
  - right. vm_compute. eexists; eexists; reflexivity.
  - exists s'. split; [exact H|].
    assert (H2 : registry_prepare sample_systarget "later" declared_fwd
                 = Exit (state_after
                           (registry_prepare sample_systarget "later")
                           declared_fwd)) by (vm_compute; reflexivity).
    rewrite H in H2. injection H2 as ->. vm_compute; reflexivity.
Defined.

(* ------------------------------------------------------------------ *)
(** ** Class defaults: [_.update] and [Target.get_default] *)

Lemma class_default_head s c t d :
  defaults s = (c, t) :: d -> class_default s c = Some t.
Proof. intros H. unfold class_default. rewrite H. destruct c; reflexivity. Qed.

Lemma take_flag_fst k d :
  fst (take_flag k d) = match dget k d with Some v => v | None => VBool false end.
Proof. unfold take_flag. now destruct (dget k d). Qed.

(** What [_.update] does to the class defaults when it creates an
    object. *)
Lemma update_new_defaults c d s tname nv :
  name_of c d = Some tname ->
  hget tname (registry s) = None ->
  phase s <> "prepare" ->
  dget "name" d = Some nv ->
  exists s',
    update (mkNode c d) s = Ok tname s'
    /\ registry s'
       = hset tname
           (mkNode c (snd (take_flag "default" (snd (take_flag "override" d)))))
           (registry s)
    /\ context_file s' = context_file s
    /\ defaults s'
       = if truthy (match dget "default" d with
                    | Some v => v
                    | None => VBool false
                    end)
            || (py_eq nv (VStr "default")
                && negb (match class_default s c with
                         | Some _ => true
                         | None => false
                         end))
         then (c, tname) :: defaults s
         else defaults s.
Proof.
  intros Hname Hfresh Hphase Hn.
  unfold update, bind at 1, get_state at 1.
  rewrite target_name_name_of. cbn [n_class n_dict]. rewrite Hname.
  pose proof (take_flag_fst "default" (snd (take_flag "override" d))) as Hdf.
  rewrite take_flag_dget in Hdf by discriminate.
  assert (Hn2 : dget "name"
                  (snd (take_flag "default" (snd (take_flag "override" d))))
                = Some nv)
    by (rewrite !take_flag_dget by discriminate; exact Hn).
  destruct (take_flag "override" d) as [override d1]. cbn [snd] in *.
  destruct (take_flag "default" d1) as [default d2]. cbn [fst snd] in *.
  cbn [n_class]. rewrite Hfresh.
  unfold bind at 1, store at 1, modify at 1.
  unfold bind at 1, get_state at 1.
  set (s1 := set_registry (hset tname (mkNode c d2) (registry s)) s).
  assert (Hcd : class_default s1 c = class_default s c) by reflexivity.
  assert (Hend : forall s2,
             phase s2 = phase s ->
             (ensure_can_create tname (mkNode c d2) ;; ret tname) s2
             = Ok tname s2).
  { intros s2 Hp. unfold ensure_can_create, bind, get_state.
    apply String.eqb_neq in Hphase. now rewrite Hp, Hphase. }
  rewrite <- Hdf.
  destruct (truthy default).
  - unfold bind at 1, set_class_default at 1, modify at 1.
    rewrite Hend by reflexivity. eexists. split; [reflexivity|].
    cbn. auto.
  - unfold bind at 1, bind at 1, name_is_default at 1.
    rewrite getattr_plain by reflexivity. cbn [n_dict]. rewrite Hn2.
    unfold ret at 1. rewrite Hcd. cbn [orb].
    destruct (py_eq nv (VStr "default")
              && negb match class_default s c with
                      | Some _ => true
                      | None => false
                      end).
    + unfold set_class_default at 1, modify at 1.
      rewrite Hend by reflexivity. eexists. split; [reflexivity|].
      cbn. auto.
    + unfold ret at 1. rewrite Hend by reflexivity.
      eexists. split; [reflexivity|]. cbn. auto.
Qed.

(** X13.  How a class gets its default.  A new object declared with a
    true [default] flag becomes the default of its class, replacing any
    earlier one; a new object named ['default'] becomes the default
    only if neither its class nor a base class has one; any other new
    object leaves the default of its class as it is. *)
Theorem default_of_a_class :
  forall c name kwargs site s tname,
    target_name s "" (mkNode c (("name", VStr name) :: kwargs)) = Some tname ->
    hget tname (registry s) = None ->
    phase s <> "prepare" ->
    let flag := match dget "default" kwargs with
                | Some v => truthy v
                | None => false
                end in
    exists s',
      Target_call c name kwargs site s = Ok tname s'
      /\ (flag = true -> get_default c s' = Ok tname s')
      /\ (flag = false -> name = "default" -> class_default s c = None ->
          get_default c s' = Ok tname s')
      /\ (flag = false -> name <> "default" \/ class_default s c <> None ->
          class_default s' c = class_default s c).
Proof.
  intros c name kwargs site s tname Hname Hfresh Hphase flag.
  rewrite target_name_name_of in Hname. cbn [n_class n_dict] in Hname.
  destruct (@update_new_defaults c (("name", VStr name) :: kwargs) s tname
              (VStr name) Hname Hfresh Hphase eq_refl)
    as (s1 & Hu & Hr & _ & Hd).
  change (dget "default" (("name", VStr name) :: kwargs))
    with (dget "default" kwargs) in Hd.
  assert (Hflag : truthy (match dget "default" kwargs with
                          | Some v => v
                          | None => VBool false
                          end) = flag).
  { unfold flag. now destruct (dget "default" kwargs). }
  rewrite Hflag in Hd. cbn [py_eq] in Hd.
  unfold Target_call, bind at 1. rewrite Hu.
  unfold bind at 1, get_state at 1. unfold bind at 1, lookup at 1.
  rewrite Hr, hget_hset_same.
  unfold bind, store, modify, ret. eexists. split; [reflexivity|].
  set (s' := set_registry _ s1).
  assert (Hd' : defaults s' = defaults s1) by reflexivity.
  assert (Hget : forall t d0, defaults s' = (c, t) :: d0 ->
                              get_default c s' = Ok t s').
  { intros t d0 H0. unfold get_default, bind, get_state.
    now rewrite (class_default_head _ H0). }
  split; [|split].
  - intros Hf. rewrite Hf in Hd. cbn [orb] in Hd.
    apply (Hget tname (defaults s)). congruence.
  - intros Hf -> Hnone. rewrite Hf, Hnone in Hd. cbn in Hd.
    apply (Hget tname (defaults s)). congruence.
  - intros Hf Hor. rewrite Hf in Hd. cbn [orb] in Hd.
    assert (Hsame : defaults s' = defaults s).
    { rewrite Hd'. destruct Hor as [Hne|Hsome].
      - apply String.eqb_neq in Hne. now rewrite Hne in Hd.
      - destruct (class_default s c); [|congruence].
        now rewrite andb_false_r in Hd. }
    unfold class_default. now rewrite Hsame.
Qed.

Lemma default_of_a_class_witness :
  exists s',
    Target_call C_environment "host" [("default", VBool true)] recipe_site
      declared_builtin = Ok "environment::host" s'
    /\ get_default C_environment s' = Ok "environment::host" s'.
Proof.
  destruct (@default_of_a_class C_environment "host" [("default", VBool true)]
              recipe_site declared_builtin "environment::host")
    as (s' & H & Hflag & _).
  - reflexivity.
  - vm_compute; reflexivity.
  - vm_compute; discriminate.
  - exists s'. split; [exact H|]. now apply Hflag.
Defined.

(* ------------------------------------------------------------------ *)
(** ** [generator.get_output] with the default template *)

Lemma append_nil_r (a : string) : a ++ "" = a.
Proof. induction a; simpl; congruence. Qed.

(** X14.  With the output template ['{filename}{kindext}'] that
    [generator._prepare] puts in place, a generator names the output of
    an input path after the path itself, its extension replaced by the
    extension of the kind. *)
Theorem default_output_replaces_the_extension :
  forall g nd s input kind,
    hget g (registry s) = Some nd ->
    isinstance (n_class nd) C_generator = true ->
    dget "output" (n_dict nd) = Some (VStr "{filename}{kindext}") ->
    generator_get_output (VRef g) input kind s
    = Ok (fst (splitext input) ++ kind_to_ext kind) s.
Proof.
  intros g nd s input kind Hh Hc Ho.
  unfold generator_get_output, bind at 1, lookup at 1. rewrite Hh, Hc.
  rewrite (bind_Ok (@attr_plain g "output" s nd _ Hh eq_refl Ho)).
  unfold bind, get_state, output_name.
  destruct (splitext input) as [filename ext]. cbn [fst].
  destruct (target_name s g nd); cbn; now rewrite append_nil_r.
Qed.

Lemma default_output_replaces_the_extension_witness :
  generator_get_output (VRef "generator::cc") "/r/src/main.c" (VStr "object")
    loaded
  = Ok "/r/src/main.o" loaded.
Proof.
  apply (@default_output_replaces_the_extension "generator::cc"
           (mkNode C_generator
              (match hget "generator::cc" (registry loaded) with
               | Some nd => n_dict nd
               | None => []
               end)));
    vm_compute; reflexivity.
Defined.

(* ------------------------------------------------------------------ *)
(** ** [builder_ninja.visit] on a generator *)

(** X15.  Visiting a generator writes its rule block once: the rule is
    named after the raw name of the generator and carries its command
    string verbatim, and a second visit writes nothing. *)
Theorem visit_writes_a_rule_once :
  forall glob sys call ss so fuel efuel h vis s nd name command,
    hget h (registry s) = Some nd ->
    n_class nd = C_generator ->
    existsb (py_eq (VRef h)) vis = false ->
    dget "name" (n_dict nd) = Some name ->
    dget "command" (n_dict nd) = Some command ->
    let s1 :=
      set_build_ninja
        (List.app (build_ninja s)
           ["rule " ++ py_str name ++ nl;
            "  command = " ++ py_str command ++ nl; nl]) s in
    visit glob sys call ss so (S fuel) efuel (VRef h) vis s
    = Ok (VRef h :: vis) s1
    /\ visit glob sys call ss so (S fuel) efuel (VRef h) (VRef h :: vis) s1
       = Ok (VRef h :: vis) s1.
Proof.
  intros glob sys call ss so fuel efuel h vis s nd name command
         Hh Hc Hvis Hname Hcmd s1.
  split.
  - cbn [visit hashable negb]. rewrite Hvis.
    unfold bind at 1, lookup at 1. rewrite Hh, Hc.
    cbn [isinstance mro existsb cls_eqb orb].
    unfold bind at 1.
    rewrite (bind_Ok (@attr_plain h "name" s nd _ Hh eq_refl Hname)).
    unfold bind at 1, write at 1, modify at 1.
    set (sa := set_build_ninja _ s).
    assert (Hha : hget h (registry sa) = Some nd) by exact Hh.
    rewrite (bind_Ok (@attr_plain h "command" sa nd _ Hha eq_refl Hcmd)).
    unfold bind, write, modify, ret. unfold s1, sa.
    cbn [build_ninja set_build_ninja haserror console phase registry defaults
         filetypes finders visited pool_all context_file vfields].
    now rewrite <- !app_assoc.
  - cbn [visit hashable negb existsb py_eq].
    now rewrite String.eqb_refl.
Qed.

Lemma visit_writes_a_rule_once_witness :
  exists s1,
    visit sample_glob sample_systarget sample_call api_site_source
      api_site_object 3 10 (VRef "generator::cc") [] loaded
    = Ok [VRef "generator::cc"] s1
    /\ build_ninja s1
       = ["rule cc" ++ nl;
          "  command = {exe} -c {in} {env.CFLAGS} -o {out}" ++ nl; nl].
Proof.
  destruct (@visit_writes_a_rule_once sample_glob sample_systarget sample_call
              api_site_source api_site_object 2 10 "generator::cc" [] loaded
              (mkNode C_generator
                 (match hget "generator::cc" (registry loaded) with
                  | Some nd => n_dict nd
                  | None => []
                  end)) (VStr "cc")
              (VStr "{exe} -c {in} {env.CFLAGS} -o {out}")) as [H _].
  - vm_compute; reflexivity.
  - reflexivity.
  - reflexivity.
  - vm_compute; reflexivity.
  - vm_compute; reflexivity.
  - eexists. split; [exact H|]. vm_compute; reflexivity.
Defined.

(* ------------------------------------------------------------------ *)
(** ** What a schema guarantees *)

Lemma error_Ok_inv reason f l s s' :
  error reason f l s = Ok tt s' ->
  haserror s' = S (haserror s) /\ registry s' = registry s.
Proof. unfold error, modify. intros [= <-]. auto. Qed.

Lemma node_error_Ok_inv h nd reason fld s s' :
  node_error h nd reason fld s = Ok tt s' ->
  haserror s' = S (haserror s) /\ registry s' = registry s.
Proof.
  unfold node_error, bind, get_state.
  destruct (target_name s h nd); [|discriminate].
  destruct (py_getattr s h nd "_frame") as [[]|]; try discriminate;
    apply error_Ok_inv.
Qed.

Lemma target_error_Ok_inv h reason fld s s' :
  target_error h reason fld s = Ok tt s' ->
  haserror s' = S (haserror s) /\ registry s' = registry s.
Proof.
  unfold target_error. intros H.
  apply bind_Ok_inv in H as (nd & s0 & Hl & H).
  apply lookup_Ok_inv in Hl as (-> & _).
  now apply node_error_Ok_inv in H.
Qed.

(** The three ways a [field] declaration can return. *)
Lemma field_Ok_inv h f ts req dflt s s' :
  field h f ts req dflt s = Ok tt s' ->
  exists obj,
    hget h (registry s) = Some obj
    /\ vfields s' = List.app (vfields s) [f]
    /\ ((exists v, py_getattr s h obj f = Some v /\ v <> VNone
                   /\ existsb (isinstance_val s v) ts = true
                   /\ registry s' = registry s
                   /\ haserror s' = haserror s)
        \/ (req = false /\ is_property f = false
            /\ (py_getattr s h obj f = None
                \/ py_getattr s h obj f = Some VNone)
            /\ registry s'
               = hset h (mkNode (n_class obj) (dset f dflt (n_dict obj)))
                   (registry s)
            /\ haserror s' = haserror s)
        \/ (haserror s' = S (haserror s) /\ registry s' = registry s)).
Proof.
  unfold field. intros H.
  apply bind_Ok_inv in H as ([] & s0 & [= <-] & H).
  apply bind_Ok_inv in H as (? & ? & [= <- <-] & H).
  apply bind_Ok_inv in H as (obj & ? & Hl & H).
  apply lookup_Ok_inv in Hl as (-> & Hh).
  set (s0 := set_vfields (List.app (vfields s) [f]) s) in *.
  change (registry s0) with (registry s) in Hh.
  assert (Hg : py_getattr s0 h obj f = py_getattr s h obj f) by reflexivity.
  exists obj. split; [exact Hh|].
  assert (Habsent :
            (if req then target_error h "field is required" (Some f)
             else py_setattr h f dflt) s0 = Ok tt s' ->
            vfields s' = List.app (vfields s) [f]
            /\ ((req = false /\ is_property f = false
                 /\ registry s'
                    = hset h (mkNode (n_class obj) (dset f dflt (n_dict obj)))
                        (registry s)
                 /\ haserror s' = haserror s)
                \/ (haserror s' = S (haserror s)
                    /\ registry s' = registry s))).
  { destruct req; intros H0.
    - pose proof H0 as H1. apply target_error_Ok_inv in H1 as [He Hr].
      split; [|right; auto].
      unfold target_error in H0.
      apply bind_Ok_inv in H0 as (nd & ? & Hl & H0).
      apply lookup_Ok_inv in Hl as (-> & _).
      unfold node_error, bind, get_state in H0.
      destruct (target_name s0 h nd); [|discriminate].
      destruct (py_getattr s0 h nd "_frame") as [[]|]; try discriminate;
        unfold error, modify in H0; injection H0 as <-; reflexivity.
    - unfold py_setattr, bind, lookup in H0.
      change (registry s0) with (registry s) in H0. rewrite Hh in H0.
      unfold node_setattr in H0.
      destruct (is_property f) eqn:Eprop; [discriminate|].
      unfold store, modify in H0. injection H0 as <-.
      split; [reflexivity|]. left. auto. }
  rewrite Hg in H.
  destruct (py_getattr s h obj f) as [v|] eqn:Ev.
  - assert (Hpresent : v <> VNone ->
              (if existsb (isinstance_val s0 v) ts then ret tt
               else str_obj <- str_of h ;;
                    error ("field '" ++ str_obj ++ "(" ++ f
                           ++ ")' expected types " ++ types_repr ts
                           ++ ", but got " ++ type_of s0 v) None None) s0
              = Ok tt s' ->
              vfields s' = List.app (vfields s) [f]
              /\ ((exists v0, Some v = Some v0 /\ v0 <> VNone
                             /\ existsb (isinstance_val s v0) ts = true
                             /\ registry s' = registry s
                             /\ haserror s' = haserror s)
                  \/ (haserror s' = S (haserror s)
                      /\ registry s' = registry s))).
    { intros Hv H0.
      change (existsb (isinstance_val s0 v) ts)
        with (existsb (isinstance_val s v) ts) in H0.
      destruct (existsb (isinstance_val s v) ts) eqn:Et.
      - injection H0 as <-. split; [reflexivity|]. left. exists v. auto.
      - apply bind_Ok_inv in H0 as (n & s1 & Hs & H0).
        unfold str_of, bind, get_state, lookup in Hs.
        destruct (hget h (registry s0)); [|discriminate].
        destruct (target_name s0 h n0); [|discriminate].
        injection Hs as <- <-.
        unfold error, modify in H0. injection H0 as <-.
        split; [reflexivity|]. right. auto. }
    destruct v;
      try (destruct (Hpresent ltac:(discriminate) H) as [Hv [Hok|Herr]];
           (split; [exact Hv|]); [left; exact Hok | right; right; exact Herr]).
    destruct (Habsent H) as [Hv [(Hreq & Hprop & Hr & He)|Herr]];
      (split; [exact Hv|]); [right; left | right; right]; auto.
  - destruct (Habsent H) as [Hv [(Hreq & Hprop & Hr & He)|Herr]];
      (split; [exact Hv|]); [right; left | right; right]; auto.
Qed.

Lemma existsb_same {A} (f g : A -> bool) : forall l,
  (forall x, f x = g x) -> existsb f l = existsb g l.
Proof. induction l as [|x l IH]; intros H; cbn; [reflexivity|]. now rewrite H, IH. Qed.

Lemma isinstance_val_classes s s' v t :
  (forall x, option_map n_class (hget x (registry s'))
             = option_map n_class (hget x (registry s))) ->
  isinstance_val s' v t = isinstance_val s v t.
Proof.
  intros H. destruct t, v; try reflexivity. cbn [isinstance_val].
  specialize (H h).
  destruct (hget h (registry s')), (hget h (registry s));
    cbn in H; congruence.
Qed.

(** A schema that runs through without a pending error leaves every
    declared attribute conforming, and touches nothing else. *)
Lemma declare_sound h : forall specs s s' nd,
  NoDup (map fs_name specs) ->
  (forall sp, In sp specs -> plain_key (fs_name sp) = true) ->
  hget h (registry s) = Some nd ->
  declare h specs s = Ok tt s' ->
  haserror s' = 0 ->
  haserror s = 0
  /\ vfields s' = List.app (vfields s) (map fs_name specs)
  /\ exists nd',
       hget h (registry s') = Some nd'
       /\ n_class nd' = n_class nd
       /\ (forall x, x <> h -> hget x (registry s') = hget x (registry s))
       /\ (forall g, ~ In g (map fs_name specs) ->
                     dget g (n_dict nd') = dget g (n_dict nd))
       /\ forall sp, In sp specs -> conforms s' (n_dict nd') sp.
Proof.
  induction specs as [|sp specs IH]; intros s s' nd Hnd Hplain Hh H He.
  - injection H as <-. split; [exact He|].
    split; [now rewrite app_nil_r|]. exists nd. repeat split; auto.
    intros sp [].
  - unfold declare in H. cbn [for_each] in H.
    apply bind_Ok_inv in H as ([] & s1 & H1 & H).
    fold (declare h specs) in H.
    cbn [map] in Hnd. inversion Hnd as [|? ? Hnotin Hnd']; subst.
    assert (Hplain' : forall sp0, In sp0 specs -> plain_key (fs_name sp0) = true)
      by (intros; apply Hplain; now right).
    pose proof (Hplain sp (or_introl eq_refl)) as Hpf.
    apply field_Ok_inv in H1 as (obj & Hobj & Hv1 & Hcases).
    replace obj with nd in * by congruence. clear Hobj.
    rewrite (getattr_plain s h nd _ Hpf) in Hcases.
    assert (Hh1 : exists nd1,
               hget h (registry s1) = Some nd1
               /\ n_class nd1 = n_class nd
               /\ (forall x, x <> h ->
                             hget x (registry s1) = hget x (registry s))
               /\ (forall g, g <> fs_name sp ->
                             dget g (n_dict nd1) = dget g (n_dict nd))).
    { destruct Hcases as [(v & _ & _ & _ & Hr & _)
                         |[(_ & _ & _ & Hr & _)|(_ & Hr)]];
        rewrite Hr.
      - exists nd. auto.
      - eexists. rewrite hget_hset_same. split; [reflexivity|].
        cbn [n_class n_dict]. split; [reflexivity|].
        split; intros; [now apply hget_hset_other|].
        now apply dget_dset_other.
      - exists nd. auto. }
    destruct Hh1 as (nd1 & Hh1 & Hc1 & Ho1 & Hd1).
    destruct (IH s1 s' nd1 Hnd' Hplain' Hh1 H He)
      as (He1 & Hv & nd' & Hh' & Hc' & Ho' & Hd' & Hall).
    assert (He0 : haserror s = 0).
    { destruct Hcases as [(v & _ & _ & _ & _ & E)
                         |[(_ & _ & _ & _ & E)|(E & _)]]; lia. }
    split; [exact He0|].
    split. { rewrite Hv, Hv1, <- app_assoc. reflexivity. }
    exists nd'. split; [exact Hh'|]. split; [congruence|].
    split. { intros x Hx. rewrite Ho', Ho1; auto. }
    split.
    { intros g Hg. cbn [map In] in Hg.
      rewrite Hd' by tauto. apply Hd1. intros ->. tauto. }
    intros sp0 [<-|Hin]; [|now apply Hall].
    assert (Hcls : forall x, option_map n_class (hget x (registry s'))
                             = option_map n_class (hget x (registry s))).
    { intros x. destruct (String.eqb_spec x h) as [->|Hx].
      - rewrite Hh', Hh. cbn. congruence.
      - rewrite Ho', Ho1; auto. }
    unfold conforms. rewrite (Hd' _ Hnotin).
    destruct Hcases as [(v & Hg & Hvn & Ht & Hr & _)
                       |[(Hreq & _ & _ & Hr & _)|(E & _)]]; [| |lia].
    + assert (nd1 = nd) as -> by (rewrite Hr, Hh in Hh1; congruence).
      exists v. split; [exact Hg|]. left. split; [exact Hvn|].
      rewrite <- Ht. apply existsb_same. intros t.
      now apply isinstance_val_classes.
    + rewrite Hr, hget_hset_same in Hh1. injection Hh1 as <-.
      cbn [n_dict]. rewrite dget_dset_same.
      exists (fs_default sp). split; [reflexivity|]. now right.
Qed.

Lemma validator_enter_Ok_inv h s s' :
  validator_enter h s = Ok tt s' ->
  haserror s' = 0 ->
  haserror s = 0
  /\ registry s' = registry s
  /\ vfields s' = ["name"; "expanded"]
  /\ exists nd n,
       hget h (registry s) = Some nd
       /\ dget "name" (n_dict nd) = Some (VStr n).
Proof.
  unfold validator_enter. intros H He.
  apply bind_Ok_inv in H as ([] & s0 & [= <-] & H).
  apply bind_Ok_inv in H as ([] & s1 & H1 & H2).
  apply field_Ok_inv in H2 as (obj2 & Hobj2 & Hv2 & Hc2).
  apply field_Ok_inv in H1 as (obj1 & Hobj1 & Hv1 & Hc1).
  cbn [vfields registry haserror set_vfields] in *.
  assert (Hs1 : registry s' = registry s1 /\ haserror s1 = 0).
  { destruct Hc2 as [(v & _ & _ & _ & Hr & E)
                    |[(_ & Hp & _)|(E & _)]];
      [split; congruence | discriminate | lia]. }
  destruct Hs1 as [Hr2 He1].
  destruct Hc1 as [(v & Hg & Hvn & Ht & Hr & E)
                  |[(Hreq & _)|(E & _)]]; [|discriminate|lia].
  split; [congruence|]. split; [congruence|].
  split. { rewrite Hv2, Hv1. reflexivity. }
  rewrite getattr_plain in Hg by reflexivity.
  exists obj1. destruct v; try discriminate. eauto.
Qed.

Lemma validator_exit_Ok_inv h s s' :
  validator_exit h s = Ok tt s' ->
  s' = s /\ haserror s = 0
  /\ exists nd,
       hget h (registry s) = Some nd
       /\ forall k, In k (map fst (n_dict nd)) -> is_private k = false ->
                    In k (vfields s).
Proof.
  unfold validator_exit. intros H.
  apply bind_Ok_inv in H as (? & ? & [= <- <-] & H).
  apply bind_Ok_inv in H as (nd & ? & Hl & H).
  apply lookup_Ok_inv in Hl as (-> & Hh).
  apply bind_Ok_inv in H as ([] & s1 & Hloop & Hc).
  unfold stop_on_error in Hc.
  destruct (Nat.eqb (haserror s1) 0) eqn:E0; [|discriminate].
  injection Hc as <-. apply Nat.eqb_eq in E0.
  assert (Hgen : forall (l : list (string * value)) sa sb,
             for_each l
               (fun kv =>
                  if is_private (fst kv) then ret tt
                  else
                    s' <- get_state ;;
                    if existsb (String.eqb (fst kv)) s'.(vfields) then ret tt
                    else
                      str_obj <- str_of h ;;
                      error ("unrecognized field '" ++ str_obj ++ "."
                             ++ fst kv ++ "'") None None) sa = Ok tt sb ->
             haserror sb = 0 ->
             sb = sa
             /\ forall kv, In kv l -> is_private (fst kv) = false ->
                           In (fst kv) (vfields sa)).
  { induction l as [|kv l IH]; intros sa sb Hrun Hz.
    - injection Hrun as <-. split; [reflexivity|]. intros kv [].
    - cbn [for_each] in Hrun.
      apply bind_Ok_inv in Hrun as ([] & sc & Hb & Hrun).
      destruct (IH _ _ Hrun Hz) as (-> & Hall).
      destruct (is_private (fst kv)) eqn:Ep.
      + injection Hb as <-. split; [reflexivity|].
        intros kv0 [<-|Hin] Hpub; [congruence|now apply Hall].
      + apply bind_Ok_inv in Hb as (? & ? & [= <- <-] & Hb).
        destruct (existsb (String.eqb (fst kv)) (vfields sa)) eqn:Ex.
        * injection Hb as <-. split; [reflexivity|].
          intros kv0 [<-|Hin] Hpub; [|now apply Hall].
          apply existsb_exists in Ex as (x & Hx & Hxe).
          now apply String.eqb_eq in Hxe as ->.
        * apply bind_Ok_inv in Hb as (? & sd & Hs & Hb).
          unfold str_of, bind, get_state, lookup in Hs.
          destruct (hget h (registry sa)); [|discriminate].
          destruct (target_name sa h n); [|discriminate].
          injection Hs as <- <-.
          apply error_Ok_inv in Hb as [Hb _]. lia. }
  destruct (Hgen _ _ _ Hloop E0) as (-> & Hall).
  split; [reflexivity|]. split; [exact E0|].
  exists nd. split; [exact Hh|].
  intros k Hin Hpub.
  destruct (bunch_iter_has s h nd k Hin Hpub) as (v & Hkv).
  apply (Hall (k, v) Hkv Hpub).
Qed.

Lemma isinstance_str s v :
  existsb (isinstance_val s v) [T_str] = true -> exists x, v = VStr x.
Proof. destruct v; cbn; try discriminate. eauto. Qed.

(** X16.  What [external._prepare] guarantees when it returns: no
    error is pending, the object has a string [name], [kind] (the
    default is ['unknown']), [provider] and [external_name], a [path]
    that is a string or [None], and no public attribute besides these
    and [expanded]. *)
Theorem prepared_external_is_well_formed :
  forall h s s',
    external_prepare h s = Ok tt s' ->
    haserror s' = 0
    /\ exists nd,
         hget h (registry s') = Some nd
         /\ (exists x, dget "name" (n_dict nd) = Some (VStr x))
         /\ (exists x, dget "kind" (n_dict nd) = Some (VStr x))
         /\ (exists x, dget "provider" (n_dict nd) = Some (VStr x))
         /\ (exists x, dget "external_name" (n_dict nd) = Some (VStr x))
         /\ (dget "path" (n_dict nd) = Some VNone
             \/ exists x, dget "path" (n_dict nd) = Some (VStr x))
         /\ forall k, In k (map fst (n_dict nd)) -> is_private k = false ->
                      In k ["name"; "expanded"; "kind"; "provider";
                            "external_name"; "path"].
Proof.
  intros h s s' H. unfold external_prepare, with_validator in H.
  apply bind_Ok_inv in H as ([] & s1 & Henter & H).
  apply try_finally_Ok_inv in H as (s2 & Hbody & Hexit).
  apply validator_exit_Ok_inv in Hexit as (-> & He2 & nd2 & Hh2 & Hkeys).
  assert (Hdecl : declare h external_schema s1 = Ok tt s2).
  { apply bind_Ok_inv in Hbody as ([] & sa & H1 & Hbody).
    apply bind_Ok_inv in Hbody as ([] & sb & H2 & Hbody).
    apply bind_Ok_inv in Hbody as ([] & sc & H3 & H4).
    unfold declare, external_schema. cbn [for_each fs_name fs_types
      fs_required fs_default].
    rewrite (bind_Ok H1), (bind_Ok H2), (bind_Ok H3), (bind_Ok H4).
    reflexivity. }
  assert (Hh1 : exists nd1, hget h (registry s1) = Some nd1).
  { apply bind_Ok_inv in Hbody as ([] & sa & H1 & _).
    apply field_Ok_inv in H1 as (obj & Hobj & _). eauto. }
  destruct Hh1 as (nd1 & Hh1).
  destruct (@declare_sound h external_schema s1 s2 nd1) as
    (He1 & Hv & nd' & Hh' & _ & _ & Hsame & Hall); auto.
  { cbn. repeat constructor; cbn; intuition discriminate. }
  { intros sp [<-|[<-|[<-|[<-|[]]]]]; reflexivity. }
  replace nd' with nd2 in * by congruence.
  destruct (validator_enter_Ok_inv _ _ Henter He1)
    as (_ & Hr1 & Hv1 & nd0 & n & Hh0 & Hname).
  split; [exact He2|]. exists nd2. split; [exact Hh2|].
  assert (Hstr : forall sp, In sp external_schema ->
             fs_default sp = VNone \/ (exists x, fs_default sp = VStr x) ->
             fs_types sp = [T_str] ->
             dget (fs_name sp) (n_dict nd2) = Some VNone
             \/ exists x, dget (fs_name sp) (n_dict nd2) = Some (VStr x)).
  { intros sp Hin Hdef Hty. destruct (Hall sp Hin) as (v & Hg & Hv0).
    rewrite Hg. destruct Hv0 as [[_ Ht]|[_ ->]].
    - rewrite Hty in Ht. apply isinstance_str in Ht as (x & ->). eauto.
    - destruct Hdef as [->|(x & ->)]; eauto. }
  assert (Hreq : forall sp, In sp external_schema ->
             (fs_required sp = true \/ exists x, fs_default sp = VStr x) ->
             fs_types sp = [T_str] ->
             exists x, dget (fs_name sp) (n_dict nd2) = Some (VStr x)).
  { intros sp Hin Hdef Hty. destruct (Hall sp Hin) as (v & Hg & Hv0).
    rewrite Hg. destruct Hv0 as [[_ Ht]|[Hnr ->]].
    - rewrite Hty in Ht. apply isinstance_str in Ht as (x & ->). eauto.
    - destruct Hdef as [Hr|(x & ->)]; [congruence|eauto]. }
  split.
  { exists n. rewrite Hsame.
    - rewrite Hr1 in Hh1. congruence.
    - cbn. intuition discriminate. }
  split.
  { apply (Hreq (mkSpec "kind" [T_str] false (VStr "unknown")));
      cbn; eauto. }
  split.
  { apply (Hreq (mkSpec "provider" [T_str] true VNone)); cbn; auto. }
  split.
  { apply (Hreq (mkSpec "external_name" [T_str] true VNone)); cbn; auto. }
  split.
  { apply (Hstr (mkSpec "path" [T_str] false VNone)); cbn; auto. }
  intros k Hin Hpub. specialize (Hkeys k Hin Hpub).
  rewrite Hv, Hv1 in Hkeys. exact Hkeys.
Qed.

Lemma prepared_external_is_well_formed_witness :
  let h := "external.executable::cc" in
  exists s' nd,
    external_prepare h declared_cc = Ok tt s'
    /\ hget h (registry s') = Some nd
    /\ dget "path" (n_dict nd) = Some VNone.
Proof.
  cbv zeta.
  assert (H : external_prepare "external.executable::cc" declared_cc
              = Ok tt (state_after (external_prepare "external.executable::cc")
                         declared_cc)) by (vm_compute; reflexivity).
  destruct (prepared_external_is_well_formed _ _ H)
    as (_ & nd & Hh & _ & _ & _ & _ & Hpath & _).
  eexists. exists nd. split; [exact H|]. split; [exact Hh|].
  destruct Hpath as [Hp|(x & Hp)]; [exact Hp|].
  exfalso. vm_compute in Hh. injection Hh as <-. vm_compute in Hp.
  discriminate.
Defined.

Lemma isinstance_ref s v c :
  existsb (isinstance_val s v) [T_class c] = true ->
  exists x xn, v = VRef x /\ hget x (registry s) = Some xn
               /\ isinstance (n_class xn) c = true.
Proof.
  destruct v; cbn; try discriminate.
  destruct (hget h (registry s)) as [xn|] eqn:E; [|discriminate].
  rewrite orb_false_r. eauto.
Qed.

(** X17.  What [generator._prepare] guarantees when it returns: no
    error is pending, the generator has a string [command], an
    [executor] that is a registered dependency (an external is one), a
    string [output] template, [includefmt] and [description], and no
    public attribute outside its schema. *)
Theorem prepared_generator_is_well_formed :
  forall h s s',
    generator_prepare h s = Ok tt s' ->
    haserror s' = 0
    /\ exists nd,
         hget h (registry s') = Some nd
         /\ (exists x, dget "command" (n_dict nd) = Some (VStr x))
         /\ (exists e en,
                dget "executor" (n_dict nd) = Some (VRef e)
                /\ hget e (registry s') = Some en
                /\ isinstance (n_class en) C_dependency = true)
         /\ (exists x, dget "output" (n_dict nd) = Some (VStr x))
         /\ (exists x, dget "includefmt" (n_dict nd) = Some (VStr x))
         /\ (exists x, dget "description" (n_dict nd) = Some (VStr x))
         /\ forall k, In k (map fst (n_dict nd)) -> is_private k = false ->
                      In k ["name"; "expanded"; "command"; "executor";
                            "depfile"; "deptype"; "rspfile"; "rspcontent";
                            "includefmt"; "variables"; "description";
                            "output"].
Proof.
  intros h s s' H. unfold generator_prepare, with_validator in H.
  apply bind_Ok_inv in H as ([] & s1 & Henter & H).
  apply try_finally_Ok_inv in H as (s2 & Hbody & Hexit).
  apply validator_exit_Ok_inv in Hexit as (-> & He2 & nd2 & Hh2 & Hkeys).
  assert (Hh1 : exists nd1, hget h (registry s1) = Some nd1).
  { apply bind_Ok_inv in Hbody as ([] & sa & H1 & _).
    apply field_Ok_inv in H1 as (obj & Hobj & _). eauto. }
  destruct Hh1 as (nd1 & Hh1).
  assert (Hdecl : exists n, declare h (generator_schema n) s1 = Ok tt s2).
  { apply bind_Ok_inv in Hbody as ([] & sa & H1 & Hbody).
    apply bind_Ok_inv in Hbody as ([] & sb & H2 & Hbody).
    apply bind_Ok_inv in Hbody as ([] & sc & H3 & Hbody).
    apply bind_Ok_inv in Hbody as ([] & sd & H4 & Hbody).
    apply bind_Ok_inv in Hbody as ([] & se & H5 & Hbody).
    apply bind_Ok_inv in Hbody as ([] & sf & H6 & Hbody).
    apply bind_Ok_inv in Hbody as ([] & sg & H7 & Hbody).
    apply bind_Ok_inv in Hbody as ([] & sh & H8 & Hbody).
    apply bind_Ok_inv in Hbody as (name & si & Hn & Hbody).
    apply attr_Ok_inv in Hn as (-> & _).
    destruct name as [| | |n| | | | | | | | | | |]; try discriminate.
    apply bind_Ok_inv in Hbody as ([] & sj & H9 & H10).
    exists n. unfold declare, generator_schema.
    cbn [for_each fs_name fs_types fs_required fs_default].
    rewrite (bind_Ok H1), (bind_Ok H2), (bind_Ok H3), (bind_Ok H4),
      (bind_Ok H5), (bind_Ok H6), (bind_Ok H7), (bind_Ok H8),
      (bind_Ok H9), (bind_Ok H10).
    reflexivity. }
  destruct Hdecl as (n & Hdecl).
  destruct (@declare_sound h (generator_schema n) s1 s2 nd1) as
    (He1 & Hv & nd' & Hh' & _ & _ & Hsame & Hall); auto.
  { cbn. repeat constructor; cbn; intuition discriminate. }
  { intros sp Hin. cbn in Hin.
    repeat (destruct Hin as [<-|Hin]; [reflexivity|]). destruct Hin. }
  replace nd' with nd2 in * by congruence.
  destruct (validator_enter_Ok_inv _ _ Henter He1)
    as (_ & Hr1 & Hv1 & _).
  split; [exact He2|]. exists nd2. split; [exact Hh2|].
  assert (Hreq : forall sp, In sp (generator_schema n) ->
             (fs_required sp = true \/ exists x, fs_default sp = VStr x) ->
             fs_types sp = [T_str] ->
             exists x, dget (fs_name sp) (n_dict nd2) = Some (VStr x)).
  { intros sp Hin Hdef Hty. destruct (Hall sp Hin) as (v & Hg & Hv0).
    rewrite Hg. destruct Hv0 as [[_ Ht]|[Hnr ->]].
    - rewrite Hty in Ht. apply isinstance_str in Ht as (x & ->). eauto.
    - destruct Hdef as [Hr|(x & ->)]; [congruence|eauto]. }
  split.
  { apply (Hreq (mkSpec "command" [T_str] true VNone)); cbn; auto. }
  split.
  { destruct (Hall (mkSpec "executor" [T_class C_dependency] true VNone))
      as (v & Hg & Hv0); [cbn; auto|].
    cbn [fs_name fs_types fs_required fs_default] in *.
    destruct Hv0 as [[_ Ht]|[Hnr _]]; [|discriminate].
    apply isinstance_ref in Ht as (e & en & -> & He & Hi). eauto. }
  split.
  { apply (Hreq (mkSpec "output" [T_str] false (VStr "{filename}{kindext}")));
      cbn; eauto 12. }
  split.
  { apply (Hreq (mkSpec "includefmt" [T_str] false (VStr "-I '%s'")));
      cbn; eauto 12. }
  split.
  { apply (Hreq (mkSpec "description" [T_str] false
                   (VStr (upper n ++ " {out}"))));
      cbn; eauto 12. }
  intros k Hin Hpub. specialize (Hkeys k Hin Hpub).
  rewrite Hv, Hv1 in Hkeys. exact Hkeys.
Qed.

Lemma prepared_generator_is_well_formed_witness :
  let h := "generator::cc" in
  exists s' nd,
    generator_prepare h declared_builtin = Ok tt s'
    /\ hget h (registry s') = Some nd
    /\ dget "description" (n_dict nd) = Some (VStr "CC {out}").
Proof.
  cbv zeta.
  assert (H : generator_prepare "generator::cc" declared_builtin
              = Ok tt (state_after (generator_prepare "generator::cc")
                         declared_builtin)) by (vm_compute; reflexivity).
  destruct (prepared_generator_is_well_formed _ _ H)
    as (_ & nd & Hh & _ & _ & _ & _ & (x & Hd) & _).
  eexists. exists nd. split; [exact H|]. split; [exact Hh|].
  vm_compute in Hh. injection Hh as <-. vm_compute. reflexivity.
Defined.

Lemma get_default_Ok_inv c s d s' :
  get_default c s = Ok d s' -> s' = s /\ class_default s c = Some d.
Proof.
  unfold get_default, bind, get_state.
  destruct (class_default s c) as [x|]; [|discriminate].
  unfold ret. now intros [= -> ->].
Qed.

(** X18.  What [dependency._prepare] guarantees when it returns: no
    error is pending; [kind] and [provider] are strings, [aliases]
    and [dependencies] sets, [nofiletype] a boolean; [generator] is
    [None] or a registered generator; [sources] is a [files] group, a
    [file], a set, a tuple or a string; [environment] is a registered
    environment or the class default; a ['local'] provider has no
    dependencies; and the object has no public attribute outside its
    schema. *)
Theorem prepared_dependency_is_well_formed :
  forall h s s',
    dependency_prepare h s = Ok tt s' ->
    haserror s' = 0
    /\ exists nd,
         hget h (registry s') = Some nd
         /\ (exists x, dget "kind" (n_dict nd) = Some (VStr x))
         /\ (exists x, dget "provider" (n_dict nd) = Some (VStr x))
         /\ (exists l, dget "aliases" (n_dict nd) = Some (VSet l))
         /\ (exists l, dget "dependencies" (n_dict nd) = Some (VSet l))
         /\ (exists b, dget "nofiletype" (n_dict nd) = Some (VBool b))
         /\ (dget "generator" (n_dict nd) = Some VNone
             \/ exists g gn,
                 dget "generator" (n_dict nd) = Some (VRef g)
                 /\ hget g (registry s') = Some gn
                 /\ isinstance (n_class gn) C_generator = true)
         /\ (exists v,
                dget "sources" (n_dict nd) = Some v
                /\ existsb (isinstance_val s' v)
                     [T_files; T_class C_file; T_set; T_tuple; T_str] = true)
         /\ (exists e,
                dget "environment" (n_dict nd) = Some (VRef e)
                /\ (class_default s C_environment = Some e
                    \/ exists en,
                        hget e (registry s') = Some en
                        /\ isinstance (n_class en) C_environment = true))
         /\ (dget "provider" (n_dict nd) = Some (VStr "local") ->
             dget "dependencies" (n_dict nd) = Some (VSet []))
         /\ forall k, In k (map fst (n_dict nd)) -> is_private k = false ->
                      In k ["name"; "expanded"; "kind"; "aliases";
                            "dependencies"; "provider"; "generator";
                            "nofiletype"; "sources"; "environment"].
Proof.
  intros h s s' H. unfold dependency_prepare in H.
  apply bind_Ok_inv in H as (d & s0 & Hd & H).
  apply get_default_Ok_inv in Hd as (-> & Hd).
  apply bind_Ok_inv in H as ([] & s3 & H & Hlocal).
  unfold with_validator in H.
  apply bind_Ok_inv in H as ([] & s1 & Henter & H).
  apply try_finally_Ok_inv in H as (s2 & Hbody & Hexit).
  apply validator_exit_Ok_inv in Hexit as (-> & He2 & nd2 & Hh2 & Hkeys).
  assert (Hh1 : exists nd1, hget h (registry s1) = Some nd1).
  { apply bind_Ok_inv in Hbody as ([] & sa & H1 & _).
    apply field_Ok_inv in H1 as (obj & Hobj & _). eauto. }
  destruct Hh1 as (nd1 & Hh1).
  assert (Hdecl : declare h (dependency_schema d) s1 = Ok tt s2).
  { apply bind_Ok_inv in Hbody as ([] & sa & H1 & Hbody).
    apply bind_Ok_inv in Hbody as ([] & sb & H2 & Hbody).
    apply bind_Ok_inv in Hbody as ([] & sc & H3 & Hbody).
    apply bind_Ok_inv in Hbody as ([] & sd & H4 & Hbody).
    apply bind_Ok_inv in Hbody as ([] & se & H5 & Hbody).
    apply bind_Ok_inv in Hbody as ([] & sf & H6 & Hbody).
    apply bind_Ok_inv in Hbody as ([] & sg & H7 & H8).
    unfold declare, dependency_schema.
    cbn [for_each fs_name fs_types fs_required fs_default].
    rewrite (bind_Ok H1), (bind_Ok H2), (bind_Ok H3), (bind_Ok H4),
      (bind_Ok H5), (bind_Ok H6), (bind_Ok H7), (bind_Ok H8).
    reflexivity. }
  destruct (@declare_sound h (dependency_schema d) s1 s2 nd1) as
    (He1 & Hv & nd' & Hh' & _ & _ & Hsame & Hall); auto.
  { cbn. repeat constructor; cbn; intuition discriminate. }
  { intros sp Hin. cbn in Hin.
    repeat (destruct Hin as [<-|Hin]; [reflexivity|]). destruct Hin. }
  replace nd' with nd2 in * by congruence.
  destruct (validator_enter_Ok_inv _ _ Henter He1)
    as (_ & Hr1 & Hv1 & _).
  assert (Hone : forall sp, In sp (dependency_schema d) ->
             exists v, dget (fs_name sp) (n_dict nd2) = Some v
                       /\ (existsb (isinstance_val s2 v) (fs_types sp) = true
                           \/ v = fs_default sp)).
  { intros sp Hin. destruct (Hall sp Hin) as (v & Hg & Hv0).
    exists v. split; [exact Hg|]. destruct Hv0 as [[_ Ht]|[_ Hdf]]; auto. }
  destruct (Hone (mkSpec "kind" [T_str] false (VStr "unknown")))
    as (vk & Hk & Hkt); [cbn; auto|].
  destruct (Hone (mkSpec "aliases" [T_set] false (VSet [])))
    as (va & Ha & Hat); [cbn; auto|].
  destruct (Hone (mkSpec "dependencies" [T_set] false (VSet [])))
    as (vd & Hdp & Hdt); [cbn; auto|].
  destruct (Hone (mkSpec "provider" [T_str] false (VStr "internal")))
    as (vp & Hp & Hpt); [cbn; auto|].
  destruct (Hone (mkSpec "generator" [T_class C_generator] false VNone))
    as (vg & Hg & Hgt); [cbn; auto 6|].
  destruct (Hone (mkSpec "nofiletype" [T_bool] false (VBool false)))
    as (vn & Hn & Hnt); [cbn; auto 7|].
  destruct (Hone (mkSpec "sources"
                    [T_files; T_class C_file; T_set; T_tuple; T_str]
                    false (VSet [])))
    as (vs & Hs & Hst); [cbn; auto 8|].
  destruct (Hone (mkSpec "environment" [T_class C_environment] false (VRef d)))
    as (ve & Hen & Het); [cbn; auto 9|].
  cbn [fs_name fs_types fs_default] in *.
  assert (Hkind : exists x, vk = VStr x).
  { destruct Hkt as [Ht| ->]; [now apply isinstance_str in Ht|eauto]. }
  assert (Hprov : exists x, vp = VStr x).
  { destruct Hpt as [Ht| ->]; [now apply isinstance_str in Ht|eauto]. }
  assert (Hali : exists l, va = VSet l).
  { destruct Hat as [Ht| ->]; [|eauto]. destruct va; try discriminate. eauto. }
  assert (Hdeps : exists l, vd = VSet l).
  { destruct Hdt as [Ht| ->]; [|eauto]. destruct vd; try discriminate. eauto. }
  assert (Hnof : exists b, vn = VBool b).
  { destruct Hnt as [Ht| ->]; [|eauto]. destruct vn; try discriminate. eauto. }
  destruct Hkind as (xk & ->). destruct Hprov as (xp & ->).
  destruct Hali as (la & ->). destruct Hdeps as (ld & ->).
  destruct Hnof as (bn & ->).
  (* the check on local providers leaves the state as it is *)
  apply bind_Ok_inv in Hlocal as (p & s4 & Hpa & Hlocal).
  apply attr_Ok_inv in Hpa as (-> & ndp & Hhp & Hgp).
  replace ndp with nd2 in * by congruence.
  rewrite getattr_plain, Hp in Hgp by reflexivity. injection Hgp as <-.
  assert (Hloc : s' = s2 /\ (xp = "local" -> ld = [])).
  { cbn [py_eq] in Hlocal. destruct (String.eqb xp "local") eqn:Exp.
    - apply bind_Ok_inv in Hlocal as (dv & s5 & Hda & Hlocal).
      apply attr_Ok_inv in Hda as (-> & ndd & Hhd & Hgd).
      replace ndd with nd2 in * by congruence.
      rewrite getattr_plain, Hdp in Hgd by reflexivity. injection Hgd as <-.
      cbn [py_len] in Hlocal. destruct ld as [|x ld].
      + injection Hlocal as <-. auto.
      + cbn in Hlocal. now apply target_fatal_not_Ok in Hlocal.
    - injection Hlocal as <-. split; [reflexivity|].
      apply String.eqb_neq in Exp. intros; contradiction. }
  destruct Hloc as [-> Hloc].
  split; [exact He2|]. exists nd2. split; [exact Hh2|].
  split; [eauto|]. split; [eauto|]. split; [eauto|]. split; [eauto|].
  split; [eauto|].
  split.
  { destruct Hgt as [Ht| ->]; [|now left].
    apply isinstance_ref in Ht as (g & gn & -> & Hhg & Hi). right. eauto. }
  split.
  { exists vs. split; [exact Hs|]. destruct Hst as [Ht| ->]; [exact Ht|].
    reflexivity. }
  split.
  { destruct Het as [Ht| ->]; [|eauto].
    apply isinstance_ref in Ht as (e & en & -> & Hhe & Hi). eauto 6. }
  split.
  { intros Hpl. rewrite Hp in Hpl. injection Hpl as ->.
    now rewrite Hdp, Hloc. }
  intros k Hin Hpub. specialize (Hkeys k Hin Hpub).
  rewrite Hv, Hv1 in Hkeys. exact Hkeys.
Qed.

Lemma prepared_dependency_is_well_formed_witness :
  exists s0 s' nd,
    prepare sample_systarget "environment::default" declared_builtin
    = Ok "environment::default" s0
    /\ Target_call C_dependency "app" [("sources", VStr "*.c")] recipe_site s0
       = Ok "app" (state_after
                     (Target_call C_dependency "app" [("sources", VStr "*.c")]
                        recipe_site) s0)
    /\ dependency_prepare "app"
         (state_after
            (Target_call C_dependency "app" [("sources", VStr "*.c")]
               recipe_site) s0) = Ok tt s'
    /\ hget "app" (registry s') = Some nd
    /\ dget "provider" (n_dict nd) = Some (VStr "internal").
Proof.
  set (s0 := state_after (prepare sample_systarget "environment::default")
               declared_builtin).
  set (s1 := state_after
               (Target_call C_dependency "app" [("sources", VStr "*.c")]
                  recipe_site) s0).
  assert (H : dependency_prepare "app" s1
              = Ok tt (state_after (dependency_prepare "app") s1))
    by (vm_compute; reflexivity).
  destruct (prepared_dependency_is_well_formed _ _ H)
    as (_ & nd & Hh & _ & _ & _ & _ & _ & _ & _ & _ & _ & _).
  exists s0. eexists. exists nd.
  split; [vm_compute; reflexivity|].
  split; [vm_compute; reflexivity|].
  split; [exact H|]. split; [exact Hh|].
  vm_compute in Hh. injection Hh as <-. vm_compute. reflexivity.
Defined.

(* ------------------------------------------------------------------ *)
(** ** [dependency.get_dependencies]: sources without a filetype *)

(** X19.  Take a non-local dependency of kind ['executable'], in a
    process with no pending error, whose explicit dependencies are all
    expanded already.  When the first path its sources expand to has
    an extension that no filetype has registered, [get_dependencies]
    terminates the process with exactly one error, "no filetype for
    '<path>'", and leaves the registry as it is: nothing is registered
    for that source. *)
Theorem executable_source_without_filetype_is_fatal :
  forall glob sys call ss so n h s nd pv dv deps f srcs c0 a rest,
    haserror s = 0 ->
    hget h (registry s) = Some nd ->
    dget "provider" (n_dict nd) = Some pv ->
    py_eq pv (VStr "local") = false ->
    dget "dependencies" (n_dict nd) = Some dv ->
    py_iter dv = Some (map VRef deps) ->
    (forall d, In d deps ->
               exists dn, hget d (registry s) = Some dn /\ settled dn) ->
    dget "kind" (n_dict nd) = Some (VStr "executable") ->
    ctx_of_node nd = Some f ->
    dget "sources" (n_dict nd) = Some srcs ->
    expand_script glob s (Some h) f srcs = List.app c0 (EYield a :: rest) ->
    only_checks c0 = true ->
    try_find s a = None ->
    name_of (n_class nd) (n_dict nd) <> None ->
    frame_ok (n_dict nd) ->
    exists s' pre,
      get_dependencies glob sys call ss so (S n) h s = Exit s'
      /\ registry s' = registry s
      /\ haserror s' = 1
      /\ console s'
         = List.app (console s) [pre ++ ": no filetype for '" ++ a ++ "'"].
Proof.
  intros glob sys call ss so n h s nd pv dv deps f srcs c0 a rest
         Herr Hh Dp Hlocal Dd Hiter Hdeps Dk Hctx Ds Hscript Hc0 Hfind Hn Hf.
  destruct (node_error_spec h ("no filetype for '" ++ a ++ "'") None s
              Hh Hn Hf) as (pre & He).
  eexists. exists pre.
  unfold get_dependencies.
  rewrite (bind_Ok (@attr_plain h "provider" s nd pv Hh eq_refl Dp)).
  rewrite Hlocal.
  rewrite (bind_Ok (@attr_plain h "dependencies" s nd dv Hh eq_refl Dd)).
  rewrite Hiter.
  rewrite (bind_Ok (@map_m_settled sys call n s deps Hdeps)).
  rewrite (bind_Ok (@get_sources_Ok glob h s nd f srcs Hh Hctx Ds)).
  rewrite Hscript.
  unfold bind at 1.
  rewrite (@for_script_checks _ (source_dependency sys call ss so (S n) h)
             s Herr c0 _ Hc0).
  cbn [for_script]. unfold bind at 1.
  unfold source_dependency at 1, bind at 1, get_state at 1.
  rewrite Hfind.
  rewrite (bind_Ok (@attr_plain h "kind" s nd _ Hh eq_refl Dk)).
  cbn [py_eq String.eqb Ascii.eqb Bool.eqb].
  unfold bind at 1, target_fatal, bind at 1, lookup at 1. rewrite Hh.
  unfold node_fatal, bind at 1. rewrite He. unfold sys_exit.
  split; [reflexivity|].
  cbn [registry haserror console set_console set_haserror].
  rewrite Herr. auto.
Qed.

Lemma executable_source_without_filetype_is_fatal_witness :
  let s := state_after
             (Target_call C_dependency "tool"
                [("sources", VStr "logo.png"); ("kind", VStr "executable")]
                recipe_site ;;
              expand sample_systarget sample_call 10 "tool") loaded in
  exists s',
    get_dependencies sample_glob sample_systarget sample_call
      api_site_source api_site_object 1 "tool" s = Exit s'
    /\ registry s' = registry s /\ haserror s' = 1.
Proof.
  cbv zeta.
  set (s := state_after
              (Target_call C_dependency "tool"
                 [("sources", VStr "logo.png"); ("kind", VStr "executable")]
                 recipe_site ;;
               expand sample_systarget sample_call 10 "tool") loaded).
  destruct (@executable_source_without_filetype_is_fatal sample_glob
              sample_systarget sample_call api_site_source api_site_object
              0 "tool" s
              (mkNode C_dependency
                 (match hget "tool" (registry s) with
                  | Some nd => n_dict nd
                  | None => []
                  end))
              (VStr "internal") (VSet []) [] "/r/simba.py"
              (VStr "logo.png") [] "/r/logo.png" [ECheck])
    as (s' & pre & H & Hr & He & _).
  - vm_compute; reflexivity.
  - vm_compute; reflexivity.
  - vm_compute; reflexivity.
  - reflexivity.
  - vm_compute; reflexivity.
  - reflexivity.
  - intros d [].
  - vm_compute; reflexivity.
  - vm_compute; reflexivity.
  - vm_compute; reflexivity.
  - vm_compute; reflexivity.
  - reflexivity.
  - vm_compute; reflexivity.
  - vm_compute; discriminate.
  - right. vm_compute. eexists; eexists; reflexivity.
  - exists s'. auto.
Defined.

(* ------------------------------------------------------------------ *)
(** ** [_.update]: a second declaration that agrees with the first *)







(* ------------------------------------------------------------------ *)
(** ** A dependency that depends on itself *)

Lemma bind_Hang {A B} (m : M A) (f : A -> M B) s s' :
  m s = Hang s' -> bind m f s = Hang s'.
Proof. intros H. unfold bind. now rewrite H. Qed.

(** Expanding an object whose expansion is under way, from the task
    that holds its lock, waits for ever. *)
Lemma expand_reentrant sys call n h s nd :
  hget h (registry s) = Some nd ->
  is_expanded nd = true ->
  dget "_expand_lock" (n_dict nd) = Some (VLock true) ->
  expand sys call (S n) h s = Hang s.
Proof.
  intros Hh He Hl. cbn [expand].
  unfold bind at 1, lookup at 1. rewrite Hh, He.
  unfold try_finally.
  assert (Ha : (acquire h ;; ret h) s = Hang s).
  { apply bind_Hang. unfold acquire.
    rewrite (bind_Ok (@attr_plain h "_expand_lock" s nd _ Hh eq_refl Hl)).
    reflexivity. }
  now rewrite Ha.
Qed.

Lemma for_each_settled sys call n s : forall pre rest,
  (forall d, In d pre ->
             exists dn, hget d (registry s) = Some dn /\ settled dn) ->
  for_each (List.app (map VRef pre) rest)
    (fun d => expand_value (expand sys call (S n)) d ;; ret tt) s
  = for_each rest
      (fun d => expand_value (expand sys call (S n)) d ;; ret tt) s.
Proof.
  induction pre as [|d pre IH]; intros rest Hall; [reflexivity|].
  cbn [map List.app for_each].
  destruct (Hall d (or_introl eq_refl)) as (dn & Hd & Hs).
  rewrite (bind_Ok (bind_Ok (expand_value_settled sys call n d s Hd Hs)
                    : (_ ;; ret tt) s = Ok tt s)).
  apply IH. intros x Hx. apply Hall. now right.
Qed.

(** X21.  Take a dependency that lists itself among its dependencies,
    that is prepared and not yet expanded, whose lock is free, that
    has no generator and a kind other than [executable],
    [static_library] and [shared_library], and whose environment and
    the dependencies listed before itself are expanded already.  Its
    expansion never ends: [expand] marks it expanded, takes its lock,
    expands what comes before in the list, and then waits for ever on
    the lock it holds itself.  No error is recorded. *)
Theorem self_dependency_never_expands :
  forall sys call n h s nd e en kv dv pre post,
    hget h (registry s) = Some nd ->
    n_class nd = C_dependency ->
    is_expanded nd = false ->
    is_prepared nd = true ->
    dget "_expand_lock" (n_dict nd) = Some (VLock false) ->
    dget "environment" (n_dict nd) = Some (VRef e) ->
    hget e (registry s) = Some en -> settled en ->
    dget "generator" (n_dict nd) = Some VNone ->
    dget "kind" (n_dict nd) = Some kv ->
    is_terminal_kind kv = false ->
    dget "dependencies" (n_dict nd) = Some dv ->
    py_iter dv = Some (List.app (map VRef pre) (VRef h :: post)) ->
    (forall d, In d pre ->
               exists dn, hget d (registry s) = Some dn /\ settled dn) ->
    exists s' nd',
      expand sys call (S (S n)) h s = Hang s'
      /\ hget h (registry s') = Some nd'
      /\ is_expanded nd' = true
      /\ dget "_expand_lock" (n_dict nd') = Some (VLock true)
      /\ haserror s' = haserror s.
Proof.
  intros sys call n h s nd e en kv dv pre post
         Hh Hc Hne Hp Hl De Hen Hes Dg Dk Hk Dd Hiter Hpre.
  destruct nd as [c d]. cbn [n_class n_dict] in *. subst c.
  set (d1 := dset "_expanded" (VBool true) d).
  set (s1 := set_registry (hset h (mkNode C_dependency d1) (registry s)) s).
  set (d2 := dset "_expand_lock" (VLock true) d1).
  set (s2 := set_registry (hset h (mkNode C_dependency d2) (registry s1)) s1).
  assert (Hh1 : hget h (registry s1) = Some (mkNode C_dependency d1))
    by apply hget_hset_same.
  assert (Hh2 : hget h (registry s2) = Some (mkNode C_dependency d2))
    by apply hget_hset_same.
  assert (Hother : forall x, x <> h -> hget x (registry s2) = hget x (registry s)).
  { intros x Hx. unfold s2, s1. cbn [registry set_registry].
    now rewrite !hget_hset_other by exact Hx. }
  assert (Hsettled : forall x xn,
             hget x (registry s) = Some xn -> settled xn ->
             hget x (registry s2) = Some xn).
  { intros x xn Hx [Hxe _]. rewrite Hother; [exact Hx|].
    intros ->. rewrite Hh in Hx. injection Hx as <-. congruence. }
  assert (G2 : forall k, k <> "_expanded" -> k <> "_expand_lock" ->
                         dget k d2 = dget k d).
  { intros k H1 H2. unfold d2, d1. now rewrite !dget_dset_other. }
  exists s2, (mkNode C_dependency d2).
  split; [|split; [exact Hh2|split; [|split; [|reflexivity]]]].
  2:{ unfold is_expanded, private_flag. cbn [n_dict]. unfold d2.
      rewrite dget_dset_other by discriminate. unfold d1.
      now rewrite dget_dset_same. }
  2:{ cbn [n_dict]. apply dget_dset_same. }
  (* the call *)
  assert (Hinner : expand sys call (S n) h s2 = Hang s2).
  { apply (@expand_reentrant sys call n h s2 (mkNode C_dependency d2) Hh2).
    - unfold is_expanded, private_flag. cbn [n_dict]. unfold d2.
      rewrite dget_dset_other by discriminate. unfold d1.
      now rewrite dget_dset_same.
    - apply dget_dset_same. }
  assert (Hres : dependency_resolve (expand sys call (S n)) h s2 = Hang s2).
  { unfold dependency_resolve.
    rewrite (bind_Ok (@attr_plain h "environment" s2 _ (VRef e) Hh2 eq_refl
                        ltac:(cbn [n_dict]; rewrite G2 by discriminate;
                              exact De))).
    rewrite (bind_Ok (expand_value_settled sys call n e s2
                        (Hsettled _ _ Hen Hes) Hes)).
    rewrite (bind_Ok (@attr_plain h "generator" s2 _ VNone Hh2 eq_refl
                        ltac:(cbn [n_dict]; rewrite G2 by discriminate;
                              exact Dg))).
    cbn [truthy]. unfold bind at 1.
    rewrite (bind_Ok (@attr_plain h "kind" s2 _ kv Hh2 eq_refl
                        ltac:(cbn [n_dict]; rewrite G2 by discriminate;
                              exact Dk))).
    unfold is_terminal_kind in Hk.
    apply orb_false_iff in Hk as [Hk Hk3].
    apply orb_false_iff in Hk as [Hk1 Hk2].
    cbv zeta. rewrite Hk1, Hk3, Hk2. cbn [orb].
    unfold ret at 1.
    rewrite (bind_Ok (@attr_plain h "dependencies" s2 _ dv Hh2 eq_refl
                        ltac:(cbn [n_dict]; rewrite G2 by discriminate;
                              exact Dd))).
    rewrite Hiter.
    rewrite (@for_each_settled sys call n s2 pre (VRef h :: post)).
    - cbn [for_each]. apply bind_Hang. apply bind_Hang.
      cbn [expand_value]. now apply bind_Hang.
    - intros x Hx. destruct (Hpre x Hx) as (xn & Hxn & Hxs).
      exists xn. split; [now apply Hsettled|exact Hxs]. }
  cbn [expand]. unfold bind at 1, lookup at 1. rewrite Hh, Hne.
  unfold try_finally.
  match goal with
  | |- match ?body s with _ => _ end = _ =>
      assert (Hbody : body s = Hang s2); [|now rewrite Hbody]
  end.
  rewrite (bind_Ok (set_private_Ok h "_expanded" (VBool true) s Hh)).
  cbn [n_class n_dict]. fold d1. fold s1.
  unfold bind at 1, lookup at 1. rewrite Hh1.
  assert (Hp1 : is_prepared (mkNode C_dependency d1) = true).
  { unfold is_prepared, private_flag in *. cbn [n_dict] in *. unfold d1.
    now rewrite dget_dset_other by discriminate. }
  rewrite Hp1. unfold bind at 1, ret at 1.
  assert (Hacq : acquire h s1 = Ok tt s2).
  { unfold acquire.
    rewrite (bind_Ok (@attr_plain h "_expand_lock" s1 _ (VLock false) Hh1
                        eq_refl
                        ltac:(cbn [n_dict]; unfold d1;
                              rewrite dget_dset_other by discriminate;
                              exact Hl))).
    apply (set_private_Ok h "_expand_lock" (VLock true) s1 Hh1). }
  rewrite (bind_Ok Hacq).
  unfold bind at 1, lookup at 1. rewrite Hh2.
  unfold bind at 1, ret at 1.
  unfold bind at 1, lookup at 1. rewrite Hh2.
  cbn [n_class hook_resolve].
  now apply bind_Hang.
Qed.

Lemma self_dependency_never_expands_witness :
  exists s',
    expand sample_systarget sample_call 5 "loop" declared_loop = Hang s'
    /\ haserror s' = 0.
Proof.
  destruct (@self_dependency_never_expands sample_systarget sample_call 3
              "loop" declared_loop
              (mkNode C_dependency
                 (match hget "loop" (registry declared_loop) with
                  | Some nd => n_dict nd
                  | None => []
                  end))
              "environment::default"
              (mkNode C_environment
                 (match hget "environment::default" (registry declared_loop)
                  with
                  | Some nd => n_dict nd
                  | None => []
                  end))
              (VStr "unknown") (VSet [VRef "loop"]) [] [])
    as (s' & nd' & H & _ & _ & _ & He).
  - vm_compute; reflexivity.
  - reflexivity.
  - vm_compute; reflexivity.
  - vm_compute; reflexivity.
  - vm_compute; reflexivity.
  - vm_compute; reflexivity.
  - vm_compute; reflexivity.
  - split; vm_compute; reflexivity.
  - vm_compute; reflexivity.
  - vm_compute; reflexivity.
  - reflexivity.
  - vm_compute; reflexivity.
  - reflexivity.
  - intros d [].
  - exists s'. split; [exact H|]. rewrite He. vm_compute; reflexivity.
Defined.

(* ------------------------------------------------------------------ *)
(** ** What an expansion leaves on the object *)

Lemma release_Ok_node h s s' :
  release h s = Ok tt s' ->
  exists nd,
    hget h (registry s) = Some nd
    /\ registry s'
       = hset h (mkNode (n_class nd)
                   (dset "_expand_lock" (VLock false) (n_dict nd)))
           (registry s).
Proof.
  unfold release. intros H.
  apply bind_Ok_inv in H as (l & s0 & Ha & H).
  apply attr_Ok_inv in Ha as (-> & _).
  destruct l as [| | | | | | | | | | | | | |[|]]; try discriminate.
  apply set_private_Ok_inv in H as (nd & Hh & ->).
  exists nd. split; [exact Hh|]. reflexivity.
Qed.

Lemma external_resolve_Ok_path call h s s' :
  external_resolve call h s = Ok tt s' ->
  exists nd p,
    hget h (registry s') = Some nd
    /\ dget "path" (n_dict nd) = Some p /\ truthy p = true.
Proof.
  unfold external_resolve. intros H.
  apply bind_Ok_inv in H as (p & s0 & Ha & H).
  apply attr_Ok_inv in Ha as (-> & nd & Hh & Hg).
  destruct (truthy p) eqn:Ep.
  - injection H as <-. exists nd, p.
    rewrite getattr_plain in Hg by reflexivity. auto.
  - apply bind_Ok_inv in H as (? & ? & [= <- <-] & H).
    apply bind_Ok_inv in H as (b & s1 & Hf & H).
    apply try_finders_never_returns in Hf as ->.
    apply bind_Ok_inv in H as (p' & s2 & Ha & H).
    apply attr_Ok_inv in Ha as (-> & nd1 & Hh1 & Hg1).
    destruct (truthy p') eqn:Ep'.
    + injection H as <-. exists nd1, p'.
      rewrite getattr_plain in Hg1 by reflexivity. auto.
    + apply bind_Ok_inv in H as (? & ? & _ & H). discriminate.
Qed.

Lemma try_finally_bind_Ok {A B} (m : M A) (f : A -> M B) (fin : M unit)
  s a sa :
  m s = Ok a sa ->
  try_finally (x <- m ;; f x) fin s = try_finally (f a) fin sa.
Proof. intros H. unfold try_finally. now rewrite (bind_Ok H). Qed.

Section Marked.

Variable sys : string.
Variable call : nat -> list value -> M value.
Hypothesis call_grows : forall id args, keeps grows (call id args).

(** The part of [expand] between the assignment of [_expanded] and the
    call of [_resolve]. *)
Lemma expand_front_keeps h :
  keeps grows
    (nd1 <- lookup h ;;
     (if is_prepared nd1 then ret tt
      else
        set_private h "_expand_lock" (VLock false) ;;
        set_private h "_prepared" (VBool true)) ;;
     acquire h ;;
     nd2 <- lookup h ;;
     (if is_prepared nd1 then ret tt
      else hook_prepare sys nd2.(n_class) h)).
Proof.
  apply (keeps_bind grows_frame);
    [apply (keeps_lookup grows_frame)|intros nd1].
  apply (keeps_bind grows_frame).
  { destruct (is_prepared nd1); [apply (keeps_ret grows_frame)|].
    apply (keeps_bind grows_frame); intros;
      apply (keeps_set_private grows_frame);
      [left; split; discriminate | right; reflexivity]. }
  intros _.
  apply (keeps_bind grows_frame);
    [apply (keeps_acquire grows_frame)|intros _].
  apply (keeps_bind grows_frame);
    [apply (keeps_lookup grows_frame)|intros nd2].
  destruct (is_prepared nd1); [apply (keeps_ret grows_frame)|].
  apply (keeps_hook_prepare grows_frame).
Qed.

(** [expand] once [_expanded] is set. *)
Lemma expand_rest_keeps n h :
  keeps grows
    (try_finally
       (nd1 <- lookup h ;;
        let was_prepared := is_prepared nd1 in
        (if was_prepared then ret tt
         else
           set_private h "_expand_lock" (VLock false) ;;
           set_private h "_prepared" (VBool true)) ;;
        acquire h ;;
        nd2 <- lookup h ;;
        (if was_prepared then ret tt
         else hook_prepare sys nd2.(n_class) h) ;;
        nd3 <- lookup h ;;
        hook_resolve call (expand sys call n) nd3.(n_class) h ;;
        modify (fun s => set_pool_all (set_add h s.(pool_all)) s) ;;
        ret h)
       (release h)).
Proof.
  apply (keeps_try_finally grows_frame); [|apply (keeps_release grows_frame)].
  apply (keeps_bind grows_frame);
    [apply (keeps_lookup grows_frame)|intros nd1].
  cbv zeta.
  apply (keeps_bind grows_frame).
  { destruct (is_prepared nd1); [apply (keeps_ret grows_frame)|].
    apply (keeps_bind grows_frame); intros;
      apply (keeps_set_private grows_frame);
      [left; split; discriminate | right; reflexivity]. }
  intros _.
  apply (keeps_bind grows_frame);
    [apply (keeps_acquire grows_frame)|intros _].
  apply (keeps_bind grows_frame);
    [apply (keeps_lookup grows_frame)|intros nd2].
  apply (keeps_bind grows_frame).
  { destruct (is_prepared nd1); [apply (keeps_ret grows_frame)|].
    apply (keeps_hook_prepare grows_frame). }
  intros _.
  apply (keeps_bind grows_frame);
    [apply (keeps_lookup grows_frame)|intros nd3].
  apply (keeps_bind grows_frame).
  { apply (@keeps_hook_resolve _ grows_frame call call_grows).
    intros x. apply (@keeps_expand _ grows_frame sys call call_grows). }
  intros _.
  apply (keeps_bind grows_frame);
    [apply (keeps_modify_pool grows_frame)|intros _].
  apply (keeps_ret grows_frame).
Qed.

Lemma expand_marks n h s nd :
  hget h (registry s) = Some nd ->
  exists nd',
    hget h (registry (state_after (expand sys call (S n) h) s)) = Some nd'
    /\ is_expanded nd' = true.
Proof.
  intros Hh.
  destruct (is_expanded nd) eqn:Ee.
  - pose proof (@keeps_expand _ grows_frame sys call call_grows (S n) h s) as G.
    destruct (@grows_node _ _ h _ G Hh) as (nd' & Hh' & _ & _ & He').
    exists nd'. auto.
  - set (sa := set_registry
                 (hset h (mkNode (n_class nd)
                            (dset "_expanded" (VBool true) (n_dict nd)))
                    (registry s)) s).
    assert (Hha : hget h (registry sa)
                  = Some (mkNode (n_class nd)
                            (dset "_expanded" (VBool true) (n_dict nd))))
      by apply hget_hset_same.
    pose proof (expand_rest_keeps n h sa) as G.
    match type of G with
    | grows sa (state_after ?m sa) =>
        assert (E : state_after (expand sys call (S n) h) s = state_after m sa)
    end.
    { unfold state_after. cbn [expand].
      unfold bind at 1, lookup at 1. rewrite Hh, Ee.
      rewrite (@try_finally_bind_Ok _ _ _ _ _ _ _ _
                 (set_private_Ok h "_expanded" (VBool true) s Hh)).
      reflexivity. }
    rewrite E.
    destruct (@grows_node _ _ h _ G Hha) as (nd' & Hh' & _ & _ & He').
    exists nd'. split; [exact Hh'|]. apply He'.
    unfold is_expanded, private_flag. cbn [n_dict].
    now rewrite dget_dset_same.
Qed.

Lemma expand_Ok_resolved n h s nd r s1 :
  hget h (registry s) = Some nd ->
  n_class nd = C_external ->
  is_expanded nd = false ->
  expand sys call n h s = Ok r s1 ->
  exists nd1 p,
    hget h (registry s1) = Some nd1
    /\ dget "path" (n_dict nd1) = Some p /\ truthy p = true.
Proof.
  intros Hh Hc Ee H.
  destruct n as [|n]; [discriminate|]. cbn [expand] in H.
  unfold bind at 1, lookup at 1 in H. rewrite Hh, Ee in H.
  apply try_finally_Ok_inv in H as (s' & Hb & Hr).
  apply bind_Ok_inv in Hb as ([] & sa & Hset & Hb).
  rewrite (set_private_Ok h "_expanded" (VBool true) s Hh) in Hset.
  injection Hset as <-.
  match type of Hb with
  | _ ?s0 = _ => set (sa := s0) in *
  end.
  assert (Hha : exists nda, hget h (registry sa) = Some nda
                            /\ n_class nda = C_external).
  { eexists. split; [apply hget_hset_same|]. exact Hc. }
  destruct Hha as (nda & Hha & Hca).
  apply bind_Ok_inv in Hb as (nd1 & s0 & Hl1 & Hb).
  cbv zeta in Hb.
  apply bind_Ok_inv in Hb as ([] & sb & H1 & Hb).
  apply bind_Ok_inv in Hb as ([] & sc & H2 & Hb).
  apply bind_Ok_inv in Hb as (nd2 & s2 & Hl2 & Hb).
  apply bind_Ok_inv in Hb as ([] & sd & H3 & Hb).
  apply bind_Ok_inv in Hb as (nd3 & s3 & Hl3 & Hb).
  apply bind_Ok_inv in Hb as ([] & se & H4 & Hb).
  apply bind_Ok_inv in Hb as ([] & sf & H5 & Hb).
  injection Hb as <- <-.
  injection H5 as <-.
  assert (G : grows sa sd).
  { pose proof (expand_front_keeps h sa) as G.
    match type of G with
    | grows sa (state_after ?m sa) =>
        assert (E : m sa = Ok tt sd)
    end.
    { rewrite (bind_Ok Hl1), (bind_Ok H1), (bind_Ok H2), (bind_Ok Hl2).
      exact H3. }
    now rewrite (state_after_Ok _ _ E) in G. }
  apply lookup_Ok_inv in Hl3 as (-> & Hh3).
  destruct (@grows_node _ _ h _ G Hha) as (nd' & Hh' & Hc' & _).
  assert (nd' = nd3) as -> by congruence.
  rewrite Hc', Hca in H4. cbn [hook_resolve] in H4.
  apply external_resolve_Ok_path in H4 as (nde & p & Hhe & Hp & Ht).
  apply release_Ok_node in Hr as (ndr & Hhr & ->).
  cbn [registry set_pool_all] in Hhr.
  assert (ndr = nde) as -> by congruence.
  eexists. exists p. rewrite hget_hset_same. split; [reflexivity|].
  cbn [n_dict]. rewrite dget_dset_other by discriminate. auto.
Qed.

End Marked.

(** X22.  An external that [expand] returns has been resolved: when
    an external that is not expanded yet is expanded and the call
    returns, its [path] is set to a true value, by its declaration or
    by a finder, whatever the finder hooks do. *)
Theorem expanded_external_has_a_path :
  forall sys call n h s nd r s1,
    hget h (registry s) = Some nd ->
    n_class nd = C_external ->
    is_expanded nd = false ->
    expand sys call n h s = Ok r s1 ->
    exists nd1 p,
      hget h (registry s1) = Some nd1
      /\ dget "path" (n_dict nd1) = Some p /\ truthy p = true.
Proof.
  intros sys call n h s nd r s1.
  apply (@expand_Ok_resolved sys call n h s nd r s1).
Qed.

Lemma expanded_external_has_a_path_witness :
  exists s1 nd1 p,
    expand sample_systarget sample_call 3 "external.executable::ar" loaded
    = Ok "external.executable::ar" s1
    /\ hget "external.executable::ar" (registry s1) = Some nd1
    /\ dget "path" (n_dict nd1) = Some p /\ truthy p = true.
Proof.
  assert (H : expand sample_systarget sample_call 3 "external.executable::ar"
                loaded
              = Ok "external.executable::ar"
                  (state_after
                     (expand sample_systarget sample_call 3
                        "external.executable::ar") loaded))
    by (vm_compute; reflexivity).
  destruct (@expanded_external_has_a_path sample_systarget sample_call
              3 "external.executable::ar"
              loaded
              (match hget "external.executable::ar" (registry loaded) with
               | Some nd => nd
               | None => mkNode C_target []
               end)
              _ _
              ltac:(vm_compute; reflexivity)
              ltac:(vm_compute; reflexivity)
              ltac:(vm_compute; reflexivity) H)
    as (nd1 & p & Hh & Hp & Ht).
  eexists. exists nd1, p. split; [exact H|]. auto.
Defined.

(** X23.  [expand] marks a registered object as expanded before
    anything else and never takes the mark back (for finder hooks that
    clear no error, register or re-class no object and reset no
    flag): whatever the outcome of the call (a return, [sys.exit], an
    exception of a hook), the object is expanded afterwards, and if
    its lock is free then, every later call returns it at once and
    changes nothing, so that a failed expansion is not tried again. *)
Theorem failed_expansion_is_not_retried :
  forall sys call,
    (forall id args, keeps grows (call id args)) ->
    forall n h s nd,
      hget h (registry s) = Some nd ->
      let s' := state_after (expand sys call (S n) h) s in
      exists nd',
        hget h (registry s') = Some nd'
        /\ is_expanded nd' = true
        /\ (dget "_expand_lock" (n_dict nd') = Some (VLock false) ->
            forall m, expand sys call (S m) h s' = Ok h s').
Proof.
  intros sys call Hc n h s nd Hh s'.
  destruct (@expand_marks sys call Hc n h s nd Hh) as (nd' & Hh' & He').
  exists nd'. split; [exact Hh'|]. split; [exact He'|].
  intros Hl m. apply (@expand_settled sys call m h s' nd' Hh' (conj He' Hl)).
Qed.

Lemma failed_expansion_is_not_retried_witness :
  let h := "external.executable::cc" in
  exists s',
    expand sample_systarget sample_call 3 h declared_cc
    = Raise "TypeError: can't resolve target 'external.executable::cc'" s'
    /\ expand sample_systarget sample_call 3 h s' = Ok h s'.
Proof.
  cbv zeta.
  destruct (@failed_expansion_is_not_retried sample_systarget sample_call
              (sample_call_keeps grows_frame) 2 "external.executable::cc"
              declared_cc
              (match hget "external.executable::cc" (registry declared_cc) with
               | Some nd => nd
               | None => mkNode C_target []
               end)
              ltac:(vm_compute; reflexivity))
    as (nd' & Hh & _ & Hagain).
  eexists. split; [vm_compute; reflexivity|].
  apply Hagain.
  vm_compute in Hh. injection Hh as <-. vm_compute. reflexivity.
Defined.

(* ------------------------------------------------------------------ *)
(** ** [environment._prepare]: inheritance *)

(** A schema that runs through without a pending error leaves in each
    declared attribute the value that was given, or else the default
    of the declaration. *)
Lemma declare_exact h : forall specs s s' nd,
  NoDup (map fs_name specs) ->
  (forall sp, In sp specs -> plain_key (fs_name sp) = true) ->
  hget h (registry s) = Some nd ->
  declare h specs s = Ok tt s' ->
  haserror s' = 0 ->
  haserror s = 0
  /\ exists nd',
       hget h (registry s') = Some nd'
       /\ n_class nd' = n_class nd
       /\ (forall x, x <> h -> hget x (registry s') = hget x (registry s))
       /\ (forall g, ~ In g (map fs_name specs) ->
                     dget g (n_dict nd') = dget g (n_dict nd))
       /\ forall sp, In sp specs ->
                     dget (fs_name sp) (n_dict nd')
                     = inherit (dget (fs_name sp) (n_dict nd))
                         (Some (fs_default sp)).
Proof.
  induction specs as [|sp specs IH]; intros s s' nd Hnd Hplain Hh H He.
  - injection H as <-. split; [exact He|].
    exists nd. repeat split; auto. intros sp [].
  - unfold declare in H. cbn [for_each] in H.
    apply bind_Ok_inv in H as ([] & s1 & H1 & H).
    fold (declare h specs) in H.
    cbn [map] in Hnd. inversion Hnd as [|? ? Hnotin Hnd']; subst.
    assert (Hplain' : forall sp0, In sp0 specs -> plain_key (fs_name sp0) = true)
      by (intros; apply Hplain; now right).
    pose proof (Hplain sp (or_introl eq_refl)) as Hpf.
    apply field_Ok_inv in H1 as (obj & Hobj & Hv1 & Hcases).
    replace obj with nd in * by congruence. clear Hobj.
    rewrite (getattr_plain s h nd _ Hpf) in Hcases.
    assert (Hh1 : exists nd1,
               hget h (registry s1) = Some nd1
               /\ n_class nd1 = n_class nd
               /\ (forall x, x <> h ->
                             hget x (registry s1) = hget x (registry s))
               /\ (forall g, g <> fs_name sp ->
                             dget g (n_dict nd1) = dget g (n_dict nd))).
    { destruct Hcases as [(v & _ & _ & _ & Hr & _)
                         |[(_ & _ & _ & Hr & _)|(_ & Hr)]];
        rewrite Hr.
      - exists nd. auto.
      - eexists. rewrite hget_hset_same. split; [reflexivity|].
        cbn [n_class n_dict]. split; [reflexivity|].
        split; intros; [now apply hget_hset_other|].
        now apply dget_dset_other.
      - exists nd. auto. }
    destruct Hh1 as (nd1 & Hh1 & Hc1 & Ho1 & Hd1).
    destruct (IH s1 s' nd1 Hnd' Hplain' Hh1 H He)
      as (He1 & nd' & Hh' & Hc' & Ho' & Hd' & Hall).
    assert (He0 : haserror s = 0).
    { destruct Hcases as [(v & _ & _ & _ & _ & E)
                         |[(_ & _ & _ & _ & E)|(E & _)]]; lia. }
    split; [exact He0|].
    exists nd'. split; [exact Hh'|]. split; [congruence|].
    split. { intros x Hx. rewrite Ho', Ho1; auto. }
    split.
    { intros g Hg. cbn [map In] in Hg.
      rewrite Hd' by tauto. apply Hd1. intros ->. tauto. }
    intros sp0 [<-|Hin].
    + rewrite (Hd' _ Hnotin).
      destruct Hcases as [(v & Hg & Hvn & _ & Hr & _)
                         |[(_ & _ & Habs & Hr & _)|(E & _)]]; [| |lia].
      * assert (nd1 = nd) as -> by (rewrite Hr, Hh in Hh1; congruence).
        rewrite Hg. unfold inherit, given. destruct v; congruence.
      * rewrite Hr, hget_hset_same in Hh1. injection Hh1 as <-.
        cbn [n_dict]. rewrite dget_dset_same.
        destruct Habs as [-> | ->]; reflexivity.
    + rewrite (Hall _ Hin). f_equal. apply Hd1.
      intros E. apply Hnotin. rewrite <- E. now apply in_map.
Qed.

(** X24.  An environment that is not the class default inherits from
    its parent: when [environment._prepare] returns, no error is
    pending, [parent] is the environment that was given or else the
    class default, each of [systarget], [archiver] and [linker] holds
    the value given on the environment or else the value the parent
    had, and [includes] and [variables] do the same with an empty set
    and an empty dict in place of [None]. *)
Theorem environment_inherits_from_its_parent :
  forall sys h s s' nd d,
    hget h (registry s) = Some nd ->
    class_default s C_environment = Some d ->
    d <> h ->
    environment_prepare sys h s = Ok tt s' ->
    haserror s' = 0
    /\ exists p ndp nd',
         p = match dget "parent" (n_dict nd) with
             | Some (VRef q) => q
             | _ => d
             end
         /\ hget p (registry s) = Some ndp
         /\ hget h (registry s') = Some nd'
         /\ dget "parent" (n_dict nd') = Some (VRef p)
         /\ (forall k, In k ["systarget"; "archiver"; "linker"] ->
                       dget k (n_dict nd')
                       = inherit (dget k (n_dict nd)) (dget k (n_dict ndp)))
         /\ dget "includes" (n_dict nd')
            = or_empty (VSet [])
                (inherit (dget "includes" (n_dict nd))
                   (dget "includes" (n_dict ndp)))
         /\ dget "variables" (n_dict nd')
            = or_empty (VDict [])
                (inherit (dget "variables" (n_dict nd))
                   (dget "variables" (n_dict ndp))).
Proof.
  intros sys h s s' nd d Hh Hdef Hne H. unfold environment_prepare in H.
  apply bind_Ok_inv in H as (d0 & s0 & Hd & H).
  apply get_default_Ok_inv in Hd as (-> & Hd).
  assert (d0 = d) as -> by congruence. clear Hd.
  assert (Eself : String.eqb d h = false) by now apply String.eqb_neq.
  rewrite Eself in H.
  apply bind_Ok_inv in H as ([] & s3 & H & Hfill).
  unfold with_validator in H.
  apply bind_Ok_inv in H as ([] & s1 & Henter & H).
  apply try_finally_Ok_inv in H as (s2 & Hbody & Hexit).
  apply validator_exit_Ok_inv in Hexit as (-> & He2 & _).
  (* the body of the validator, step by step *)
  apply bind_Ok_inv in Hbody as ([] & sa & Hpar & Hbody).
  apply bind_Ok_inv in Hbody as (parent & sa' & Hpa & Hbody).
  apply attr_Ok_inv in Hpa as (-> & nda & Hha & Hga).
  rewrite getattr_plain in Hga by reflexivity.
  apply bind_Ok_inv in Hbody as (inh & sb & Hinh & Hbody).
  assert (Hinh' : exists p ndp st va ar li inc,
             parent = VRef p /\ sb = sa
             /\ inh = (st, va, ar, li, inc)
             /\ hget p (registry sa) = Some ndp
             /\ dget "systarget" (n_dict ndp) = Some st
             /\ dget "variables" (n_dict ndp) = Some va
             /\ dget "archiver" (n_dict ndp) = Some ar
             /\ dget "linker" (n_dict ndp) = Some li
             /\ dget "includes" (n_dict ndp) = Some inc).
  { destruct (truthy parent); [|discriminate].
    destruct parent; try discriminate.
    apply bind_Ok_inv in Hinh as (st & x1 & A1 & Hinh).
    apply attr_Ok_inv in A1 as (-> & n1 & Hn1 & G1).
    apply bind_Ok_inv in Hinh as (va & x2 & A2 & Hinh).
    apply attr_Ok_inv in A2 as (-> & n2 & Hn2 & G2).
    apply bind_Ok_inv in Hinh as (ar & x3 & A3 & Hinh).
    apply attr_Ok_inv in A3 as (-> & n3 & Hn3 & G3).
    apply bind_Ok_inv in Hinh as (li & x4 & A4 & Hinh).
    apply attr_Ok_inv in A4 as (-> & n4 & Hn4 & G4).
    apply bind_Ok_inv in Hinh as (inc & x5 & A5 & Hinh).
    apply attr_Ok_inv in A5 as (-> & n5 & Hn5 & G5).
    injection Hinh as <- <-.
    replace n2 with n1 in * by congruence.
    replace n3 with n1 in * by congruence.
    replace n4 with n1 in * by congruence.
    replace n5 with n1 in * by congruence.
    rewrite getattr_plain in G1, G2, G3, G4, G5 by reflexivity.
    exists h0, n1, st, va, ar, li, inc. repeat split; auto. }
  destruct Hinh' as (p & ndp & st & va & ar & li & inc & -> & -> & ->
                     & Hhp & Pst & Pva & Par & Pli & Pinc).
  assert (Hdecl : declare h (environment_schema st ar li inc va) sa
                  = Ok tt s2).
  { apply bind_Ok_inv in Hbody as ([] & x1 & H1 & Hbody).
    apply bind_Ok_inv in Hbody as ([] & x2 & H2 & Hbody).
    apply bind_Ok_inv in Hbody as ([] & x3 & H3 & Hbody).
    apply bind_Ok_inv in Hbody as ([] & x4 & H4 & H5).
    unfold declare, environment_schema.
    cbn [for_each fs_name fs_types fs_required fs_default].
    rewrite (bind_Ok H1), (bind_Ok H2), (bind_Ok H3), (bind_Ok H4),
      (bind_Ok H5).
    reflexivity. }
  clear Hbody.
  destruct (@declare_exact h (environment_schema st ar li inc va) sa s2 nda)
    as (Hea & nd2 & Hh2 & _ & _ & Hsame2 & Hall2); auto.
  { cbn. repeat constructor; cbn; intuition discriminate. }
  { intros sp Hin. cbn in Hin.
    repeat (destruct Hin as [<-|Hin]; [reflexivity|]). destruct Hin. }
  assert (Hdecl1 : declare h [mkSpec "parent" [T_class C_environment] false
                                (VRef d)] s1 = Ok tt sa).
  { unfold declare. cbn [for_each fs_name fs_types fs_required fs_default].
    rewrite (bind_Ok Hpar). reflexivity. }
  assert (Hh1 : exists nd1, hget h (registry s1) = Some nd1).
  { apply field_Ok_inv in Hpar as (obj & Hobj & _). eauto. }
  destruct Hh1 as (nd1 & Hh1).
  destruct (@declare_exact h
              [mkSpec "parent" [T_class C_environment] false (VRef d)]
              s1 sa nd1)
    as (He1 & nda' & Hha' & _ & Hoth1 & Hsame1 & Hall1); auto.
  { cbn. repeat constructor; cbn; tauto. }
  { intros sp [<-|[]]; reflexivity. }
  assert (nda' = nda) as -> by congruence.
  destruct (validator_enter_Ok_inv _ _ Henter He1) as (_ & Hr1 & _).
  assert (nd1 = nd) as -> by (rewrite Hr1, Hh in Hh1; congruence).
  specialize (Hall1 _ (or_introl eq_refl)).
  cbn [fs_name fs_default] in Hall1.
  (* the parent *)
  assert (Hp : p = match dget "parent" (n_dict nd) with
                   | Some (VRef q) => q
                   | _ => d
                   end).
  { rewrite Hga in Hall1. unfold inherit, given in Hall1.
    destruct (dget "parent" (n_dict nd)) as [[]|]; congruence. }
  assert (Hhp0 : exists ndp0,
             hget p (registry s) = Some ndp0
             /\ forall k, k <> "parent" ->
                          dget k (n_dict ndp0) = dget k (n_dict ndp)).
  { destruct (String.eqb_spec p h) as [->|Hph].
    - exists nd. split; [exact Hh|]. intros k Hk.
      replace ndp with nda by congruence. symmetry. apply Hsame1.
      cbn. intuition congruence.
    - exists ndp. split; [|reflexivity].
      rewrite <- Hr1, <- (Hoth1 _ Hph). exact Hhp. }
  destruct Hhp0 as (ndp0 & Hhp0 & Hk0).
  (* the attributes after the validator *)
  assert (Hval : forall k dflt,
             In (k, dflt) [("systarget", st); ("archiver", ar);
                           ("linker", li); ("includes", inc);
                           ("variables", va)] ->
             dget k (n_dict ndp) = Some dflt ->
             dget k (n_dict nd2)
             = inherit (dget k (n_dict nd)) (dget k (n_dict ndp0))).
  { intros k dflt Hin Hdf.
    assert (Hkp : k <> "parent").
    { cbn in Hin. intuition congruence. }
    rewrite (Hk0 _ Hkp), Hdf.
    rewrite <- (Hsame1 k) by (cbn; intuition congruence).
    cbn in Hin.
    destruct Hin as [E|[E|[E|[E|[E|[]]]]]]; injection E as <- <-.
    - apply (Hall2 (mkSpec "systarget" [T_str] false st)). cbn. auto.
    - apply (Hall2 (mkSpec "archiver" [T_class C_generator] false ar)).
      cbn. auto.
    - apply (Hall2 (mkSpec "linker" [T_class C_generator] false li)).
      cbn. auto.
    - apply (Hall2 (mkSpec "includes" [T_list; T_set] false inc)).
      cbn. auto.
    - apply (Hall2 (mkSpec "variables" [T_dict; T_bunch] false va)).
      cbn. auto 6. }
  assert (Hparent2 : dget "parent" (n_dict nd2) = Some (VRef p)).
  { rewrite Hsame2 by (cbn; intuition discriminate). exact Hga. }
  (* the two assignments after the validator *)
  apply bind_Ok_inv in Hfill as (va' & x1 & Ava & Hfill).
  apply attr_Ok_inv in Ava as (-> & n1 & Hn1 & Gva).
  assert (n1 = nd2) as -> by congruence.
  rewrite getattr_plain in Gva by reflexivity.
  apply bind_Ok_inv in Hfill as ([] & s4 & Hset1 & Hfill).
  assert (Hs4 : exists nd4,
             hget h (registry s4) = Some nd4
             /\ haserror s4 = haserror s2
             /\ dget "variables" (n_dict nd4)
                = or_empty (VDict []) (dget "variables" (n_dict nd2))
             /\ forall k, k <> "variables" ->
                          dget k (n_dict nd4) = dget k (n_dict nd2)).
  { rewrite Gva.
    assert (Hkeep : s4 = s2 -> va' <> VNone ->
              exists nd4,
                hget h (registry s4) = Some nd4
                /\ haserror s4 = haserror s2
                /\ dget "variables" (n_dict nd4) = or_empty (VDict []) (Some va')
                /\ forall k, k <> "variables" ->
                             dget k (n_dict nd4) = dget k (n_dict nd2)).
    { intros -> Hv. exists nd2. repeat split; auto.
      rewrite Gva. destruct va'; try reflexivity; congruence. }
    destruct va'; try (injection Hset1 as <-; apply Hkeep;
                       [reflexivity|discriminate]).
    unfold py_setattr, bind, lookup in Hset1. rewrite Hh2 in Hset1.
    cbn in Hset1. injection Hset1 as <-.
    eexists. cbn [registry set_registry haserror]. rewrite hget_hset_same.
    split; [reflexivity|]. split; [reflexivity|].
    cbn [n_dict]. rewrite dget_dset_same. split; [reflexivity|].
    intros k Hk. now apply dget_dset_other. }
  destruct Hs4 as (nd4 & Hh4 & He4 & Hva4 & Hoth4).
  apply bind_Ok_inv in Hfill as (inc' & x2 & Ainc & Hfill).
  apply attr_Ok_inv in Ainc as (-> & n2 & Hn2 & Ginc).
  assert (n2 = nd4) as -> by congruence.
  rewrite getattr_plain in Ginc by reflexivity.
  assert (Hs' : exists nd',
             hget h (registry s') = Some nd'
             /\ haserror s' = haserror s4
             /\ dget "includes" (n_dict nd')
                = or_empty (VSet []) (dget "includes" (n_dict nd4))
             /\ forall k, k <> "includes" ->
                          dget k (n_dict nd') = dget k (n_dict nd4)).
  { rewrite Ginc.
    assert (Hkeep : s' = s4 -> inc' <> VNone ->
              exists nd',
                hget h (registry s') = Some nd'
                /\ haserror s' = haserror s4
                /\ dget "includes" (n_dict nd') = or_empty (VSet []) (Some inc')
                /\ forall k, k <> "includes" ->
                             dget k (n_dict nd') = dget k (n_dict nd4)).
    { intros -> Hv. exists nd4. repeat split; auto.
      rewrite Ginc. destruct inc'; try reflexivity; congruence. }
    destruct inc'; try (injection Hfill as <-; apply Hkeep;
                        [reflexivity|discriminate]).
    unfold py_setattr, bind, lookup in Hfill. rewrite Hh4 in Hfill.
    cbn in Hfill. injection Hfill as <-.
    eexists. cbn [registry set_registry haserror]. rewrite hget_hset_same.
    split; [reflexivity|]. split; [reflexivity|].
    cbn [n_dict]. rewrite dget_dset_same. split; [reflexivity|].
    intros k Hk. now apply dget_dset_other. }
  destruct Hs' as (nd' & Hh' & He' & Hinc' & Hoth').
  split; [congruence|].
  exists p, ndp0, nd'. split; [exact Hp|]. split; [exact Hhp0|].
  split; [exact Hh'|].
  split. { rewrite Hoth', Hoth4 by discriminate. exact Hparent2. }
  split.
  { intros k Hin. cbn in Hin.
    destruct Hin as [<-|[<-|[<-|[]]]];
      rewrite Hoth', Hoth4 by discriminate.
    - apply (Hval "systarget" st); cbn; auto.
    - apply (Hval "archiver" ar); cbn; auto.
    - apply (Hval "linker" li); cbn; auto. }
  split.
  { rewrite Hinc', Hoth4 by discriminate. f_equal.
    apply (Hval "includes" inc); cbn; auto. }
  rewrite Hoth' by discriminate. rewrite Hva4. f_equal.
  apply (Hval "variables" va); cbn; auto 6.
Qed.

Lemma environment_inherits_from_its_parent_witness :
  let h := "environment::debug" in
  exists s' nd',
    environment_prepare sample_systarget h declared_env = Ok tt s'
    /\ hget h (registry s') = Some nd'
    /\ dget "parent" (n_dict nd') = Some (VRef "environment::default")
    /\ dget "systarget" (n_dict nd') = Some (VStr sample_systarget)
    /\ dget "linker" (n_dict nd') = Some (VRef "generator::link")
    /\ dget "includes" (n_dict nd') = Some (VSet [])
    /\ dget "variables" (n_dict nd') = Some (VDict [("CFLAGS", VStr "-g")]).
Proof.
  cbv zeta.
  assert (H : environment_prepare sample_systarget "environment::debug"
                declared_env
              = Ok tt (state_after
                         (environment_prepare sample_systarget
                            "environment::debug") declared_env))
    by (vm_compute; reflexivity).
  destruct (@environment_inherits_from_its_parent sample_systarget
              "environment::debug" declared_env _
              (match hget "environment::debug" (registry declared_env) with
               | Some nd => nd
               | None => mkNode C_target []
               end)
              "environment::default"
              ltac:(vm_compute; reflexivity)
              ltac:(vm_compute; reflexivity)
              ltac:(discriminate) H)
    as (_ & p & ndp & nd' & Hp & Hhp & Hh' & Hpar & H3 & Hinc & Hva).
  vm_compute in Hp. subst p.
  vm_compute in Hhp. injection Hhp as <-.
  eexists. exists nd'. split; [exact H|]. split; [exact Hh'|].
  split; [exact Hpar|].
  split. { rewrite (H3 "systarget") by (cbn; auto). vm_compute; reflexivity. }
  split. { rewrite (H3 "linker") by (cbn; auto). vm_compute; reflexivity. }
  split. { rewrite Hinc. vm_compute; reflexivity. }
  rewrite Hva. vm_compute; reflexivity.
Defined.

(* ------------------------------------------------------------------ *)
(** ** The built-in finder *)

Lemma attr_hit h k s nd v :
  hget h (registry s) = Some nd -> is_property k = false ->
  dget k (n_dict nd) = Some v -> attr h k s = Ok v s.
Proof.
  intros Hh Hk Hg. unfold attr, bind, get_state, lookup. rewrite Hh.
  destruct nd as [c d]. now rewrite (getattr_hit s h c d k Hk Hg).
Qed.

(** X25.  With a single registered finder, whose hook is the built-in
    [default_find], an external of kind ['executable'] whose [path] is
    [None] resolves exactly when [shutil.which] gives a non-empty
    answer for its [external_name]: the answer becomes its [path] and
    nothing else changes; otherwise [_resolve] raises [TypeError] and
    leaves the process state as it is. *)
Theorem builtin_finder_locates_executables :
  forall which call f id h s fnd nd n,
    finders s = [f] ->
    hget f (registry s) = Some fnd ->
    dget "__call__" (n_dict fnd) = Some (VFun id) ->
    (forall args, call id args = default_find which args) ->
    hget h (registry s) = Some nd ->
    n_class nd = C_external ->
    dget "path" (n_dict nd) = Some VNone ->
    dget "kind" (n_dict nd) = Some (VStr "executable") ->
    dget "external_name" (n_dict nd) = Some (VStr n) ->
    external_resolve call h s
    = match which n with
      | Some (String a p) =>
          Ok tt
            (set_registry
               (hset h
                  (mkNode C_external
                     (dset "path" (VStr (String a p)) (n_dict nd)))
                  (registry s)) s)
      | _ =>
          Raise ("TypeError: can't resolve target 'external.executable::"
                 ++ n ++ "'") s
      end.
Proof.
  intros which call f id h s fnd nd n Hfs Hf Hcall Hdef Hh Hc Hpath Hkind Hname.
  assert (Hstr : str_of h s = Ok ("external.executable::" ++ n) s).
  { unfold str_of, bind, get_state, lookup. rewrite Hh.
    rewrite target_name_name_of, Hc. unfold name_of.
    now rewrite Hkind, Hname. }
  assert (Hrun : default_find which [VRef f; VRef h] s
                 = match which n with
                   | Some (String a p) =>
                       Ok (VRef h)
                         (set_registry
                            (hset h
                               (mkNode C_external
                                  (dset "path" (VStr (String a p)) (n_dict nd)))
                               (registry s)) s)
                   | _ => Ok VNone s
                   end).
  { unfold default_find.
    rewrite (bind_Ok (@attr_plain h "kind" s nd _ Hh eq_refl Hkind)).
    change (py_eq (VStr "executable") (VStr "executable")) with true.
    cbv iota.
    rewrite (bind_Ok (@attr_plain h "external_name" s nd _ Hh eq_refl Hname)).
    destruct (which n) as [[|a p]|]; try reflexivity.
    change (negb (String.eqb (String a p) "")) with true. cbv iota.
    unfold py_setattr, bind, lookup. rewrite Hh.
    unfold node_setattr. change (is_property "path") with false. cbv iota.
    rewrite Hc. reflexivity. }
  assert (Hfind : finder_find call f h s
                  = match which n with
                    | Some (String a p) =>
                        Ok VNone
                          (set_registry
                             (hset h
                                (mkNode C_external
                                   (dset "path" (VStr (String a p))
                                      (n_dict nd)))
                                (registry s)) s)
                    | _ => Ok VNone s
                    end).
  { unfold finder_find.
    rewrite (bind_Ok (@attr_hit f "__call__" s fnd _ Hf eq_refl Hcall)).
    unfold bind. rewrite Hdef, Hrun.
    destruct (which n) as [[|a p]|]; reflexivity. }
  unfold external_resolve.
  rewrite (bind_Ok (@attr_plain h "path" s nd _ Hh eq_refl Hpath)).
  change (truthy VNone) with false. cbv iota.
  unfold bind at 1, get_state at 1. rewrite Hfs.
  cbn [try_finders].
  destruct (which n) as [[|a p]|].
  - rewrite (bind_Ok (m := _ ;; _) (a := false) (s' := s)).
    + rewrite (bind_Ok (@attr_plain h "path" s nd _ Hh eq_refl Hpath)).
      change (truthy VNone) with false. cbv iota.
      rewrite (bind_Ok Hstr). reflexivity.
    + now rewrite (bind_Ok Hfind).
  - set (nd1 := mkNode C_external
                  (dset "path" (VStr (String a p)) (n_dict nd))) in *.
    set (s1 := set_registry (hset h nd1 (registry s)) s) in *.
    assert (Hh1 : hget h (registry s1) = Some nd1) by apply hget_hset_same.
    rewrite (bind_Ok (m := _ ;; _) (a := false) (s' := s1)).
    + rewrite (bind_Ok (@attr_plain h "path" s1 nd1 (VStr (String a p)) Hh1
                          eq_refl (dget_dset_same _ _ _))).
      reflexivity.
    + now rewrite (bind_Ok Hfind).
  - rewrite (bind_Ok (m := _ ;; _) (a := false) (s' := s)).
    + rewrite (bind_Ok (@attr_plain h "path" s nd _ Hh eq_refl Hpath)).
      change (truthy VNone) with false. cbv iota.
      rewrite (bind_Ok Hstr). reflexivity.
    + now rewrite (bind_Ok Hfind).
Qed.

Lemma builtin_finder_locates_executables_witness :
  let h := "external.executable::ninja" in
  exists nd,
    hget h (registry prepared_builtin) = Some nd
    /\ external_resolve (fun _ => default_find sample_which) h
         prepared_builtin
       = Ok tt
           (set_registry
              (hset h
                 (mkNode C_external
                    (dset "path" (VStr "/usr/bin/ninja") (n_dict nd)))
                 (registry prepared_builtin)) prepared_builtin).
Proof.
  cbv zeta.
  exists (match hget "external.executable::ninja" (registry prepared_builtin)
          with
          | Some nd => nd
          | None => mkNode C_target []
          end).
  split; [vm_compute; reflexivity|].
  apply (@builtin_finder_locates_executables sample_which
           (fun _ => default_find sample_which)
           "finder::default" 0 "external.executable::ninja" prepared_builtin
           (match hget "finder::default" (registry prepared_builtin) with
            | Some nd => nd
            | None => mkNode C_target []
            end)
           _ "ninja").
  - vm_compute; reflexivity.
  - vm_compute; reflexivity.
  - vm_compute; reflexivity.
  - reflexivity.
  - vm_compute; reflexivity.
  - vm_compute; reflexivity.
  - vm_compute; reflexivity.
  - vm_compute; reflexivity.
  - vm_compute; reflexivity.
Defined.
